(** * Excel-AI: workspace registry, schema registry, normalizer, tool-process
    client and retry loop, embedded from the Python sources under [app/].

  Python [str] values are modelled by [string]; a character stands for a
  code point below 256 (Latin-1), on which [str.strip], [str.lower] and
  [str.replace] behave as written out in [PyStr].  Python [dict]s whose
  iteration order is observable are association lists with Python's
  update-in-place semantics ([PyDict]); the registry's [files] mapping, of
  which only lookups are observed, is a [gmap]. *)

From Stdlib Require Import Ascii String NArith ZArith Bool Lia Floats.
From Stdlib Require Import DecimalString.
From stdpp Require Import base option list strings gmap fin_maps.

Local Open Scope string_scope.
#[local] Set Warnings "-register-all".
#[local] Set Warnings "-notation-overridden".
#[local] Set Warnings "-ambiguous-paths".

(* ===================================================================== *)
(** ** Python string primitives                                            *)
(* ===================================================================== *)

Module PyStr.

Definition code (c : ascii) : N := N_of_ascii c.

(** the double quote character, the one-character string holding it, and a
    text between double quotes *)
Definition dquote : ascii := ascii_of_N 34.

Definition dq : string := String dquote EmptyString.

Definition quoted (s : string) : string := String dquote (s +:+ dq).

Definition in_range (lo hi : N) (c : ascii) : bool :=
  (lo <=? code c)%N && (code c <=? hi)%N.

(** [str.isspace] on code points below 256: TAB..CR, FS..US, SPACE, NEL
    and NBSP.  These are the characters [str.strip()] removes. *)
Definition is_space (c : ascii) : bool :=
  in_range 9 13 c || in_range 28 32 c
  || (code c =? 133)%N || (code c =? 160)%N.

(** [str.lower] on one code point below 256. *)
Definition lower_char (c : ascii) : ascii :=
  if in_range 65 90 c
     || (in_range 192 222 c && negb (code c =? 215)%N)
  then ascii_of_N (code c + 32) else c.

Fixpoint lower (s : string) : string :=
  match s with
  | EmptyString => EmptyString
  | String c r => String (lower_char c) (lower r)
  end.

Fixpoint lstrip (s : string) : string :=
  match s with
  | EmptyString => EmptyString
  | String c r => if is_space c then lstrip r else s
  end.

Fixpoint rstrip (s : string) : string :=
  match s with
  | EmptyString => EmptyString
  | String c r =>
      match rstrip r with
      | EmptyString => if is_space c then EmptyString else String c EmptyString
      | r' => String c r'
      end
  end.

(** [s.strip()] *)
Definition strip (s : string) : string := rstrip (lstrip s).

(** [s.replace("  ", " ")]: one left-to-right pass over non-overlapping
    occurrences of two spaces. *)
Fixpoint replace_2sp (s : string) : string :=
  match s with
  | EmptyString => EmptyString
  | String c r =>
      match r with
      | String c' r' =>
          if Ascii.eqb c " " && Ascii.eqb c' " "
          then String " " (replace_2sp r')
          else String c (replace_2sp r)
      | EmptyString => String c EmptyString
      end
  end.

(** [s.endswith(suf)] *)
Fixpoint endswith (suf s : string) : bool :=
  if String.eqb s suf then true
  else match s with
       | EmptyString => false
       | String _ r => endswith suf r
       end.

(** [s.startswith(pre)] *)
Definition startswith (pre s : string) : bool := String.prefix pre s.

Definition head_space (s : string) : bool :=
  match s with String c _ => is_space c | EmptyString => false end.

Fixpoint last_space (s : string) : bool :=
  match s with
  | EmptyString => false
  | String c EmptyString => is_space c
  | String _ r => last_space r
  end.

(** some run of two (resp. three) consecutive U+0020 *)
Fixpoint has_2sp (s : string) : bool :=
  match s with
  | EmptyString => false
  | String c r =>
      match r with
      | String c' _ => (Ascii.eqb c " " && Ascii.eqb c' " ") || has_2sp r
      | EmptyString => false
      end
  end.

Fixpoint has_3sp (s : string) : bool :=
  match s with
  | EmptyString => false
  | String c r =>
      match r with
      | String c' (String c'' _) =>
          (Ascii.eqb c " " && Ascii.eqb c' " " && Ascii.eqb c'' " ")
          || has_3sp r
      | _ => false
      end
  end.

End PyStr.

(* ===================================================================== *)
(** ** Decoded JSON values and Python dictionaries                         *)
(* ===================================================================== *)

Module Json.

(** What [json.loads] produces: [None], [bool], [int], [float], [str],
    [list], [dict] (with its insertion order). *)
Inductive json : Type :=
| JNull
| JBool (b : bool)
| JInt (z : Z)
| JFloat (f : PrimFloat.float)
| JStr (s : string)
| JList (l : list json)
| JDict (d : list (string * json)).

(** Python truthiness ([if v:]). *)
Definition truthy (v : json) : bool :=
  match v with
  | JNull => false
  | JBool b => b
  | JInt z => negb (z =? 0)%Z
  | JFloat f => negb (PrimFloat.eqb f PrimFloat.zero)
  | JStr s => negb (String.eqb s "")
  | JList l => match l with [] => false | _ => true end
  | JDict d => match d with [] => false | _ => true end
  end.

Definition is_none (v : json) : bool :=
  match v with JNull => true | _ => false end.

End Json.

Module PyDict.

Section Dict.
Context {V : Type}.

(** A [dict] with [str] keys: keys are unique and kept in insertion order. *)
Definition t := list (string * V).

(** [d.get(k)] / [d[k]] *)
Fixpoint get (k : string) (d : t) : option V :=
  match d with
  | [] => None
  | (k', v) :: r => if String.eqb k' k then Some v else get k r
  end.

(** [k in d] *)
Definition mem (k : string) (d : t) : bool :=
  match get k d with Some _ => true | None => false end.

(** [d[k] = v]: overwrite in place when [k] is present, else append. *)
Fixpoint set (k : string) (v : V) (d : t) : t :=
  match d with
  | [] => [(k, v)]
  | (k', v') :: r =>
      if String.eqb k' k then (k', v) :: r else (k', v') :: set k v r
  end.

Definition keys (d : t) : list string := map fst d.

End Dict.
Arguments t : clear implicits.

End PyDict.

(* ===================================================================== *)
(** ** agent/tool_registry.py                                              *)
(* ===================================================================== *)

Module ToolRegistry.
Import Json.

(** [TOOL_SCHEMAS]: tool name to its ["required"] list, in source order. *)
Definition TOOL_SCHEMAS : PyDict.t (list string) :=
  [ ("create_workbook", ["filepath"]);
    ("rename_workbook", ["old_filepath"; "new_filepath"]);
    ("create_worksheet", ["filepath"; "sheet_name"]);
    ("create_multiple_worksheets", ["filepath"; "sheet_names"]);
    ("get_workbook_metadata", ["filepath"]);
    ("write_data_to_excel", ["filepath"; "sheet_name"; "data"]);
    ("read_data_from_excel", ["filepath"; "sheet_name"]);
    ("format_range", ["filepath"; "sheet_name"; "start_cell"]);
    ("merge_cells", ["filepath"; "sheet_name"; "start_cell"; "end_cell"]);
    ("unmerge_cells", ["filepath"; "sheet_name"; "start_cell"; "end_cell"]);
    ("get_merged_cells", ["filepath"; "sheet_name"]);
    ("apply_formula", ["filepath"; "sheet_name"; "cell"; "formula"]);
    ("validate_formula_syntax", ["filepath"; "sheet_name"; "cell"; "formula"]);
    ("create_chart",
      ["filepath"; "sheet_name"; "data_range"; "chart_type"; "target_cell"]);
    ("create_pivot_table",
      ["filepath"; "sheet_name"; "data_range"; "target_cell"; "rows"; "values"]);
    ("create_table", ["filepath"; "sheet_name"; "data_range"]);
    ("copy_worksheet", ["filepath"; "source_sheet"; "target_sheet"]);
    ("delete_worksheet", ["filepath"; "sheet_name"]);
    ("rename_worksheet", ["filepath"; "old_name"; "new_name"]);
    ("copy_range",
      ["filepath"; "sheet_name"; "source_start"; "source_end"; "target_start"]);
    ("delete_range", ["filepath"; "sheet_name"; "start_cell"; "end_cell"]);
    ("validate_excel_range", ["filepath"; "sheet_name"; "start_cell"]);
    ("get_data_validation_info", ["filepath"; "sheet_name"]);
    ("insert_rows", ["filepath"; "sheet_name"; "start_row"]);
    ("insert_columns", ["filepath"; "sheet_name"; "start_col"]);
    ("delete_sheet_rows", ["filepath"; "sheet_name"; "start_row"]);
    ("delete_sheet_columns", ["filepath"; "sheet_name"; "start_col"]) ].

Definition get_tool_names : list string := PyDict.keys TOOL_SCHEMAS.

(** [repr] of a [str] made of letters, digits and underscores (every field
    name of [TOOL_SCHEMAS] is one): the text between single quotes. *)
Definition repr_ident (s : string) : string := "'" +:+ s +:+ "'".

Fixpoint join (sep : string) (l : list string) : string :=
  match l with
  | [] => ""
  | [x] => x
  | x :: r => x +:+ sep +:+ join sep r
  end.

(** [str(l)] for a list of such strings, as an f-string prints it. *)
Definition repr_ident_list (l : list string) : string :=
  "[" +:+ join ", " (map repr_ident l) +:+ "]".

(** [field not in arguments or arguments[field] is None] *)
Definition is_missing (arguments : PyDict.t json) (field : string) : bool :=
  match PyDict.get field arguments with
  | None => true
  | Some v => is_none v
  end.

Definition validate_tool_call (tool_name : string) (arguments : PyDict.t json)
  : bool * string :=
  match PyDict.get tool_name TOOL_SCHEMAS with
  | None => (false, "Unknown tool: " +:+ tool_name)
  | Some required =>
      let missing := List.filter (is_missing arguments) required in
      match missing with
      | [] => (true, "")
      | _ => (false, "Missing required fields: " +:+ repr_ident_list missing)
      end
  end.

End ToolRegistry.

(* ===================================================================== *)
(** ** agent/default_sheet_guard.py and agent/agent_state.py               *)
(* ===================================================================== *)

Module SheetGuard.

Definition REQUIRES_SHEET : list string :=
  [ "write_data_to_excel"; "read_data_from_excel"; "format_range";
    "merge_cells"; "unmerge_cells"; "apply_formula"; "create_chart";
    "create_table" ].

Definition tool_requires_sheet (tool_name : string) : bool :=
  existsb (String.eqb tool_name) REQUIRES_SHEET.

End SheetGuard.

(* ===================================================================== *)
(** ** agent/utils.py                                                      *)
(* ===================================================================== *)

Module Utils.
Import Json.

(** [text.find(c)]: index of the first occurrence, [None] for [-1]. *)
Fixpoint find_char (c : ascii) (text : string) : option nat :=
  match text with
  | EmptyString => None
  | String a r =>
      if Ascii.eqb a c then Some 0 else S <$> find_char c r
  end.

(** [text[i:]] *)
Fixpoint drop_str (i : nat) (text : string) : string :=
  match i, text with
  | S i', String _ r => drop_str i' r
  | _, _ => text
  end.

(** The [for i in range(start, len(text))] loop: [rest] is [text[i:]].
    Gives the index at which the depth returns to zero, if any. *)
Fixpoint scan (stack : Z) (i : nat) (rest : string) : option nat :=
  match rest with
  | EmptyString => None
  | String a r =>
      if Ascii.eqb a "{" then scan (stack + 1) (S i) r
      else if Ascii.eqb a "}" then
        let stack' := (stack - 1)%Z in
        if (stack' =? 0)%Z then Some i else scan stack' (S i) r
      else scan stack (S i) r
  end.

Section Extract.
(** [json.loads]; [None] stands for [json.JSONDecodeError]. *)
Variable json_loads : string -> option json.

Definition extract_json_from_text (text : string) : option json :=
  if String.eqb text "" then None
  else
    match find_char "{" text with
    | None => None
    | Some start =>
        match scan 0 start (drop_str start text) with
        | Some i => json_loads (String.substring start (i + 1 - start) text)
        | None => None
        end
    end.

End Extract.

End Utils.

(* ===================================================================== *)
(** ** A decoder for the [json.loads] parameter                            *)
(* ===================================================================== *)

(** [json.loads] is Python's library, not code of the repository; the
    functions that call it take it as a parameter.  [MiniJson.loads] is a
    decoder for the JSON texts built from objects, arrays, strings without
    [\u] escapes, integers and the three literals, and is what the examples
    instantiate the parameter with.  On a text outside that fragment (a
    number with a fraction or exponent, a [\u] escape) it gives [None]. *)
Module MiniJson.
Import Json.

Definition is_ws (c : ascii) : bool :=
  Ascii.eqb c " " || (PyStr.code c =? 9)%N || (PyStr.code c =? 10)%N
  || (PyStr.code c =? 13)%N.

Fixpoint skip_ws (s : string) : string :=
  match s with
  | String c r => if is_ws c then skip_ws r else s
  | EmptyString => EmptyString
  end.

Definition unescape (e : ascii) : option ascii :=
  if Ascii.eqb e PyStr.dquote then Some PyStr.dquote
  else if Ascii.eqb e "\" then Some "\"%char
  else if Ascii.eqb e "/" then Some "/"%char
  else if Ascii.eqb e "b" then Some (ascii_of_N 8)
  else if Ascii.eqb e "f" then Some (ascii_of_N 12)
  else if Ascii.eqb e "n" then Some (ascii_of_N 10)
  else if Ascii.eqb e "r" then Some (ascii_of_N 13)
  else if Ascii.eqb e "t" then Some (ascii_of_N 9)
  else None.

(** the text after an opening quote, up to the closing one *)
Fixpoint string_body (s : string) : option (string * string) :=
  match s with
  | EmptyString => None
  | String c r =>
      if Ascii.eqb c PyStr.dquote then Some (EmptyString, r)
      else if Ascii.eqb c "\" then
        match r with
        | String e r' =>
            match unescape e, string_body r' with
            | Some ch, Some (body, rest) => Some (String ch body, rest)
            | _, _ => None
            end
        | EmptyString => None
        end
      else if (PyStr.code c <? 32)%N then None
      else
        match string_body r with
        | Some (body, rest) => Some (String c body, rest)
        | None => None
        end
  end.

Definition is_digit (c : ascii) : bool := PyStr.in_range 48 57 c.

Fixpoint digits (acc : Z) (s : string) : Z * string :=
  match s with
  | String c r =>
      if is_digit c
      then digits (10 * acc + Z.of_N (PyStr.code c - 48)) r
      else (acc, s)
  | EmptyString => (acc, EmptyString)
  end.

Definition starts_fraction (s : string) : bool :=
  match s with
  | String c _ => Ascii.eqb c "." || Ascii.eqb c "e" || Ascii.eqb c "E"
  | EmptyString => false
  end.

(** an integer: ["0"] or a non-zero digit followed by digits *)
Definition unsigned (s : string) : option (Z * string) :=
  match s with
  | String c r =>
      if Ascii.eqb c "0" then
        if starts_fraction r then None else Some (0%Z, r)
      else if is_digit c then
        let '(z, rest) := digits 0 s in
        if starts_fraction rest then None else Some (z, rest)
      else None
  | EmptyString => None
  end.

Definition number (s : string) : option (json * string) :=
  match s with
  | String c r =>
      if Ascii.eqb c "-"
      then match unsigned r with
           | Some (z, rest) => Some (JInt (- z), rest)
           | None => None
           end
      else match unsigned s with
           | Some (z, rest) => Some (JInt z, rest)
           | None => None
           end
  | EmptyString => None
  end.

Definition literal (s : string) : option (json * string) :=
  if String.prefix "true" s then Some (JBool true, Utils.drop_str 4 s)
  else if String.prefix "false" s then Some (JBool false, Utils.drop_str 5 s)
  else if String.prefix "null" s then Some (JNull, Utils.drop_str 4 s)
  else number s.

Inductive mode : Type :=
| MValue
| MMembers (acc : PyDict.t json)
| MElements (acc : list json).

Fixpoint parse (fuel : nat) (m : mode) (s : string) : option (json * string) :=
  match fuel with
  | O => None
  | S fuel' =>
      match m with
      | MValue =>
          match skip_ws s with
          | EmptyString => None
          | String c r =>
              if Ascii.eqb c "{" then
                match skip_ws r with
                | String c' r' =>
                    if Ascii.eqb c' "}" then Some (JDict [], r')
                    else parse fuel' (MMembers []) (String c' r')
                | EmptyString => None
                end
              else if Ascii.eqb c "[" then
                match skip_ws r with
                | String c' r' =>
                    if Ascii.eqb c' "]" then Some (JList [], r')
                    else parse fuel' (MElements []) (String c' r')
                | EmptyString => None
                end
              else if Ascii.eqb c PyStr.dquote then
                match string_body r with
                | Some (body, rest) => Some (JStr body, rest)
                | None => None
                end
              else literal (String c r)
          end
      | MMembers acc =>
          match s with
          | String q r =>
              if Ascii.eqb q PyStr.dquote then
                match string_body r with
                | Some (k, r1) =>
                    match skip_ws r1 with
                    | String colon r2 =>
                        if Ascii.eqb colon ":" then
                          match parse fuel' MValue r2 with
                          | Some (v, r3) =>
                              let acc' := PyDict.set k v acc in
                              match skip_ws r3 with
                              | String d r4 =>
                                  if Ascii.eqb d ","
                                  then parse fuel' (MMembers acc') (skip_ws r4)
                                  else if Ascii.eqb d "}"
                                  then Some (JDict acc', r4)
                                  else None
                              | EmptyString => None
                              end
                          | None => None
                          end
                        else None
                    | EmptyString => None
                    end
                | None => None
                end
              else None
          | EmptyString => None
          end
      | MElements acc =>
          match parse fuel' MValue s with
          | Some (v, r1) =>
              let acc' := (acc ++ [v])%list in
              match skip_ws r1 with
              | String d r2 =>
                  if Ascii.eqb d "," then parse fuel' (MElements acc') r2
                  else if Ascii.eqb d "]" then Some (JList acc', r2)
                  else None
              | EmptyString => None
              end
          | None => None
          end
      end
  end.

Definition loads (s : string) : option json :=
  match parse (2 * String.length s + 2) MValue s with
  | Some (v, rest) =>
      match skip_ws rest with
      | EmptyString => Some v
      | _ => None
      end
  | None => None
  end.

End MiniJson.

(* ===================================================================== *)
(** ** [pathlib] on POSIX: the operations the registry uses                *)
(* ===================================================================== *)

Module PyPath.

(** [s.split(sep)] for a one-character separator *)
Fixpoint split_on (sep : ascii) (s : string) : list string :=
  match s with
  | EmptyString => [EmptyString]
  | String c r =>
      if Ascii.eqb c sep then EmptyString :: split_on sep r
      else match split_on sep r with
           | h :: t => String c h :: t
           | [] => [String c EmptyString]
           end
  end.

Definition is_component (p : string) : bool :=
  negb (String.eqb p "") && negb (String.eqb p ".").

(** the components kept by [PurePosixPath]: empty ones and ["."] are dropped *)
Definition parts (s : string) : list string :=
  List.filter is_component (split_on "/" s).

(** the root: ["//"] for exactly two leading slashes, ["/"] for one or for
    three and more, [""] for a relative path *)
Definition anchor (s : string) : string :=
  match s with
  | String a (String b (String c _)) =>
      if Ascii.eqb a "/" then
        if Ascii.eqb b "/" then (if Ascii.eqb c "/" then "/" else "//")
        else "/"
      else ""
  | String a (String b EmptyString) =>
      if Ascii.eqb a "/" then (if Ascii.eqb b "/" then "//" else "/") else ""
  | String a EmptyString => if Ascii.eqb a "/" then "/" else ""
  | EmptyString => ""
  end.

(** [str(PurePosixPath(...))] from the root and the components *)
Definition render (root : string) (ps : list string) : string :=
  match root, ps with
  | EmptyString, [] => "."
  | _, _ => root +:+ ToolRegistry.join "/" ps
  end.

(** [str(Path(s))] *)
Definition norm (s : string) : string := render (anchor s) (parts s).

(** [Path(s).name] *)
Definition name (s : string) : string := List.last (parts s) "".

Definition WORKSPACE_ROOT : string := "/excel_files".

(** [str(WORKSPACE_ROOT / s)]: an absolute [s] replaces the root *)
Definition under_root (s : string) : string :=
  match anchor s with
  | EmptyString => render "/" ("excel_files" :: parts s)
  | root => render root (parts s)
  end.

(** [str(p)] for an entry [p] of [WORKSPACE_ROOT.glob(...)] named [n] *)
Definition entry_path (n : string) : string := WORKSPACE_ROOT +:+ "/" +:+ n.

End PyPath.

(* ===================================================================== *)
(** ** Exceptions and results                                              *)
(* ===================================================================== *)

Module Exn.

Inductive exn : Type :=
| RecoverableWorkspaceError (msg : string)
| FatalWorkspaceError (msg : string)
| KeyError (key : string)
| TypeError
| AttributeError
| OSError.

(** How a call ends: it returns a value or an exception propagates. *)
Inductive result (A : Type) : Type :=
| Return (a : A)
| Raise (e : exn).
Arguments Return {A} a.
Arguments Raise {A} e.

Definition returned {A} (r : result A) : option A :=
  match r with Return a => Some a | Raise _ => None end.

Definition raised {A} (r : result A) : option exn :=
  match r with Return _ => None | Raise e => Some e end.

End Exn.

(* ===================================================================== *)
(** ** agent/workspace_manager.py                                          *)
(* ===================================================================== *)

Module Workspace.
Import Json Exn.

(** [self.state]: the ["files"] mapping and the ["active_file"] pointer. *)
Record state : Type := State {
  files : gmap string string;
  active_file : option string
}.

(** [_empty_state] *)
Definition empty_state : state := State ∅ None.

(** [_canonical_name] *)
Definition canonical_name (filename : string) : string :=
  let filename := PyStr.strip filename in
  let filename := PyStr.replace_2sp filename in
  if negb (PyStr.endswith ".xlsx" (PyStr.lower filename))
  then filename +:+ ".xlsx"
  else filename.

(** One record of the execution log ([log_execution]'s [entry], without the
    timestamp). *)
Record log_entry : Type := LogEntry {
  log_command : string;
  log_tool : json;
  log_file : json;
  log_args : PyDict.t json;
  log_result : json
}.

(** The host the registry runs on: the workspace directory, the state file,
    the log file and [difflib].  [glob_xlsx] lists the names of
    [WORKSPACE_ROOT.glob("*.xlsx")] in the order the directory scan gives
    them; [os_rename] is [None] when [os.rename] raises; [write_state] and
    [append_log] say whether the write went through.  Writing the state file
    ([.workspace_state.json], through [.workspace_state.tmp]) does not change
    which [*.xlsx] entries the directory has. *)
Class Host (disk : Type) : Type := {
  glob_xlsx : disk -> list string;
  path_exists : disk -> string -> bool;
  os_rename : disk -> string -> string -> option disk;
  write_state : disk -> state -> bool * disk;
  append_log : disk -> log_entry -> bool * disk;
  close_match : string -> gmap string string -> option string;
  write_state_glob :
    forall d st, glob_xlsx (snd (write_state d st)) = glob_xlsx d
}.

Section Registry.
Context {disk : Type} `{Host disk}.

(** The registry object together with the disk it works on. *)
Definition world : Type := state * disk.

(** [_save_state] *)
Definition save_state (w : world) : result unit * world :=
  let '(ok, d') := write_state (snd w) (fst w) in
  (if ok then Return tt else Raise OSError, (fst w, d')).

(** [existing = {p.name: str(p) for p in WORKSPACE_ROOT.glob("*.xlsx")}],
    then the two loops of [_reconcile_filesystem] on the mapping. *)
Definition remove_missing (existing : list string) (fm : gmap string string)
  : gmap string string :=
  filter (fun kv => fst kv ∈ existing) fm.

Definition add_unregistered (existing : list string) (fm : gmap string string)
  : gmap string string :=
  foldl (fun m canon =>
           match m !! canon with
           | None => <[canon := PyPath.entry_path canon]> m
           | Some _ => m
           end) fm existing.

Definition reconciled (existing : list string) (st : state) : state :=
  State (add_unregistered existing (remove_missing existing (files st)))
        (active_file st).

(** [_reconcile_filesystem] *)
Definition reconcile_filesystem (w : world) : result unit * world :=
  let existing := glob_xlsx (snd w) in
  save_state (reconciled existing (fst w), snd w).

(** [register_file] *)
Definition register_file (filename : string) (w : world)
  : result string * world :=
  let canonical := canonical_name filename in
  let full_path := PyPath.under_root canonical in
  let st :=
    State (<[canonical := full_path]> (files (fst w))) (Some canonical) in
  match save_state (st, snd w) with
  | (Return _, w') => (Return full_path, w')
  | (Raise e, w') => (Raise e, w')
  end.

(** [rename_file] *)
Definition rename_file (old_name new_name : string) (w : world)
  : result string * world :=
  let old_name := PyPath.name old_name in
  let new_name := PyPath.name new_name in
  let old_canon := canonical_name old_name in
  let new_canon := canonical_name new_name in
  match files (fst w) !! old_canon with
  | None =>
      (Raise (RecoverableWorkspaceError ("File not tracked: " +:+ old_name)), w)
  | Some registered =>
      let old_path := PyPath.norm registered in
      let new_path := PyPath.under_root new_canon in
      if negb (path_exists (snd w) old_path) then
        (Raise (FatalWorkspaceError ("Physical file missing: " +:+ old_path)), w)
      else
        match os_rename (snd w) old_path new_path with
        | None => (Raise OSError, w)
        | Some d' =>
            let st :=
              State (<[new_canon := new_path]>
                       (delete old_canon (files (fst w))))
                    (Some new_canon) in
            match save_state (st, d') with
            | (Return _, w') => (Return new_path, w')
            | (Raise e, w') => (Raise e, w')
            end
        end
  end.

(** [get_active_file]; the inner [None] is Python's [None] *)
Definition get_active_file (st : state) : result (option string) :=
  match active_file st with
  | None => Return None
  | Some active =>
      if String.eqb active "" then Return None
      else match files st !! active with
           | Some p => Return (Some (PyPath.norm p))
           | None => Raise (KeyError active)
           end
  end.

(** [_suggest_filename] *)
Definition suggest_filename (name : string) (st : state) : option string :=
  close_match name (files st).

(** [existing_files = {p.name.lower(): p for p in WORKSPACE_ROOT.glob(...)}]:
    a later entry with the same lower-cased name replaces an earlier one. *)
Definition existing_files (names : list string) : PyDict.t string :=
  foldl (fun d n => PyDict.set (PyStr.lower n) n d) [] names.

(** [resolve_file]; the argument is whatever value the caller holds under
    the key, [JNull] for [None] *)
Definition resolve_file (filename : json) (w : world) : result string * world :=
  let stripped : result json :=
    if truthy filename then
      match filename with
      | JStr s => Return (JStr (PyPath.name s))
      | _ => Raise TypeError
      end
    else Return filename in
  match stripped with
  | Raise e => (Raise e, w)
  | Return filename =>
      match reconcile_filesystem w with
      | (Raise e, w1) => (Raise e, w1)
      | (Return _, w1) =>
          match filename with
          | JStr (String c r as fname) =>
              let canon := canonical_name fname in
              let found := existing_files (glob_xlsx (snd w1)) in
              match PyDict.get (PyStr.lower canon) found with
              | None =>
                  let msg := "File '" +:+ fname +:+ "' not found" in
                  let msg :=
                    match suggest_filename canon (fst w1) with
                    | Some suggestion =>
                        msg +:+ ". Did you mean '" +:+ suggestion +:+ "'?"
                    | None => msg
                    end in
                  (Raise (RecoverableWorkspaceError msg), w1)
              | Some real_name =>
                  let real_path := PyPath.entry_path real_name in
                  let st :=
                    State (<[real_name := real_path]> (files (fst w1)))
                          (Some real_name) in
                  match save_state (st, snd w1) with
                  | (Return _, w2) => (Return real_path, w2)
                  | (Raise e, w2) => (Raise e, w2)
                  end
              end
          | _ =>
              match get_active_file (fst w1) with
              | Raise e => (Raise e, w1)
              | Return (Some active) => (Return active, w1)
              | Return None =>
                  (Raise (RecoverableWorkspaceError
                            "No active workbook available"), w1)
              end
          end
      end
  end.

(** [log_execution] *)
Definition log_execution (entry : log_entry) (w : world) : result unit * world :=
  let '(ok, d') := append_log (snd w) entry in
  (if ok then Return tt else Raise OSError, (fst w, d')).

End Registry.
Arguments world : clear implicits.

End Workspace.

(* ===================================================================== *)
(** ** The Python runtime the code calls into                              *)
(* ===================================================================== *)

Module Runtime.
Import Json.

(** [json.loads] ([None] for [JSONDecodeError]), [str(v)] for a decoded
    value that is not itself a [str], and the text [str(e)] of the exception
    a failed decoding or look-up of a reply line ends with. *)
Class Python : Type := {
  json_loads : string -> option json;
  py_repr : json -> string;
  exc_text : string -> string
}.

(** [str(v)] *)
Definition py_str `{Python} (v : json) : string :=
  match v with
  | JStr s => s
  | _ => py_repr v
  end.

(** [v == s] for a string constant [s] *)
Definition eq_str (v : json) (s : string) : bool :=
  match v with
  | JStr x => String.eqb x s
  | _ => false
  end.

End Runtime.

(* ===================================================================== *)
(** ** agent/tool_normalizer.py                                            *)
(* ===================================================================== *)

Module Normalizer.
Import Json Exn Runtime.

Definition ALIAS_MAP : PyDict.t string :=
  [ ("workbook", "filepath");
    ("workbook_name", "filepath");
    ("file", "filepath");
    ("old_file", "old_filepath");
    ("new_file", "new_filepath");
    ("worksheet", "sheet_name");
    ("worksheet_name", "sheet_name");
    ("sheet", "sheet_name");
    ("sheets", "sheet_names");
    ("worksheets", "sheet_names");
    ("names", "sheet_names") ].

(** [ALIAS_MAP.get(key, key)] *)
Definition alias (key : string) : string :=
  match PyDict.get key ALIAS_MAP with
  | Some canonical_key => canonical_key
  | None => key
  end.

(** The loop [for key, value in args.items():
      normalized[ALIAS_MAP.get(key, key)] = value], from [normalized = {}]. *)
Definition put (normalized : PyDict.t json) (kv : string * json)
  : PyDict.t json :=
  PyDict.set (alias (fst kv)) (snd kv) normalized.

Definition canonicalize_keys (args : PyDict.t json) : PyDict.t json :=
  foldl put [] args.

(** [s.strip(chars)] *)
Definition in_chars (chars : string) (c : ascii) : bool :=
  existsb (Ascii.eqb c) (list_ascii_of_string chars).

Fixpoint lstrip_chars (chars s : string) : string :=
  match s with
  | EmptyString => EmptyString
  | String c r => if in_chars chars c then lstrip_chars chars r else s
  end.

Fixpoint rstrip_chars (chars s : string) : string :=
  match s with
  | EmptyString => EmptyString
  | String c r =>
      match rstrip_chars chars r with
      | EmptyString =>
          if in_chars chars c then EmptyString else String c EmptyString
      | r' => String c r'
      end
  end.

Definition strip_chars (chars s : string) : string :=
  rstrip_chars chars (lstrip_chars chars s).

Definition nonempty (s : string) : bool := negb (String.eqb s "").

(** the characters the loop strips from each name: the two square
    brackets, the single and the double quote, and the space *)
Definition STRAY : string := "[]'" +:+ PyStr.dq +:+ " ".

(** [[name.strip() for name in v.split(",") if name.strip()]] *)
Definition split_names (v : string) : list string :=
  List.filter nonempty (map PyStr.strip (PyPath.split_on "," v)).

Section Normalize.
Context {disk : Type} `{Workspace.Host disk} `{Python}.

(** The block under [if "sheet_names" in normalized]: the items the [for]
    loop visits, [None] when the value is not iterable. *)
Definition sheet_items (v : json) : option (list json) :=
  match v with
  | JStr s => Some (map JStr (split_names s))
  | JList l => Some l
  | JDict d => Some (map JStr (PyDict.keys d))
  | _ => None
  end.

Definition clean_names (items : list json) : list string :=
  List.filter nonempty
    (map (fun name => strip_chars STRAY (py_str name)) items).

Definition normalize_sheet_names (normalized : PyDict.t json)
  : result (PyDict.t json) :=
  match PyDict.get "sheet_names" normalized with
  | None => Return normalized
  | Some v =>
      match sheet_items v with
      | None => Raise TypeError
      | Some items =>
          Return (PyDict.set "sheet_names"
                    (JList (map JStr (clean_names items))) normalized)
      end
  end.

(** [normalized[key] = str(workspace.resolve_file(normalized[key]))] when the
    key is present and its value is not [None] *)
Definition resolve_key (key : string) (normalized : PyDict.t json)
    (w : Workspace.world disk) : result (PyDict.t json) * Workspace.world disk :=
  match PyDict.get key normalized with
  | None => (Return normalized, w)
  | Some v =>
      if is_none v then (Return normalized, w)
      else match Workspace.resolve_file v w with
           | (Return p, w') => (Return (PyDict.set key (JStr p) normalized), w')
           | (Raise e, w') => (Raise e, w')
           end
  end.

(** the block under [if "new_filepath" in normalized] *)
Definition canonicalize_new (normalized : PyDict.t json)
  : result (PyDict.t json) :=
  match PyDict.get "new_filepath" normalized with
  | None => Return normalized
  | Some JNull => Return normalized
  | Some (JStr s) =>
      Return (PyDict.set "new_filepath"
                (JStr (Workspace.canonical_name (PyPath.name s))) normalized)
  | Some _ => Raise TypeError
  end.

(** [normalize_arguments(args, agent_state, tool_name)]; [args] is the
    value the model gave under ["arguments"] *)
Definition normalize_arguments (args tool_name : json) (w : Workspace.world disk)
  : result (PyDict.t json) * Workspace.world disk :=
  match args with
  | JDict items =>
      match normalize_sheet_names (canonicalize_keys items) with
      | Raise e => (Raise e, w)
      | Return normalized =>
          let '(r1, w1) :=
            if negb (eq_str tool_name "create_workbook")
            then resolve_key "filepath" normalized w
            else (Return normalized, w) in
          match r1 with
          | Raise e => (Raise e, w1)
          | Return normalized =>
              match resolve_key "old_filepath" normalized w1 with
              | (Raise e, w2) => (Raise e, w2)
              | (Return normalized, w2) => (canonicalize_new normalized, w2)
              end
          end
      end
  | _ => (Raise AttributeError, w)
  end.

End Normalize.

End Normalizer.

(* ===================================================================== *)
(** ** mcp/excel_mcp_client.py                                             *)
(* ===================================================================== *)

Module McpClient.
Import Json Exn Runtime.

(** What the operating system answers to the client's next action on the
    child process: [subprocess.Popen] returns or raises; a
    [stdin.write]/[flush] pair goes through, raises [BrokenPipeError] or
    raises something else; [stdout.readline] returns a line ([""] at end of
    file). *)
Inductive answer : Type :=
| Spawned
| SpawnFails
| Written
| BrokenPipe
| WriteFails
| Line (s : string).

(** What the client did to the child process, oldest first. *)
Inductive action : Type :=
| Popen
| Terminate
| Send (method : string) (params : json)
| Readline.

(** [self.process] (is there a handle) and [self.initialized], with the
    answers still to come and the actions so far. *)
Record client : Type := Client {
  process : bool;
  initialized : bool;
  script : list answer;
  actions : list action
}.

Definition did (a : action) (c : client) : client :=
  Client (process c) (initialized c) (script c) (actions c ++ [a]).

Definition next (c : client) : option (answer * client) :=
  match script c with
  | [] => None
  | a :: rest => Some (a, Client (process c) (initialized c) rest (actions c))
  end.

Definition set_initialized (b : bool) (c : client) : client :=
  Client (process c) b (script c) (actions c).

Definition set_process (b : bool) (c : client) : client :=
  Client b (initialized c) (script c) (actions c).

Definition init_params : json :=
  JDict [ ("protocolVersion", JStr "2024-11-05");
          ("capabilities", JDict []);
          ("clientInfo", JDict [ ("name", JStr "excel-ai-agent");
                                 ("version", JStr "2.0.0") ]) ].


Section Client.
Context `{Python}.

(** ["error" in resp]; [None] when the test itself raises [TypeError] *)
Definition has_error (resp : json) : option bool :=
  match resp with
  | JDict d => Some (PyDict.mem "error" d)
  | JList l => Some (existsb (fun v => eq_str v "error") l)
  | JStr s =>
      Some (match String.index 0 "error" s with
            | Some _ => true
            | None => false
            end)
  | _ => None
  end.

(** [close] *)
Definition close (c : client) : client :=
  if process c then did Terminate c else c.

(** [initialize]; [None] when the script has no answer for the next action.
    Every exception is caught and turned into [False]. *)
Definition initialize (c : client) : option (bool * client) :=
  match next (did Popen c) with
  | Some (Spawned, c) =>
      let c := set_process true c in
      match next (did (Send "initialize" init_params) c) with
      | Some (Written, c) =>
          match next (did Readline c) with
          | Some (Line line, c) =>
              if String.eqb line "" then Some (false, c)
              else match json_loads line with
                   | None => Some (false, c)
                   | Some resp =>
                       match has_error resp with
                       | Some false => Some (true, set_initialized true c)
                       | _ => Some (false, c)
                       end
                   end
          | _ => None
          end
      | Some (BrokenPipe, c) | Some (WriteFails, c) => Some (false, c)
      | _ => None
      end
  | Some (SpawnFails, c) => Some (false, c)
  | _ => None
  end.

(** [_restart] *)
Definition restart (c : client) : option client :=
  let c := close c in
  let c := set_initialized false c in
  match initialize c with
  | Some (_, c) => Some c
  | None => None
  end.

(** The [try] block that decodes the reply line in [call_tool]; [None] when
    an exception is raised inside it. *)
Definition decode_reply (line : string) : option (bool * json) :=
  match json_loads line with
  | None => None
  | Some resp =>
      match has_error resp, resp with
      | Some true, JDict d =>
          match PyDict.get "error" d with
          | Some e => Some (false, JStr (py_str e))
          | None => None
          end
      | Some false, JDict d =>
          match default (JDict []) (PyDict.get "result" d) with
          | JDict result =>
              let first : option json :=
                match default (JList [JDict []])
                              (PyDict.get "content" result) with
                | JList (item :: _) => Some item
                | _ => None
                end in
              match first with
              | Some (JDict item) =>
                  let content :=
                    default (JStr "Success") (PyDict.get "text" item) in
                  if truthy (default (JBool false) (PyDict.get "isError" result))
                  then Some (false, content)
                  else Some (true, content)
              | _ => None
              end
          | _ => None
          end
      | _, _ => None
      end
  end.

Definition reply (line : string) : bool * json :=
  match decode_reply line with
  | Some r => r
  | None => (false, JStr (exc_text line))
  end.


End Client.



End McpClient.

(* ===================================================================== *)
(** ** agent/excel_agent.py                                                *)
(* ===================================================================== *)

Module Agent.
Import Json Exn Runtime.

(** The two variable parts of the text [build_prompt] makes. *)
Record prompt : Type := Prompt {
  prompt_user_input : string;
  prompt_error : json
}.

(** The injected [mcp_client] and [llm_client] objects: whatever they are,
    the agent only calls [call_tool] and [call_llm] on them. *)
Class Mcp (M : Type) : Type := {
  mcp_call_tool : string -> PyDict.t json -> M -> result (bool * json) * M
}.

Class Llm (L : Type) : Type := {
  call_llm : prompt -> L -> (bool * string) * L
}.

Definition MAX_RETRIES : nat := 3.

(** Where one pass through the body of the [for] loop leaves it:
    at [continue] (or the end of the body) with the value of [error], or at
    a [return]. *)
Inductive flow : Type :=
| Continue (error : json)
| Finish (r : bool * json).

Section Orchestrator.
Context {disk M L : Type} `{Workspace.Host disk} `{Python} `{Mcp M} `{Llm L}.

(** The agent with the objects it reaches: the [workspace] singleton and its
    lock, the two clients, [AgentState.active_workbook], and the calls made
    on the tool-process client so far (oldest first). *)
Record agent : Type := AgentOf {
  registry : Workspace.world disk;
  lock : bool;
  mcp : M;
  llm : L;
  active_workbook : json;
  calls : list (string * PyDict.t json)
}.

Definition Act (A : Type) : Type := agent -> result A * agent.

Definition ret {A} (a : A) : Act A := fun s => (Return a, s).

Definition throw {A} (e : exn) : Act A := fun s => (Raise e, s).

Definition bind {A B} (m : Act A) (k : A -> Act B) : Act B :=
  fun s =>
    match m s with
    | (Return a, s') => k a s'
    | (Raise e, s') => (Raise e, s')
    end.

Notation "'let!' x ':=' m 'in' k" := (bind m (fun x => k))
  (at level 10, x name, m at level 100, k at level 200).

(** a method of the [workspace] singleton *)
Definition on_registry {A}
    (f : Workspace.world disk -> result A * Workspace.world disk) : Act A :=
  fun s =>
    let '(r, w) := f (registry s) in
    (r, AgentOf w (lock s) (mcp s) (llm s) (active_workbook s) (calls s)).

(** [await self.mcp_client.call_tool(tool_name, arguments)] *)
Definition tool_call (tool_name : string) (arguments : PyDict.t json)
  : Act (bool * json) :=
  fun s =>
    let '(r, m) := mcp_call_tool tool_name arguments (mcp s) in
    (r, AgentOf (registry s) (lock s) m (llm s) (active_workbook s)
                (calls s ++ [(tool_name, arguments)])).

(** [self.state.set_active_workbook(v)] *)
Definition set_active_workbook (v : json) : Act unit :=
  fun s =>
    (Return tt, AgentOf (registry s) (lock s) (mcp s) (llm s) v (calls s)).

(** [workspace.release_lock()] *)
Definition release_lock (s : agent) : agent :=
  if lock s
  then AgentOf (registry s) false (mcp s) (llm s) (active_workbook s) (calls s)
  else s.

Definition take_lock (s : agent) : agent :=
  AgentOf (registry s) true (mcp s) (llm s) (active_workbook s) (calls s).

(** [arguments[key]] *)
Definition item (key : string) (arguments : PyDict.t json) : Act json :=
  match PyDict.get key arguments with
  | Some v => ret v
  | None => throw (KeyError key)
  end.

(** [get_llm_decision] *)
Definition get_llm_decision (p : prompt) : Act (bool * json * json) :=
  fun s =>
    let '((success, response), l) := call_llm p (llm s) in
    let s :=
      AgentOf (registry s) (lock s) (mcp s) l (active_workbook s) (calls s) in
    if negb success then (Return (false, JNull, JNull), s)
    else
      match Utils.extract_json_from_text json_loads response with
      | None => (Return (false, JNull, JNull), s)
      | Some data =>
          if negb (truthy data) then (Return (false, JNull, JNull), s)
          else match data with
               | JDict d =>
                   (Return (true,
                            default JNull (PyDict.get "tool_name" d),
                            default (JDict []) (PyDict.get "arguments" d)), s)
               | _ => (Raise AttributeError, s)
               end
      end.

(** [_safe_parse_metadata] *)
Definition safe_parse_metadata (raw : json) : PyDict.t json :=
  match raw with
  | JDict d => d
  | JStr text =>
      match json_loads text with
      | Some (JDict d) => d
      | _ => []
      end
  | _ => []
  end.

(** [sheets[0]] for a truthy [sheets] *)
Definition first_of (sheets : json) : result json :=
  match sheets with
  | JList (x :: _) => Return x
  | JStr (String c _) => Return (JStr (String c EmptyString))
  | JDict _ => Raise (KeyError "0")
  | _ => Raise TypeError
  end.

(** [resolve_default_sheet] *)
Definition resolve_default_sheet (arguments : PyDict.t json)
  : Act (PyDict.t json) :=
  if PyDict.mem "sheet_name" arguments then ret arguments
  else
    let filepath := default JNull (PyDict.get "filepath" arguments) in
    if negb (truthy filepath) then ret arguments
    else
      let! reply :=
        tool_call "get_workbook_metadata" [("filepath", filepath)] in
      let '(success, metadata) := reply in
      if negb success then ret arguments
      else
        let metadata := safe_parse_metadata metadata in
        let sheets := default (JList []) (PyDict.get "sheets" metadata) in
        if truthy sheets then
          match first_of sheets with
          | Return x => ret (PyDict.set "sheet_name" x arguments)
          | Raise e => throw e
          end
        else ret arguments.

(** the values a [for] loop over [v] visits; [None] when [v] is not iterable *)
Definition py_iter (v : json) : option (list json) :=
  match v with
  | JList l => Some l
  | JStr s =>
      Some (map (fun c => JStr (String c EmptyString)) (list_ascii_of_string s))
  | JDict d => Some (map JStr (PyDict.keys d))
  | _ => None
  end.

(** [', '.join(names)]; [None] when an item is not a [str] *)
Fixpoint all_str (l : list json) : option (list string) :=
  match l with
  | [] => Some []
  | JStr s :: r =>
      match all_str r with
      | Some t => Some (s :: t)
      | None => None
      end
  | _ :: _ => None
  end.

(** the [for name in names] loop of [execute_batch_worksheets]; [None] when
    it ran to its end *)
Fixpoint batch_loop (filepath : json) (names : list json)
  : Act (option (bool * json)) :=
  match names with
  | [] => ret None
  | name :: rest =>
      let! reply :=
        tool_call "create_worksheet"
                  [("filepath", filepath); ("sheet_name", name)] in
      let '(success, result) := reply in
      if negb success then ret (Some (false, result))
      else batch_loop filepath rest
  end.

(** [execute_batch_worksheets] *)
Definition execute_batch_worksheets (arguments : PyDict.t json)
  : Act (bool * json) :=
  let! filepath := item "filepath" arguments in
  let! names := item "sheet_names" arguments in
  match py_iter names with
  | None => throw TypeError
  | Some items =>
      let! stopped := batch_loop filepath items in
      match stopped with
      | Some r => ret r
      | None =>
          match all_str items with
          | Some l =>
              ret (true,
                   JStr ("Created worksheets: "
                         +:+ ToolRegistry.join ", " l))
          | None => throw TypeError
          end
      end
  end.

(** [execute_rename_workbook] *)
Definition execute_rename_workbook (arguments : PyDict.t json)
  : Act (bool * json) :=
  let! old := item "old_filepath" arguments in
  let! new := item "new_filepath" arguments in
  match old, new with
  | JStr old_name, JStr new_name =>
      let! new_path := on_registry (Workspace.rename_file old_name new_name) in
      let! done_ := set_active_workbook (JStr (PyPath.name new_path)) in
      ret (true, JStr ("Renamed workbook to " +:+ new_path))
  | _, _ => throw TypeError
  end.

(** The [if tool_name == "create_workbook": ... elif ... else ...] chain
    under the comment [Execute tool]. *)
Definition dispatch (tool_name : string) (arguments : PyDict.t json)
  : Act (bool * json) :=
  if String.eqb tool_name "create_workbook" then
    let! filepath := item "filepath" arguments in
    match filepath with
    | JStr filename =>
        let! full_path := on_registry (Workspace.register_file filename) in
        let! reply :=
          tool_call tool_name [("filepath", JStr full_path)] in
        let '(success, result) := reply in
        if success
        then let! done_ := set_active_workbook (JStr (PyPath.name full_path)) in
             ret (success, result)
        else ret (success, result)
    | _ => throw AttributeError
    end
  else if String.eqb tool_name "create_multiple_worksheets" then
    execute_batch_worksheets arguments
  else if String.eqb tool_name "rename_workbook" then
    execute_rename_workbook arguments
  else tool_call tool_name arguments.

(** [self.tool_registry.validate_tool_call(tool_name, arguments)] for the
    value the model gave as tool name ([tool_name not in TOOL_SCHEMAS] raises
    for an unhashable one) *)
Definition validate (tool_name : json) (arguments : PyDict.t json)
  : Act (bool * string) :=
  match tool_name with
  | JStr t => ret (ToolRegistry.validate_tool_call t arguments)
  | JList _ | JDict _ => throw TypeError
  | _ => ret (false, "Unknown tool: " +:+ py_str tool_name)
  end.

Definition requires_sheet (tool_name : json) : bool :=
  match tool_name with
  | JStr t => SheetGuard.tool_requires_sheet t
  | _ => false
  end.

(** The inner [try] block of the loop body, without its [except] clauses. *)
Definition attempt (user_input : string) (tool_name arguments : json)
  : Act flow :=
  let! arguments :=
    on_registry (Normalizer.normalize_arguments arguments tool_name) in
  let! arguments := resolve_default_sheet arguments in
  let! reply := validate tool_name arguments in
  let '(valid, error) := reply in
  if requires_sheet tool_name && negb (PyDict.mem "sheet_name" arguments)
  then ret (Continue (JStr "Tool requires sheet_name"))
  else if negb valid then ret (Continue (JStr error))
  else
    match tool_name with
    | JStr t =>
        let! reply := dispatch t arguments in
        let '(success, result) := reply in
        let! done_ :=
          on_registry
            (Workspace.log_execution
               (Workspace.LogEntry user_input tool_name
                  (default JNull (PyDict.get "filepath" arguments))
                  arguments
                  (if success then JStr "success" else result))) in
        if success then ret (Finish (true, result))
        else ret (Continue result)
    | _ => throw TypeError
    end.

(** One pass through the body of [for _ in range(self.MAX_RETRIES)]. *)
Definition body (user_input : string) (error : json) : Act flow :=
  let! reply :=
    get_llm_decision (Prompt user_input error) in
  let '(success, tool_name, arguments) := reply in
  if negb success || negb (truthy tool_name)
  then ret (Continue (JStr "LLM failed to produce valid JSON"))
  else
    fun s =>
      match attempt user_input tool_name arguments s with
      | (Raise (RecoverableWorkspaceError msg), s') =>
          (Return (Continue (JStr msg)), s')
      | (Raise (FatalWorkspaceError msg), s') =>
          (Return (Finish (false, JStr ("Fatal workspace error: " +:+ msg))), s')
      | other => other
      end.

(** The [for] loop with [n] passes left. *)
Fixpoint retry_loop (n : nat) (user_input : string) (error : json) : Act flow :=
  match n with
  | O => ret (Continue error)
  | S n' =>
      fun s =>
        match body user_input error s with
        | (Return (Continue error'), s') => retry_loop n' user_input error' s'
        | other => other
        end
  end.

(** [execute_with_retry]: [await workspace.acquire_lock()], the loop inside
    [try], [workspace.release_lock()] inside [finally], then the last
    [return].  [None]: the lock is held and the call waits for it. *)
Definition execute_with_retry (user_input : string) (s : agent)
  : option (result (bool * json) * agent) :=
  if lock s then None
  else
    let '(r, s') := retry_loop MAX_RETRIES user_input JNull (take_lock s) in
    let s'' := release_lock s' in
    Some (match r with
          | Return (Finish v) => Return v
          | Return (Continue error) =>
              Return (false,
                      JStr ("Max retries exceeded. Last error: "
                            +:+ py_str error))
          | Raise e => Raise e
          end, s'').

End Orchestrator.

End Agent.

(* ===================================================================== *)
(** ** agent/llm_client.py                                                 *)
(* ===================================================================== *)

Module LlmClient.

(** What one [hf_call] comes to: the content of the first choice, or an
    exception [e] caught by [except Exception], with its text [str(e)]. *)
Inductive outcome : Type :=
| Completion (content : string)
| Failure (message : string).

(** What the client did, oldest first: a chat-completion request for a
    prompt, or [asyncio.sleep(seconds)]. *)
Inductive event : Type :=
| Request (prompt : string)
| Sleep (seconds : nat).

(** [self.client] (is it set), with the outcomes still to come and the
    events so far. *)
Record client : Type := Client {
  connected : bool;
  script : list outcome;
  trace : list event
}.

Definition did (e : event) (c : client) : client :=
  Client (connected c) (script c) (trace c ++ [e]).

Definition next (c : client) : option (outcome * client) :=
  match script c with
  | [] => None
  | o :: rest => Some (o, Client (connected c) rest (trace c))
  end.

(** The loop [for attempt in range(3)] over the attempts still to make, and
    the [return] after it; [None] when the script has no outcome for a
    request. *)
Fixpoint attempts (prompt : string) (todo : list nat) (c : client)
  : option ((bool * string) * client) :=
  match todo with
  | [] => Some ((false, "Max retries exceeded"), c)
  | attempt :: rest =>
      match next (did (Request prompt) c) with
      | Some (Completion result, c) => Some ((true, result), c)
      | Some (Failure message, c) =>
          if (attempt <? 2)%nat
          then attempts prompt rest (did (Sleep (2 ^ attempt)%nat) c)
          else Some ((false, message), c)
      | None => None
      end
  end.

(** [call_llm] *)
Definition call_llm (prompt : string) (c : client)
  : option ((bool * string) * client) :=
  if negb (connected c) then Some ((false, "LLM not initialized"), c)
  else attempts prompt (seq 0 3) c.

(** [close] *)
Definition close (c : client) : client := Client false (script c) (trace c).

(** the requests made and the seconds slept in a list of events *)
Definition requests (l : list event) : nat :=
  length (List.filter (fun e => match e with Request _ => true | _ => false end)
                      l).

Definition slept (l : list event) : nat :=
  list_sum (map (fun e => match e with Sleep n => n | _ => 0 end) l).

End LlmClient.

(* ===================================================================== *)
(** ** mcp/excel_mcp_client.py: the tool listing                           *)
(* ===================================================================== *)

Module McpTools.
Import Json Exn Runtime McpClient.

Section Listing.
Context `{Python}.

(** The [try] block that decodes the reply line in [list_tools]: the tools
    of a reply without ["error"]; [None] when the reply has an ["error"] or
    an exception is raised inside the block. *)
Definition decode_tools (line : string) : option json :=
  match json_loads line with
  | None => None
  | Some resp =>
      match has_error resp, resp with
      | Some false, JDict d =>
          match default (JDict []) (PyDict.get "result" d) with
          | JDict result =>
              Some (default (JList []) (PyDict.get "tools" result))
          | _ => None
          end
      | _, _ => None
      end
  end.

Definition listing (line : string) : bool * json :=
  match decode_tools line with
  | Some tools => (true, tools)
  | None => (false, JList [])
  end.

(** [list_tools].  The recursive call after [_restart] is bounded by
    [fuel]; [None] when the fuel or the script runs out. *)
Fixpoint list_tools (fuel : nat) (c : client)
  : option (result (bool * json) * client) :=
  if negb (initialized c)
  then Some (Return (false, JList []), c)
  else
    match next (did (Send "tools/list" (JDict [])) c) with
    | Some (Written, c) =>
        match next (did Readline c) with
        | Some (Line line, c) => Some (Return (listing line), c)
        | _ => None
        end
    | Some (BrokenPipe, c) =>
        match fuel with
        | O => None
        | S fuel' =>
            match restart c with
            | Some c => list_tools fuel' c
            | None => None
            end
        end
    | Some (WriteFails, c) => Some (Raise OSError, c)
    | _ => None
    end.

End Listing.

End McpTools.

(* ===================================================================== *)
(** ** A concrete host, runtime and pair of clients                        *)
(* ===================================================================== *)

(** Instances the examples are evaluated on.  The general theorems hold for
    every host, runtime and client. *)
Module Sim.
Import Json Exn Runtime.

(** A disk: the names directly under the workspace root in directory-scan
    order, whether the state file can be written, the state last written, and
    the log. *)
Record sim_disk : Type := SimDisk {
  entries : list string;
  writable : bool;
  saved : option Workspace.state;
  logged : list Workspace.log_entry
}.

Definition root_prefix : string := "/excel_files/".

Definition sim_glob (d : sim_disk) : list string :=
  List.filter (PyStr.endswith ".xlsx") (entries d).

Definition sim_exists (d : sim_disk) (p : string) : bool :=
  existsb (fun n => String.eqb (PyPath.entry_path n) p) (entries d).

(** [os.rename] inside the workspace root; anything else is refused *)
Definition sim_rename (d : sim_disk) (old new : string) : option sim_disk :=
  if sim_exists d old && String.prefix root_prefix new then
    let target := Utils.drop_str (String.length root_prefix) new in
    let keep :=
      List.filter (fun n => negb (String.eqb n target)
                            || String.eqb (PyPath.entry_path n) old)
                  (entries d) in
    Some (SimDisk
            (map (fun n => if String.eqb (PyPath.entry_path n) old
                           then target else n) keep)
            (writable d) (saved d) (logged d))
  else None.

Definition sim_write (d : sim_disk) (st : Workspace.state) : bool * sim_disk :=
  if writable d
  then (true, SimDisk (entries d) (writable d) (Some st) (logged d))
  else (false, d).

Definition sim_log (d : sim_disk) (e : Workspace.log_entry) : bool * sim_disk :=
  (true, SimDisk (entries d) (writable d) (saved d) (logged d ++ [e])).

#[export] Instance sim_host : Workspace.Host sim_disk := {|
  Workspace.glob_xlsx := sim_glob;
  Workspace.path_exists := sim_exists;
  Workspace.os_rename := sim_rename;
  Workspace.write_state := sim_write;
  Workspace.append_log := sim_log;
  Workspace.close_match := fun _ _ => None;
  Workspace.write_state_glob := ltac:(
    intros d st; unfold sim_write; destruct (writable d); reflexivity)
|}.

(** [str] of [None], a [bool] or a small [int]; other values are not printed
    in the examples *)
Definition sim_repr (v : json) : string :=
  match v with
  | JNull => "None"
  | JBool true => "True"
  | JBool false => "False"
  | JInt z => NilEmpty.string_of_int (Z.to_int z)
  | _ => "<value>"
  end.

#[export] Instance sim_python : Python := {|
  json_loads := MiniJson.loads;
  py_repr := sim_repr;
  exc_text := fun _ => "Expecting value"
|}.

(** A tool process client that answers from a list of replies, and a model
    client that answers from a list of completions. *)
#[export] Instance sim_mcp : Agent.Mcp (list (result (bool * json))) := {|
  Agent.mcp_call_tool := fun _ _ replies =>
    match replies with
    | r :: rest => (r, rest)
    | [] => (Return (false, JStr "Client not initialized"), [])
    end
|}.

#[export] Instance sim_llm : Agent.Llm (list (bool * string)) := {|
  Agent.call_llm := fun _ completions =>
    match completions with
    | c :: rest => (c, rest)
    | [] => ((false, "LLM not initialized"), [])
    end
|}.

Definition fresh_disk (names : list string) : sim_disk :=
  SimDisk names true None [].

Definition fresh_world (names : list string) : Workspace.world sim_disk :=
  (Workspace.empty_state, fresh_disk names).

End Sim.

(* ===================================================================== *)
(** ** Vocabulary of the statements                                        *)
(* ===================================================================== *)

Module Terms.

(** [needle] occurs in [hay] *)
Definition occurs_in (needle hay : string) : Prop :=
  exists pre post, hay = pre +:+ needle +:+ post.

(** no character of [s] is [c] *)
Fixpoint lacks (c : ascii) (s : string) : Prop :=
  match s with
  | EmptyString => True
  | String a r => a <> c /\ lacks c r
  end.

(** [s[:n]] *)
Fixpoint take_str (n : nat) (s : string) : string :=
  match n, s with
  | S n', String a r => String a (take_str n' r)
  | _, _ => EmptyString
  end.

(** opening minus closing braces in [s] *)
Fixpoint depth (s : string) : Z :=
  match s with
  | EmptyString => 0
  | String a r =>
      (if Ascii.eqb a "{" then 1 else if Ascii.eqb a "}" then -1 else 0)
      + depth r
  end%Z.

(** the text [{"a": {"b": 1}}] *)
Definition sample_object : string :=
  "{" +:+ PyStr.quoted "a" +:+ ": {" +:+ PyStr.quoted "b" +:+ ": 1}}".

End Terms.

(* ===================================================================== *)
(** ** Scripts for the tool process                                        *)
(* ===================================================================== *)

Module Scripts.
Import Json McpClient.

(** The child process breaks the pipe on [n] writes in a row, each time
    coming back (launch, handshake written, reply [handshake] read), and then
    behaves as [tail] says. *)
Fixpoint broken_pipes (n : nat) (handshake : string) (tail : list answer)
  : list answer :=
  match n with
  | O => tail
  | S n' =>
      BrokenPipe :: Spawned :: Written :: Line handshake
        :: broken_pipes n' handshake tail
  end.


(** a ready client with a live process *)
Definition ready (script : list answer) (actions : list action) : client :=
  Client true true script actions.

(** a handshake reply without error, and a tool reply carrying the text
    [ok] *)
Definition handshake_ok : string := "{" +:+ PyStr.quoted "result" +:+ ": {}}".


Section Refusals.
Context `{Runtime.Python}.


End Refusals.

End Scripts.

(* ===================================================================== *)
(** ** Registry states named in the statements                             *)
(* ===================================================================== *)

Module RegistryTerms.
Import PyPath Workspace Sim.

(** the registry after [rename_file] swapped [old_canon] for [new_canon] *)
Definition swapped (old_canon new_canon : string) (st : state) : state :=
  State (<[new_canon := entry_path new_canon]> (delete old_canon (files st)))
        (Some new_canon).

(** a registry tracking ["Budget.xlsx"], on a disk that holds it *)
Definition tracked_budget (can_write : bool) : world sim_disk :=
  (State {[ "Budget.xlsx" := "/excel_files/Budget.xlsx" ]} (Some "Budget.xlsx"),
   SimDisk ["Budget.xlsx"] can_write None []).

Section Serving.
Context {disk : Type} `{Host disk}.

(** the disk after the state file was written with each of [hist] in turn *)
Definition after_writes (d : disk) (hist : list state) : disk :=
  foldl (fun d st => snd (write_state d st)) d hist.

(** every write of the state file goes through, now and after any writes *)
Definition writes_succeed (d : disk) : Prop :=
  forall (hist : list state) (st : state),
    fst (write_state (after_writes d hist) st) = true.

(** ["Budget.xlsx"] is listed, and is the only listed name that lower-cases
    to ["budget.xlsx"] *)
Definition only_budget (names : list string) : Prop :=
  "Budget.xlsx" ∈ names
  /\ forall n, n ∈ names -> PyStr.lower n = "budget.xlsx" -> n = "Budget.xlsx".

(** ["Budget.xlsx"] is registered and active, on such a disk *)
Definition serving_budget (w : world disk) : Prop :=
  active_file (fst w) = Some "Budget.xlsx"
  /\ files (fst w) !! "Budget.xlsx" = Some "/excel_files/Budget.xlsx"
  /\ only_budget (glob_xlsx (snd w))
  /\ writes_succeed (snd w).

End Serving.

End RegistryTerms.

(* ===================================================================== *)
(** ** Sample runs of the orchestrator                                     *)
(* ===================================================================== *)

Module Runs.
Import Json Exn Runtime Workspace Agent Sim RegistryTerms.

Definition sim_agent : Type :=
  @agent sim_disk (list (result (bool * json))) (list (bool * string)).

(** an idle agent: lock free, nothing active, no call made yet *)
Definition idle (w : world sim_disk) (replies : list (result (bool * json)))
    (completions : list (bool * string)) : sim_agent :=
  AgentOf w false replies completions JNull [].

(** A host on which no path exists by the time [rename_file] looks: the
    files vanish between the directory scan and the existence test. *)
Definition vanishing_host : Host sim_disk := {|
  glob_xlsx := sim_glob;
  path_exists := fun _ _ => false;
  os_rename := sim_rename;
  write_state := sim_write;
  append_log := sim_log;
  close_match := fun _ _ => None;
  write_state_glob := ltac:(
    intros d st; unfold sim_write; destruct (writable d); reflexivity)
|}.

(** the text [{"tool_name": tool, "arguments": {arguments}}] *)
Definition proposal (tool arguments : string) : string :=
  "{" +:+ PyStr.quoted "tool_name" +:+ ": " +:+ PyStr.quoted tool +:+ ", "
  +:+ PyStr.quoted "arguments" +:+ ": {" +:+ arguments +:+ "}}".

(** the text ["key": "value"] *)
Definition pair (key value : string) : string :=
  PyStr.quoted key +:+ ": " +:+ PyStr.quoted value.

Definition propose_create : string :=
  "Sure: "
  +:+ proposal "create_workbook"
        (pair "file" "Sales" +:+ ", " +:+ pair "sheet" "Q1" +:+ ", "
         +:+ PyStr.quoted "data" +:+ ": [1, 2]")
  +:+ " done".

Definition propose_read_active : string :=
  proposal "read_data_from_excel"
    (pair "sheet" "S" +:+ ", " +:+ pair "file" EmptyString).

Definition propose_rename : string :=
  proposal "rename_workbook"
    (pair "old_file" "Budget" +:+ ", " +:+ pair "new_file" "Plan").

(** the model proposes a workbook creation and the tool process accepts *)
Definition run_success : option (result (bool * json) * sim_agent) :=
  execute_with_retry "create workbook Sales"
    (idle (fresh_world []) [Return (true, JStr "Created")]
          [(true, propose_create)]).

(** the model never answers *)
Definition run_exhausted : option (result (bool * json) * sim_agent) :=
  execute_with_retry "anything" (idle (fresh_world []) [] []).

(** the registered file was never created, and the model asks to read the
    active workbook *)
Definition run_exception : option (result (bool * json) * sim_agent) :=
  execute_with_retry "read sheet S"
    (idle (snd (register_file "Budget" (fresh_world []))) []
          [(true, propose_read_active)]).

(** the file to rename vanishes before [rename_file] tests it *)
Definition run_fatal : option (result (bool * json) * sim_agent) :=
  @execute_with_retry _ _ _ vanishing_host sim_python sim_mcp sim_llm
    "rename Budget to Plan"
    (idle (tracked_budget true) [] [(true, propose_rename)]).

End Runs.

(* ===================================================================== *)
(** ** Sheet names named in the statements                                 *)
(* ===================================================================== *)

Module SheetTerms.
Import Normalizer.

(** the first (resp. last) character of [s] is one of [chars] *)
Definition head_in (chars s : string) : bool :=
  match s with
  | String c _ => in_chars chars c
  | EmptyString => false
  end.

Fixpoint last_in (chars s : string) : bool :=
  match s with
  | EmptyString => false
  | String c EmptyString => in_chars chars c
  | String _ r => last_in chars r
  end.

(** a sheet name as the normalizer leaves it: not empty, and with no
    bracket, quote or space at either end *)
Definition clean (n : string) : Prop :=
  n <> "" /\ head_in STRAY n = false /\ last_in STRAY n = false.

End SheetTerms.

(* ===================================================================== *)
(** ** Orchestrator states named in the statements                         *)
(* ===================================================================== *)

Module AgentTerms.
Import Json Exn Runtime Workspace Agent.

Section Frames.
Context {disk M L : Type} `{Host disk} `{Python} `{Mcp M} `{Llm L}.

(** the lock and the model client of an agent *)
Definition held (s : @agent disk M L) : bool * L := (lock s, llm s).

(** the agent once the tool-process client, left as [m], has taken [call] *)
Definition called (call : string * PyDict.t json) (m : M)
    (s : @agent disk M L) : @agent disk M L :=
  AgentOf (registry s) (lock s) m (llm s) (active_workbook s)
          (calls s ++ [call]).

(** the agent once the model client has been asked [p] *)
Definition asked (p : prompt) (s : @agent disk M L) : @agent disk M L :=
  AgentOf (registry s) (lock s) (mcp s) (snd (call_llm p (llm s)))
          (active_workbook s) (calls s).

End Frames.

(** the call [create_worksheet] for one sheet of a batch *)
Definition worksheet_call (filepath name : json) : string * PyDict.t json :=
  ("create_worksheet", [("filepath", filepath); ("sheet_name", name)]).

Section Batches.
Context {M : Type} `{Mcp M}.

(** what the tool process answers when asked to create the sheets [names]
    of [filepath] one after the other, every one of them *)
Fixpoint answers (filepath : json) (names : list json) (m : M)
  : list (result (bool * json)) :=
  match names with
  | [] => []
  | name :: rest =>
      let reply := mcp_call_tool "create_worksheet"
                     [("filepath", filepath); ("sheet_name", name)] m in
      fst reply :: answers filepath rest (snd reply)
  end.

End Batches.

(** an answer that reports success *)
Definition succeeded (r : result (bool * json)) : Prop :=
  exists text, r = Return (true, text).

(** the call [get_workbook_metadata] of [resolve_default_sheet] *)
Definition metadata_call (filepath : json) : string * PyDict.t json :=
  ("get_workbook_metadata", [("filepath", filepath)]).

(** the two exceptions of the registry that the retry loop handles *)
Definition workspace_error (e : exn) : bool :=
  match e with
  | RecoverableWorkspaceError _ | FatalWorkspaceError _ => true
  | _ => false
  end.

(** the error the loop records when the model gave no usable object *)
Definition NO_JSON : string := "LLM failed to produce valid JSON".

(** A model client that answers every prompt with the same prose. *)
Definition mute_llm : Llm unit := {|
  call_llm := fun _ u => ((true, "I cannot help with that."), u)
|}.

End AgentTerms.

(* ===================================================================== *)
(** * Properties                                                           *)
(* ===================================================================== *)

(** ** Strings *)

Section StringFacts.
Import PyStr.

Lemma eqb_space_is_space c : Ascii.eqb c " " = true -> is_space c = true.
Proof. intros E. apply Ascii.eqb_eq in E. subst c. reflexivity. Qed.

Lemma not_space_not_blank c : is_space c = false -> Ascii.eqb c " " = false.
Proof.
  intros E. destruct (Ascii.eqb c " ") eqn:B; [|reflexivity].
  apply eqb_space_is_space in B. congruence.
Qed.

Lemma lower_app s t : lower (s +:+ t) = lower s +:+ lower t.
Proof. induction s as [|c s IH]; simpl; [reflexivity | now rewrite IH]. Qed.

Lemma endswith_unfold suf s :
  endswith suf s =
  if String.eqb s suf then true
  else match s with
       | EmptyString => false
       | String _ r => endswith suf r
       end.
Proof. destruct s; reflexivity. Qed.

Lemma endswith_app suf t : endswith suf (t +:+ suf) = true.
Proof.
  induction t as [|c t IH]; rewrite endswith_unfold.
  - change (EmptyString +:+ suf) with suf. now rewrite String.eqb_refl.
  - destruct (String.eqb (String c t +:+ suf) suf); [reflexivity | exact IH].
Qed.

Lemma head_space_lstrip s : head_space (lstrip s) = false.
Proof.
  induction s as [|c s IH]; simpl; [reflexivity|].
  destruct (is_space c) eqn:E; [exact IH | simpl; exact E].
Qed.

Lemma last_space_cons c s :
  s <> EmptyString -> last_space (String c s) = last_space s.
Proof. destruct s; [congruence | reflexivity]. Qed.

Lemma last_space_rstrip s : last_space (rstrip s) = false.
Proof.
  induction s as [|c s IH]; simpl; [reflexivity|].
  destruct (rstrip s) as [|c' r'] eqn:E.
  - destruct (is_space c) eqn:Ec; simpl; [reflexivity | exact Ec].
  - rewrite last_space_cons by discriminate. exact IH.
Qed.

Lemma head_space_rstrip s : head_space s = false -> head_space (rstrip s) = false.
Proof.
  destruct s as [|c s]; simpl; [reflexivity|]. intros E.
  destruct (rstrip s); [rewrite E|]; simpl; exact E.
Qed.

Lemma lstrip_fixed s : head_space s = false -> lstrip s = s.
Proof. destruct s as [|c s]; simpl; [reflexivity|]. now intros ->. Qed.

Lemma rstrip_fixed s : last_space s = false -> rstrip s = s.
Proof.
  induction s as [|c s IH]; [reflexivity|].
  destruct s as [|c' s'].
  - simpl. now intros ->.
  - intros E. rewrite last_space_cons in E by discriminate.
    change (rstrip (String c (String c' s')))
      with (match rstrip (String c' s') with
            | EmptyString =>
                if is_space c then EmptyString else String c EmptyString
            | r' => String c r'
            end).
    rewrite (IH E). reflexivity.
Qed.

Lemma strip_fixed s :
  head_space s = false -> last_space s = false -> strip s = s.
Proof.
  intros Hh Hl. unfold strip. rewrite (lstrip_fixed _ Hh). now apply rstrip_fixed.
Qed.

Lemma strip_trimmed s :
  head_space (strip s) = false /\ last_space (strip s) = false.
Proof.
  unfold strip. split.
  - apply head_space_rstrip, head_space_lstrip.
  - apply last_space_rstrip.
Qed.

(** Case analysis along the recursion of [replace_2sp]. *)
Lemma replace_2sp_cases (P : string -> Prop) :
  P EmptyString ->
  (forall c, P (String c EmptyString)) ->
  (forall r, P r -> P (String " " (String " " r))) ->
  (forall c c' r,
      Ascii.eqb c " " && Ascii.eqb c' " " = false ->
      P (String c' r) -> P (String c (String c' r))) ->
  forall s, P s.
Proof.
  intros H0 H1 H2 H3 s.
  assert (G : P s /\ forall c, P (String c s)); [|exact (proj1 G)].
  induction s as [|a s [IHs IHc]]; [split; auto|].
  split; [apply IHc|]. intros c.
  destruct (Ascii.eqb c " " && Ascii.eqb a " ") eqn:E.
  - apply andb_prop in E as [Ec Ea].
    apply Ascii.eqb_eq in Ec, Ea. subst. now apply H2.
  - now apply H3.
Qed.

Lemma replace_2sp_pair r :
  replace_2sp (String " " (String " " r)) = String " " (replace_2sp r).
Proof. reflexivity. Qed.

Lemma replace_2sp_step c c' r :
  Ascii.eqb c " " && Ascii.eqb c' " " = false ->
  replace_2sp (String c (String c' r)) = String c (replace_2sp (String c' r)).
Proof.
  intros E.
  change (replace_2sp (String c (String c' r)))
    with (if Ascii.eqb c " " && Ascii.eqb c' " "
          then String " " (replace_2sp r)
          else String c (replace_2sp (String c' r))).
  now rewrite E.
Qed.

Lemma replace_2sp_head c r : exists t, replace_2sp (String c r) = String c t.
Proof.
  destruct r as [|c' r]; [now exists EmptyString|].
  destruct (Ascii.eqb c " " && Ascii.eqb c' " ") eqn:E.
  - apply andb_prop in E as [Ec Ea]. apply Ascii.eqb_eq in Ec, Ea. subst.
    eexists. apply replace_2sp_pair.
  - eexists. now apply replace_2sp_step.
Qed.

Lemma head_space_replace s : head_space (replace_2sp s) = head_space s.
Proof.
  destruct s as [|c r]; [reflexivity|].
  destruct (replace_2sp_head c r) as [t ->]. reflexivity.
Qed.

Lemma last_space_replace s : last_space (replace_2sp s) = last_space s.
Proof.
  induction s using replace_2sp_cases; try reflexivity.
  - rewrite replace_2sp_pair. destruct s as [|a s]; [reflexivity|].
    destruct (replace_2sp_head a s) as [t Et]. rewrite Et in *.
    rewrite (last_space_cons " " (String a t)) by discriminate.
    rewrite IHs. reflexivity.
  - rewrite replace_2sp_step by assumption.
    destruct (replace_2sp_head c' s) as [t Et]. rewrite Et in *.
    rewrite (last_space_cons c (String c' t)) by discriminate.
    rewrite IHs. reflexivity.
Qed.

Lemma has_2sp_cons c c' r :
  has_2sp (String c (String c' r))
  = (Ascii.eqb c " " && Ascii.eqb c' " ") || has_2sp (String c' r).
Proof. reflexivity. Qed.

Lemma has_3sp_pair a r :
  has_3sp (String " " (String " " (String a r))) = false ->
  Ascii.eqb a " " = false /\ has_3sp (String a r) = false.
Proof.
  change (has_3sp (String " " (String " " (String a r))))
    with ((Ascii.eqb " " " " && Ascii.eqb " " " " && Ascii.eqb a " ")
          || has_3sp (String " " (String a r))).
  intros E. apply orb_false_elim in E as [E1 E2].
  split; [exact E1|].
  destruct r as [|b r]; [reflexivity|].
  change (has_3sp (String " " (String a (String b r))))
    with ((Ascii.eqb " " " " && Ascii.eqb a " " && Ascii.eqb b " ")
          || has_3sp (String a (String b r))) in E2.
  now apply orb_false_elim in E2 as [_ E2].
Qed.

Lemma has_3sp_step c c' r :
  Ascii.eqb c " " && Ascii.eqb c' " " = false ->
  has_3sp (String c (String c' r)) = false ->
  has_3sp (String c' r) = false.
Proof.
  intros E. destruct r as [|b r]; [reflexivity|].
  change (has_3sp (String c (String c' (String b r))))
    with ((Ascii.eqb c " " && Ascii.eqb c' " " && Ascii.eqb b " ")
          || has_3sp (String c' (String b r))).
  rewrite E. simpl orb. auto.
Qed.

Lemma replace_collapses s : has_3sp s = false -> has_2sp (replace_2sp s) = false.
Proof.
  induction s using replace_2sp_cases; try reflexivity; intros E.
  - rewrite replace_2sp_pair. destruct s as [|a s]; [reflexivity|].
    apply has_3sp_pair in E as [Ea Er].
    destruct (replace_2sp_head a s) as [t Et]. rewrite Et in *.
    rewrite has_2sp_cons, Ea. simpl. auto.
  - rewrite replace_2sp_step by assumption.
    destruct (replace_2sp_head c' s) as [t Et]. rewrite Et in *.
    rewrite has_2sp_cons, H. simpl. eauto using has_3sp_step.
Qed.

Lemma replace_fixed s : has_2sp s = false -> replace_2sp s = s.
Proof.
  induction s using replace_2sp_cases; try reflexivity; intros E.
  - discriminate E.
  - rewrite has_2sp_cons, H in E. simpl in E.
    rewrite replace_2sp_step by assumption. now rewrite IHs.
Qed.

Lemma has_2sp_app t d u :
  Ascii.eqb d " " = false -> has_2sp (String d u) = false ->
  has_2sp (t +:+ String d u) = has_2sp t.
Proof.
  intros Hd Hu. induction t as [|c t IH]; [exact Hu|].
  destruct t as [|c' t].
  - change (has_2sp (String c (String d u)) = false).
    rewrite has_2sp_cons, Hu, Hd, andb_false_r. reflexivity.
  - change (has_2sp (String c (String c' (t +:+ String d u)))
            = has_2sp (String c (String c' t))).
    rewrite !has_2sp_cons. now rewrite <- IH.
Qed.

Lemma last_space_app t u :
  u <> EmptyString -> last_space (t +:+ u) = last_space u.
Proof.
  intros Hu. induction t as [|c t IH]; [reflexivity|].
  change (last_space (String c (t +:+ u)) = last_space u).
  rewrite last_space_cons; [exact IH|].
  destruct t; [exact Hu | discriminate].
Qed.

Lemma head_space_app t d u :
  is_space d = false -> head_space t = false ->
  head_space (t +:+ String d u) = false.
Proof. destruct t; simpl; auto. Qed.

End StringFacts.

(** ** [_canonical_name] *)

Section CanonicalName.
Import PyStr Workspace.

Lemma canonical_name_cases x :
  let t := replace_2sp (strip x) in
  (canonical_name x = t /\ endswith ".xlsx" (lower t) = true)
  \/ canonical_name x = t +:+ ".xlsx".
Proof.
  unfold canonical_name.
  destruct (endswith ".xlsx" (lower (replace_2sp (strip x)))); simpl; auto.
Qed.

Lemma canonical_name_extension x :
  endswith ".xlsx" (lower (canonical_name x)) = true.
Proof.
  destruct (canonical_name_cases x) as [[-> E] | ->]; [exact E|].
  rewrite lower_app. apply (endswith_app ".xlsx").
Qed.

Lemma canonical_name_trimmed x :
  head_space (canonical_name x) = false /\ last_space (canonical_name x) = false.
Proof.
  destruct (strip_trimmed x) as [Hh Hl].
  destruct (canonical_name_cases x) as [[-> _] | ->].
  - now rewrite head_space_replace, last_space_replace.
  - split.
    + apply head_space_app; [reflexivity|]. now rewrite head_space_replace.
    + now rewrite last_space_app by discriminate.
Qed.

Lemma canonical_name_collapsed x :
  has_3sp (strip x) = false -> has_2sp (canonical_name x) = false.
Proof.
  intros E. apply replace_collapses in E.
  destruct (canonical_name_cases x) as [[-> _] | ->]; [exact E|].
  now rewrite has_2sp_app.
Qed.

Lemma canonical_name_fixed y :
  head_space y = false -> last_space y = false -> has_2sp y = false ->
  endswith ".xlsx" (lower y) = true ->
  canonical_name y = y.
Proof.
  intros Hh Hl H2 He. unfold canonical_name.
  rewrite (strip_fixed _ Hh Hl), (replace_fixed _ H2), He. reflexivity.
Qed.

(** C4, as amended.  For every input [x], the canonical name has no leading
    or trailing whitespace and ends in [.xlsx] up to letter case; and when
    the trimmed input has no run of three or more spaces, the canonical name
    has no doubled space and canonicalizing it again gives it back. *)
Theorem canonical_name_idempotent_without_long_runs (x : string) :
  endswith ".xlsx" (lower (canonical_name x)) = true
  /\ head_space (canonical_name x) = false
  /\ last_space (canonical_name x) = false
  /\ (has_3sp (strip x) = false ->
      has_2sp (canonical_name x) = false
      /\ canonical_name (canonical_name x) = canonical_name x).
Proof.
  destruct (canonical_name_trimmed x) as [Hh Hl].
  repeat split; auto using canonical_name_extension, canonical_name_collapsed.
  apply canonical_name_fixed;
    auto using canonical_name_extension, canonical_name_collapsed.
Qed.

(** At [" Q3  Budget "]: trimmed, the doubled space collapsed, the extension
    added, and a fixed point of canonicalization. *)
Lemma canonical_name_idempotent_witness :
  has_3sp (strip " Q3  Budget ") = false
  /\ canonical_name " Q3  Budget " = "Q3 Budget.xlsx"
  /\ canonical_name (canonical_name " Q3  Budget ")
     = canonical_name " Q3  Budget ".
Proof.
  split; [reflexivity|]. split; [reflexivity|].
  apply (canonical_name_idempotent_without_long_runs " Q3  Budget ").
  reflexivity.
Defined.

(** C4 as stated fails: on the non-empty name ["a   b"] one pass of
    [replace] leaves two spaces, which a second canonicalization collapses
    again; and ["A.XLSX"] is returned as it is, not ending in [".xlsx"]. *)
Lemma canonical_name_not_idempotent :
  "a   b" <> ""
  /\ canonical_name "a   b" = "a  b.xlsx"
  /\ canonical_name (canonical_name "a   b") = "a b.xlsx"
  /\ canonical_name (canonical_name "a   b") <> canonical_name "a   b"
  /\ endswith ".xlsx" (canonical_name "A.XLSX") = false.
Proof. repeat split; try reflexivity; discriminate. Qed.

End CanonicalName.

(** ** [validate_tool_call] *)

Section Validation.
Import Json ToolRegistry Terms.

Lemma str_app_assoc (a b c : string) : (a +:+ b) +:+ c = a +:+ (b +:+ c).
Proof.
  induction a as [|x a IH]; [reflexivity|].
  change (String x ((a +:+ b) +:+ c) = String x (a +:+ (b +:+ c))).
  now rewrite IH.
Qed.

Lemma str_app_nil_r (a : string) : a +:+ "" = a.
Proof.
  induction a as [|x a IH]; [reflexivity|].
  change (String x (a +:+ "") = String x a). now rewrite IH.
Qed.

Lemma occurs_in_prefixed pre needle hay :
  occurs_in needle hay -> occurs_in needle (pre +:+ hay).
Proof.
  intros (p & q & ->). exists (pre +:+ p), q. now rewrite str_app_assoc.
Qed.

Lemma occurs_in_suffixed post needle hay :
  occurs_in needle hay -> occurs_in needle (hay +:+ post).
Proof.
  intros (p & q & ->). exists p, (q +:+ post). now rewrite !str_app_assoc.
Qed.

Lemma occurs_in_join sep x l : In x l -> occurs_in x (join sep l).
Proof.
  induction l as [|y l IH]; [intros []|].
  intros [-> | Hin].
  - destruct l as [|z l].
    + exists "", "". simpl. now rewrite str_app_nil_r.
    + exists "", (sep +:+ join sep (z :: l)). reflexivity.
  - destruct l as [|z l]; [destruct Hin|].
    change (join sep (y :: z :: l)) with (y +:+ sep +:+ join sep (z :: l)).
    now apply occurs_in_prefixed, occurs_in_prefixed, IH.
Qed.

Lemma is_missing_spec arguments field :
  is_missing arguments field = true
  <-> PyDict.get field arguments = None
      \/ PyDict.get field arguments = Some JNull.
Proof.
  unfold is_missing. destruct (PyDict.get field arguments) as [v|].
  - destruct v; simpl; split; intros E;
      try discriminate; try (right; reflexivity); try reflexivity;
      now destruct E as [E | E].
  - split; auto.
Qed.

(** C5.  For a tool of the schema table, validation fails exactly when some
    required field is absent from the arguments or bound to [None]; the
    failure message then is ["Missing required fields: "] followed by the
    list of all such fields in schema order, so each of them occurs in it
    between quotes; a successful validation has the empty message.  For a
    name that is not in the table the result is the unknown-tool failure.
    The check is a function of its two arguments only. *)
Theorem validate_tool_call_lists_all_missing
    (tool_name : string) (arguments : PyDict.t json) :
  (forall required,
      PyDict.get tool_name TOOL_SCHEMAS = Some required ->
      let missing := List.filter (is_missing arguments) required in
      (fst (validate_tool_call tool_name arguments) = false
       <-> exists field,
             In field required
             /\ (PyDict.get field arguments = None
                 \/ PyDict.get field arguments = Some JNull))
      /\ (forall field,
             In field missing
             <-> In field required
                 /\ (PyDict.get field arguments = None
                     \/ PyDict.get field arguments = Some JNull))
      /\ (fst (validate_tool_call tool_name arguments) = false ->
          snd (validate_tool_call tool_name arguments)
          = "Missing required fields: " +:+ repr_ident_list missing
          /\ forall field,
               In field required ->
               PyDict.get field arguments = None
               \/ PyDict.get field arguments = Some JNull ->
               occurs_in ("'" +:+ field +:+ "'")
                         (snd (validate_tool_call tool_name arguments)))
      /\ (fst (validate_tool_call tool_name arguments) = true ->
          validate_tool_call tool_name arguments = (true, "")))
  /\ (PyDict.get tool_name TOOL_SCHEMAS = None ->
      validate_tool_call tool_name arguments
      = (false, "Unknown tool: " +:+ tool_name)).
Proof.
  split.
  - intros required Hreq missing.
    assert (Hmem : forall field,
               In field missing
               <-> In field required
                   /\ (PyDict.get field arguments = None
                       \/ PyDict.get field arguments = Some JNull)).
    { intros field. unfold missing. rewrite filter_In, is_missing_spec.
      reflexivity. }
    unfold validate_tool_call. rewrite Hreq. fold missing.
    destruct missing as [|m ms] eqn:Em; simpl fst; simpl snd.
    + split; [|split; [exact Hmem | split; [discriminate | reflexivity]]].
      split; [discriminate|].
      intros (field & Hin & Hnull).
      destruct (proj2 (Hmem field) (conj Hin Hnull)).
    + split; [|split; [exact Hmem | split; [|discriminate]]].
      * split; [|reflexivity]. intros _. exists m. apply Hmem. now left.
      * intros _. split; [reflexivity|]. intros field Hin Hnull.
        apply occurs_in_prefixed. unfold repr_ident_list.
        apply occurs_in_prefixed, occurs_in_suffixed, occurs_in_join.
        apply (in_map repr_ident). apply Hmem. auto.
  - intros Hnone. unfold validate_tool_call. now rewrite Hnone.
Qed.

(** At [merge_cells] with the sheet missing and the end cell [None]: both are
    reported. *)
Lemma validate_tool_call_witness :
  PyDict.get "merge_cells" TOOL_SCHEMAS
  = Some ["filepath"; "sheet_name"; "start_cell"; "end_cell"]
  /\ validate_tool_call "merge_cells"
       [("filepath", JStr "a.xlsx"); ("start_cell", JStr "A1");
        ("end_cell", JNull)]
     = (false, "Missing required fields: ['sheet_name', 'end_cell']")
  /\ occurs_in "'end_cell'"
       (snd (validate_tool_call "merge_cells"
               [("filepath", JStr "a.xlsx"); ("start_cell", JStr "A1");
                ("end_cell", JNull)])).
Proof.
  split; [reflexivity|]. split; [reflexivity|].
  refine (proj2 (proj1 (proj2 (proj2 (proj1
            (validate_tool_call_lists_all_missing "merge_cells"
               [("filepath", JStr "a.xlsx"); ("start_cell", JStr "A1");
                ("end_cell", JNull)])
            ["filepath"; "sheet_name"; "start_cell"; "end_cell"]
            eq_refl))) eq_refl) "end_cell" _ _).
  - simpl. auto.
  - right. reflexivity.
Defined.

End Validation.

(** ** [extract_json_from_text] *)

Section Extraction.
Import Json Utils Terms.

Lemma find_char_lacks c text : lacks c text -> find_char c text = None.
Proof.
  induction text as [|a r IH]; [reflexivity|]. intros [Ha Hr]. simpl.
  destruct (Ascii.eqb_spec a c) as [->|_]; [contradiction|].
  now rewrite (IH Hr).
Qed.

Lemma lacks_get c text : (forall i, String.get i text <> Some c) -> lacks c text.
Proof.
  induction text as [|a r IH]; [constructor|]. intros Hget. split.
  - intros ->. now apply (Hget O).
  - apply IH. intros i. apply (Hget (S i)).
Qed.

Lemma find_char_app c pre r :
  lacks c pre -> find_char c (pre +:+ String c r) = Some (String.length pre).
Proof.
  induction pre as [|a p IH]; intros Hl.
  - simpl. now rewrite Ascii.eqb_refl.
  - destruct Hl as [Ha Hp].
    change (find_char c (String a (p +:+ String c r))
            = Some (S (String.length p))).
    simpl. destruct (Ascii.eqb_spec a c) as [->|_]; [contradiction|].
    now rewrite (IH Hp).
Qed.

Lemma drop_str_app pre s : drop_str (String.length pre) (pre +:+ s) = s.
Proof.
  induction pre as [|a p IH]; [now destruct s|]. exact IH.
Qed.

Lemma scan_never_zero rest :
  forall stack i,
    (forall n, 1 <= n -> (stack + depth (take_str n rest))%Z <> 0%Z) ->
    scan stack i rest = None.
Proof.
  induction rest as [|a r IH]; intros stack i Hd; [reflexivity|].
  simpl.
  destruct (Ascii.eqb a "{") eqn:Eo.
  - apply IH. intros n Hn. specialize (Hd (S n) ltac:(lia)).
    simpl in Hd. rewrite Eo in Hd. lia.
  - destruct (Ascii.eqb a "}") eqn:Ec.
    + assert (H1 := Hd 1 ltac:(lia)). simpl in H1. rewrite Eo, Ec in H1.
      destruct r; simpl in H1;
        (destruct (Z.eqb_spec (stack - 1) 0) as [E0|_]; [lia|]);
        apply IH; intros n Hn; specialize (Hd (S n) ltac:(lia));
        simpl in Hd; rewrite Eo, Ec in Hd; lia.
    + apply IH. intros n Hn. specialize (Hd (S n) ltac:(lia)).
      simpl in Hd. rewrite Eo, Ec in Hd. lia.
Qed.

Lemma app_not_empty pre a r : String.eqb (pre +:+ String a r) "" = false.
Proof. destruct pre; reflexivity. Qed.

(** C6.  For every decoder [json_loads]: on the sample text the function
    decodes exactly the span from the first opening brace to the brace that
    closes it, and with a JSON decoder the result is the object
    [{"a": {"b": 1}}]; a text whose depth, counted from its first opening
    brace on, never returns to zero gives nothing; a text without an opening
    brace gives nothing. *)
Theorem extract_json_from_text_scans (json_loads : string -> option json) :
  extract_json_from_text json_loads ("blah " +:+ sample_object +:+ " trailing")
  = json_loads sample_object
  /\ extract_json_from_text MiniJson.loads
       ("blah " +:+ sample_object +:+ " trailing")
     = Some (JDict [("a", JDict [("b", JInt 1)])])
  /\ (forall pre r,
         lacks "{" pre ->
         (forall n, 1 <= n -> depth (take_str n (String "{" r)) <> 0%Z) ->
         extract_json_from_text json_loads (pre +:+ String "{" r) = None)
  /\ (forall text,
         (forall i, String.get i text <> Some "{"%char) ->
         extract_json_from_text json_loads text = None).
Proof.
  split; [reflexivity|]. split; [vm_compute; reflexivity|]. split.
  - intros pre r Hpre Hdepth. unfold extract_json_from_text.
    rewrite app_not_empty, (find_char_app _ _ _ Hpre), drop_str_app.
    change (scan 0 (String.length pre) (String "{" r))
      with (scan 1 (S (String.length pre)) r).
    rewrite scan_never_zero; [reflexivity|].
    intros n Hn. specialize (Hdepth (S n) ltac:(lia)). simpl in Hdepth. lia.
  - intros text Hget. unfold extract_json_from_text.
    rewrite (find_char_lacks _ _ (lacks_get _ _ Hget)).
    now destruct (String.eqb text "").
Qed.

(** At ["x {{}"], whose braces stay open, and at ["no braces"]. *)
Lemma extract_json_from_text_witness :
  extract_json_from_text MiniJson.loads "x {{}" = None
  /\ extract_json_from_text MiniJson.loads "no braces" = None.
Proof.
  split.
  - apply (proj1 (proj2 (proj2
             (extract_json_from_text_scans MiniJson.loads))) "x " "{}").
    + simpl. repeat split; discriminate.
    + intros n Hn. destruct n as [|[|[|[|n]]]]; simpl; lia.
  - apply (proj2 (proj2 (proj2
             (extract_json_from_text_scans MiniJson.loads))) "no braces").
    intros i. do 10 (destruct i as [|i]; [discriminate|]). discriminate.
Defined.

End Extraction.

(** ** Python dictionaries *)

Section DictFacts.
Context {V : Type}.
Implicit Types (d : PyDict.t V) (k : string) (v : V).

Lemma dict_get_set_eq k v d : PyDict.get k (PyDict.set k v d) = Some v.
Proof.
  induction d as [|[k' v'] d IH]; simpl.
  - now rewrite String.eqb_refl.
  - destruct (String.eqb k' k) eqn:E; simpl; rewrite E; [reflexivity | exact IH].
Qed.

Lemma dict_get_set_ne k k' v d :
  k <> k' -> PyDict.get k' (PyDict.set k v d) = PyDict.get k' d.
Proof.
  intros Hne. induction d as [|[k0 v0] d IH]; simpl.
  - destruct (String.eqb_spec k k'); [contradiction | reflexivity].
  - destruct (String.eqb_spec k0 k) as [->|_]; simpl.
    + destruct (String.eqb_spec k k'); [contradiction | reflexivity].
    + now rewrite IH.
Qed.

Lemma dict_get_in_keys k d :
  PyDict.get k d = None <-> ~ In k (PyDict.keys d).
Proof.
  induction d as [|[k0 v0] d IH]; simpl; [tauto|].
  destruct (String.eqb_spec k0 k) as [->|Hne].
  - split; [discriminate | tauto].
  - rewrite IH. tauto.
Qed.

Lemma dict_keys_set k v d :
  PyDict.keys (PyDict.set k v d)
  = if PyDict.mem k d then PyDict.keys d else (PyDict.keys d ++ [k])%list.
Proof.
  unfold PyDict.mem. induction d as [|[k0 v0] d IH]; simpl; [reflexivity|].
  destruct (String.eqb k0 k); simpl; [reflexivity|].
  rewrite IH. now destruct (PyDict.get k d).
Qed.

Lemma dict_set_NoDup k v d :
  List.NoDup (PyDict.keys d) -> List.NoDup (PyDict.keys (PyDict.set k v d)).
Proof.
  intros Hd. rewrite dict_keys_set. unfold PyDict.mem.
  destruct (PyDict.get k d) eqn:E; [exact Hd|].
  apply dict_get_in_keys in E.
  apply NoDup_ListNoDup, NoDup_app. repeat split.
  - now apply NoDup_ListNoDup.
  - intros x Hx Hk. apply list_elem_of_In in Hx.
    apply list_elem_of_In in Hk. destruct Hk as [<- | []]. contradiction.
  - apply NoDup_singleton.
Qed.

End DictFacts.

(** ** [normalize_arguments]: aliasing of keys *)

Section Aliasing.
Import Json Exn Runtime Normalizer.

Lemma put_others c post :
  (forall kv, In kv post -> alias (fst kv) <> c) ->
  forall acc, PyDict.get c (foldl put acc post) = PyDict.get c acc.
Proof.
  induction post as [|kv post IH]; intros Hpost acc; [reflexivity|].
  simpl. rewrite IH by (intros; apply Hpost; now right).
  unfold put. apply dict_get_set_ne. apply Hpost. now left.
Qed.

Lemma put_NoDup l :
  forall acc, List.NoDup (PyDict.keys acc) ->
              List.NoDup (PyDict.keys (foldl put acc l)).
Proof.
  induction l as [|kv l IH]; intros acc Hacc; [exact Hacc|].
  simpl. apply IH. unfold put. now apply dict_set_NoDup.
Qed.

(** C10.  In the dictionary the aliasing loop builds, a canonical key holds
    the value of the last key, in iteration order, that aliases to it: of
    two colliding keys the one iterated later wins and the earlier value is
    gone, each canonical key being present once.  The loop is a total
    function of the raw mapping, so a collision cannot make it fail; for the
    mapping [{"workbook": "a.xlsx", "file": "b.xlsx"}] and the tool
    [create_workbook], [normalize_arguments] returns [{"filepath":
    "b.xlsx"}] on every host. *)
Theorem normalize_arguments_last_alias_wins :
  (forall (pre post : PyDict.t json) (k : string) (v : json),
      (forall kv, In kv post -> alias (fst kv) <> alias k) ->
      PyDict.get (alias k) (canonicalize_keys (pre ++ (k, v) :: post)%list)
      = Some v)
  /\ (forall args : PyDict.t json,
         List.NoDup (PyDict.keys (canonicalize_keys args)))
  /\ alias "workbook" = "filepath" /\ alias "file" = "filepath"
  /\ (forall (disk : Type) `(Workspace.Host disk) `(Python)
             (w : Workspace.world disk),
         normalize_arguments
           (JDict [("workbook", JStr "a.xlsx"); ("file", JStr "b.xlsx")])
           (JStr "create_workbook") w
         = (Return [("filepath", JStr "b.xlsx")], w)).
Proof.
  split; [|split; [|split; [|split]]]; try reflexivity.
  - intros pre post k v Hpost. unfold canonicalize_keys.
    rewrite foldl_app. simpl. rewrite (put_others _ _ Hpost).
    apply dict_get_set_eq.
  - intros args. apply (put_NoDup args []). constructor.
Qed.

(** At the raw mapping [{"sheet": "S", "file": "a", "workbook": "b"}]:
    ["workbook"] comes after ["file"], so ["filepath"] is ["b"]. *)
Lemma normalize_arguments_alias_witness :
  PyDict.get "filepath"
    (canonicalize_keys
       [("sheet", JStr "S"); ("file", JStr "a"); ("workbook", JStr "b")])
  = Some (JStr "b")
  /\ canonicalize_keys
       [("sheet", JStr "S"); ("file", JStr "a"); ("workbook", JStr "b")]
     = [("sheet_name", JStr "S"); ("filepath", JStr "b")].
Proof.
  split; [|reflexivity].
  apply (proj1 normalize_arguments_last_alias_wins
           [("sheet", JStr "S"); ("file", JStr "a")] [] "workbook" (JStr "b")).
  intros kv [].
Defined.

End Aliasing.

(** ** [call_tool]: restart on a broken pipe *)

Section Restart.
Import Json Exn Runtime McpClient Scripts.
Context `{Python}.



Section Handshake.
Variables (handshake : string) (resp : json).
Hypothesis handshake_line : handshake <> "".
Hypothesis handshake_decodes : json_loads handshake = Some resp.
Hypothesis handshake_clean : has_error resp = Some false.





End Handshake.



End Restart.

Section RestartExamples.
Import Json Exn Runtime McpClient Scripts Sim.



End RestartExamples.

(** ** Paths under the workspace root *)

Section PathFacts.
Import PyStr PyPath Terms Workspace.

Lemma lacks_app c s t : lacks c s -> lacks c t -> lacks c (s +:+ t).
Proof. induction s as [|a s IH]; simpl; [auto|]. intros [Ha Hs] Ht. auto. Qed.

Lemma lacks_lstrip c s : lacks c s -> lacks c (lstrip s).
Proof.
  induction s as [|a s IH]; simpl; [auto|]. intros [Ha Hs].
  destruct (is_space a); simpl; auto.
Qed.

Lemma lacks_rstrip c s : lacks c s -> lacks c (rstrip s).
Proof.
  induction s as [|a s IH]; simpl; [auto|]. intros [Ha Hs].
  specialize (IH Hs). destruct (rstrip s) as [|b r].
  - destruct (is_space a); simpl; auto.
  - simpl in *. auto.
Qed.

Lemma lacks_replace c s : lacks c s -> lacks c (replace_2sp s).
Proof.
  induction s using replace_2sp_cases; try (simpl; tauto).
  rewrite replace_2sp_step by assumption.
  intros [Ha Hr]. split; [exact Ha | exact (IHs Hr)].
Qed.

Lemma lacks_canonical_name c x :
  lacks c x -> lacks c ".xlsx" -> lacks c (canonical_name x).
Proof.
  intros Hx Hext.
  assert (Ht : lacks c (replace_2sp (strip x)))
    by now apply lacks_replace, lacks_rstrip, lacks_lstrip.
  destruct (canonical_name_cases x) as [[-> _] | ->]; [exact Ht|].
  now apply lacks_app.
Qed.

Lemma split_on_lacks sep s : Forall (lacks sep) (split_on sep s).
Proof.
  induction s as [|a s IH]; simpl; [repeat constructor|].
  destruct (Ascii.eqb_spec a sep) as [->|Hne].
  - constructor; [exact I | exact IH].
  - destruct (split_on sep s) as [|h t]; [repeat constructor; auto|].
    inversion IH; subst. constructor; [split|]; auto.
Qed.

Lemma name_lacks_slash s : lacks "/" (name s).
Proof.
  unfold name, parts.
  assert (Hall : Forall (lacks "/") (List.filter is_component (split_on "/" s))).
  { apply Forall_forall. intros p Hp. apply list_elem_of_In in Hp.
    apply filter_In in Hp as [Hp _].
    apply (proj1 (Forall_forall _ _) (split_on_lacks "/" s)).
    now apply list_elem_of_In. }
  induction Hall as [|p l Hp Hl IH]; [exact I|].
  destruct l; [exact Hp | exact IH].
Qed.

Lemma split_on_whole sep s : lacks sep s -> split_on sep s = [s].
Proof.
  induction s as [|a s IH]; [reflexivity|]. intros [Ha Hs]. simpl.
  destruct (Ascii.eqb_spec a sep); [contradiction|]. now rewrite (IH Hs).
Qed.

Lemma anchor_relative s : lacks "/" s -> anchor s = "".
Proof.
  destruct s as [|a [|b [|c s]]]; simpl; [reflexivity|..];
    intros [Ha _]; destruct (Ascii.eqb_spec a "/"); congruence.
Qed.

Lemma under_root_entry s :
  lacks "/" s -> s <> "" -> s <> "." -> under_root s = entry_path s.
Proof.
  intros Hl H0 H1. unfold under_root, parts.
  rewrite (anchor_relative _ Hl), (split_on_whole _ _ Hl). simpl.
  unfold is_component.
  destruct (String.eqb_spec s ""); [contradiction|].
  destruct (String.eqb_spec s "."); [contradiction|]. reflexivity.
Qed.

Lemma canonical_name_component x :
  canonical_name x <> "" /\ canonical_name x <> ".".
Proof.
  pose proof (canonical_name_extension x) as E.
  split; intros Heq; rewrite Heq in E; discriminate E.
Qed.

(** the path [rename_file] and the normalizer build for a new name *)
Lemma under_root_canonical_name s :
  under_root (canonical_name (name s)) = entry_path (canonical_name (name s)).
Proof.
  destruct (canonical_name_component (name s)) as [H0 H1].
  apply under_root_entry; auto.
  apply lacks_canonical_name; [apply name_lacks_slash|].
  simpl. repeat split; discriminate.
Qed.

End PathFacts.

(** ** [rename_file] *)

Section Rename.
Import Json Exn PyPath Workspace RegistryTerms.
Context {disk : Type} `{Host disk}.

(** The outcomes of [rename_file], case by case.  Once [os.rename] has
    succeeded the registry is swapped as a whole and then written. *)
Lemma rename_file_cases (old_name new_name : string) (w : world disk) :
  let old_canon := canonical_name (name old_name) in
  let new_canon := canonical_name (name new_name) in
  (files (fst w) !! old_canon = None ->
   rename_file old_name new_name w
   = (Raise (RecoverableWorkspaceError
               ("File not tracked: " +:+ name old_name)), w))
  /\ (forall registered,
         files (fst w) !! old_canon = Some registered ->
         (path_exists (snd w) (norm registered) = false ->
          rename_file old_name new_name w
          = (Raise (FatalWorkspaceError
                      ("Physical file missing: " +:+ norm registered)), w))
         /\ (path_exists (snd w) (norm registered) = true ->
             os_rename (snd w) (norm registered) (entry_path new_canon) = None ->
             rename_file old_name new_name w = (Raise OSError, w))
         /\ (forall d',
                path_exists (snd w) (norm registered) = true ->
                os_rename (snd w) (norm registered) (entry_path new_canon)
                = Some d' ->
                let st' := swapped old_canon new_canon (fst w) in
                rename_file old_name new_name w
                = (if fst (write_state d' st')
                   then Return (entry_path new_canon)
                   else Raise OSError,
                   (st', snd (write_state d' st'))))).
Proof.
  intros old_canon new_canon. unfold rename_file.
  rewrite under_root_canonical_name. fold old_canon new_canon. split.
  - now intros ->.
  - intros registered ->. split; [now intros ->|]. split.
    + now intros -> ->.
    + intros d' -> ->. simpl negb. cbv iota.
      unfold save_state, swapped. simpl fst. simpl snd.
      now destruct (write_state d' _) as [[|] d''].
Qed.

Lemma swapped_lookup (old_canon new_canon : string) (st : state) :
  files (swapped old_canon new_canon st) !! new_canon
  = Some (entry_path new_canon)
  /\ active_file (swapped old_canon new_canon st) = Some new_canon
  /\ (old_canon <> new_canon ->
      files (swapped old_canon new_canon st) !! old_canon = None)
  /\ (forall k, k <> old_canon -> k <> new_canon ->
                files (swapped old_canon new_canon st) !! k = files st !! k).
Proof.
  unfold swapped. simpl. split; [apply lookup_insert_eq|].
  split; [reflexivity|]. split.
  - intros Hne. rewrite lookup_insert_ne by congruence. apply lookup_delete_eq.
  - intros k Hk1 Hk2. rewrite lookup_insert_ne by congruence.
    now apply lookup_delete_ne.
Qed.

(** C1, as amended.  With [old_canon] and [new_canon] the canonical names of
    the two names stripped of their directories: [rename_file] raises the
    recoverable "File not tracked" when [old_canon] is not a key of [files],
    the fatal "Physical file missing" when it is a key whose registered path
    does not exist, and the error of [os.rename] when the filesystem rename
    fails; in these three cases the registry (every key and the active
    pointer) and the disk are as before.  When the filesystem rename and the
    write of the state file both succeed, the call returns the path of
    [new_canon] under the workspace root, and the registry it leaves, which
    is the one written to the state file, has [old_canon] removed,
    [new_canon] bound to that path and active, and every other key as
    before. *)
Theorem rename_file_outcomes (old_name new_name : string) (w : world disk) :
  let old_canon := canonical_name (name old_name) in
  let new_canon := canonical_name (name new_name) in
  (files (fst w) !! old_canon = None ->
   rename_file old_name new_name w
   = (Raise (RecoverableWorkspaceError
               ("File not tracked: " +:+ name old_name)), w))
  /\ (forall registered,
         files (fst w) !! old_canon = Some registered ->
         (path_exists (snd w) (norm registered) = false ->
          rename_file old_name new_name w
          = (Raise (FatalWorkspaceError
                      ("Physical file missing: " +:+ norm registered)), w))
         /\ (path_exists (snd w) (norm registered) = true ->
             os_rename (snd w) (norm registered) (entry_path new_canon) = None ->
             rename_file old_name new_name w = (Raise OSError, w))
         /\ (forall d',
                path_exists (snd w) (norm registered) = true ->
                os_rename (snd w) (norm registered) (entry_path new_canon)
                = Some d' ->
                let st' := swapped old_canon new_canon (fst w) in
                fst (write_state d' st') = true ->
                rename_file old_name new_name w
                = (Return (entry_path new_canon),
                   (st', snd (write_state d' st')))
                /\ files st' !! new_canon = Some (entry_path new_canon)
                /\ active_file st' = Some new_canon
                /\ (old_canon <> new_canon -> files st' !! old_canon = None)
                /\ (forall k, k <> old_canon -> k <> new_canon ->
                              files st' !! k = files (fst w) !! k))).
Proof.
  intros old_canon new_canon.
  destruct (rename_file_cases old_name new_name w) as [Hnone Hsome].
  split; [exact Hnone|]. intros registered Hreg.
  destruct (Hsome registered Hreg) as (Hfatal & Hos & Hok).
  split; [exact Hfatal|]. split; [exact Hos|].
  intros d' Hex Hren st' Hwrite. split.
  - rewrite (Hok d' Hex Hren). fold old_canon new_canon st'.
    now rewrite Hwrite.
  - apply swapped_lookup.
Qed.

End Rename.

Section RenameExamples.
Import Json Exn PyPath Workspace Sim RegistryTerms.

(** Renaming the tracked and present ["Budget.xlsx"] to ["Plan"]. *)
Lemma rename_file_witness :
  fst (rename_file "/excel_files/Budget.xlsx" "Plan" (tracked_budget true))
  = Return "/excel_files/Plan.xlsx"
  /\ files (fst (snd (rename_file "/excel_files/Budget.xlsx" "Plan"
                        (tracked_budget true)))) !! "Budget.xlsx" = None.
Proof.
  destruct (proj2 (rename_file_outcomes "/excel_files/Budget.xlsx" "Plan"
                     (tracked_budget true))
              "/excel_files/Budget.xlsx" eq_refl)
    as (_ & _ & Hok).
  destruct (Hok (SimDisk ["Plan.xlsx"] true None []) eq_refl eq_refl eq_refl)
    as (Hrun & _ & _ & Hold & _).
  rewrite Hrun. split; [reflexivity|]. apply Hold. discriminate.
Defined.

(** C1 as stated fails: when the state file cannot be written,
    [rename_file] fails after the swap, and the registry keys and the active
    pointer have changed. *)
Lemma rename_file_fails_after_swap :
  let w := tracked_budget false in
  let out := rename_file "Budget.xlsx" "Plan" w in
  fst out = Raise OSError
  /\ files (fst w) !! "Budget.xlsx" = Some "/excel_files/Budget.xlsx"
  /\ files (fst (snd out)) !! "Budget.xlsx" = None
  /\ files (fst (snd out)) !! "Plan.xlsx" = Some "/excel_files/Plan.xlsx"
  /\ active_file (fst w) = Some "Budget.xlsx"
  /\ active_file (fst (snd out)) = Some "Plan.xlsx".
Proof. repeat split; vm_compute; reflexivity. Qed.

End RenameExamples.

(** ** Reconciliation and the active pointer *)

Section Reconcile.
Import Json Exn PyPath Workspace.
Context {disk : Type} `{Host disk}.

Lemma add_unregistered_other (k : string) (existing : list string) :
  k ∉ existing ->
  forall fm : gmap string string,
    add_unregistered existing fm !! k = fm !! k.
Proof.
  unfold add_unregistered.
  induction existing as [|n l IH]; intros Hk fm; [reflexivity|].
  apply not_elem_of_cons in Hk as [Hne Hl]. simpl. rewrite (IH Hl).
  destruct (fm !! n); [reflexivity|]. now apply lookup_insert_ne.
Qed.

Lemma add_unregistered_kept (k : string) (existing : list string) :
  forall (fm : gmap string string) p,
    fm !! k = Some p -> add_unregistered existing fm !! k = Some p.
Proof.
  unfold add_unregistered.
  induction existing as [|n l IH]; intros fm p Hk; [exact Hk|].
  simpl. apply IH. destruct (fm !! n) eqn:En; [exact Hk|].
  rewrite lookup_insert_ne; [exact Hk|]. congruence.
Qed.

Lemma add_unregistered_listed (k : string) (existing : list string) :
  k ∈ existing ->
  forall fm : gmap string string,
    is_Some (add_unregistered existing fm !! k).
Proof.
  unfold add_unregistered.
  induction existing as [|n l IH]; intros Hk fm; [inversion Hk|].
  simpl. destruct (decide (k ∈ l)) as [Hl|Hl]; [now apply IH|].
  apply elem_of_cons in Hk as [->|Hk]; [|contradiction].
  fold (add_unregistered l (match fm !! n with
                            | Some _ => fm
                            | None => <[n:=entry_path n]> fm
                            end)).
  rewrite add_unregistered_other by assumption.
  destruct (fm !! n) eqn:En; [now rewrite En|].
  rewrite lookup_insert_eq. eauto.
Qed.

Lemma remove_missing_lookup (k : string) (existing : list string)
    (fm : gmap string string) :
  remove_missing existing fm !! k
  = if decide (k ∈ existing) then fm !! k else None.
Proof.
  unfold remove_missing. destruct (decide (k ∈ existing)) as [Hk|Hk].
  - destruct (fm !! k) as [p|] eqn:Ek.
    + now apply map_lookup_filter_Some.
    + apply map_lookup_filter_None. left. exact Ek.
  - apply map_lookup_filter_None. right. intros p _. exact Hk.
Qed.

(** what a key is bound to after reconciliation *)
Lemma reconciled_lookup (k : string) (existing : list string) (st : state) :
  (k ∉ existing -> files (reconciled existing st) !! k = None)
  /\ (k ∈ existing -> is_Some (files (reconciled existing st) !! k))
  /\ (forall p, k ∈ existing -> files st !! k = Some p ->
                files (reconciled existing st) !! k = Some p).
Proof.
  unfold reconciled. simpl. repeat split.
  - intros Hk. rewrite add_unregistered_other by assumption.
    rewrite remove_missing_lookup. now destruct (decide (k ∈ existing)).
  - intros Hk. now apply add_unregistered_listed.
  - intros p Hk Hp. apply add_unregistered_kept.
    rewrite remove_missing_lookup. now destruct (decide (k ∈ existing)).
Qed.

(** After [register_file] of a name whose file is not on disk,
    reconciliation drops the entry and leaves the active pointer on it. *)
Lemma reconcile_after_register (filename : string) (w : world disk) :
  let canon := canonical_name filename in
  let w1 := snd (register_file filename w) in
  let w2 := snd (reconcile_filesystem w1) in
  canon ∉ glob_xlsx (snd w) ->
  active_file (fst w1) = Some canon
  /\ files (fst w1) !! canon = Some (under_root canon)
  /\ active_file (fst w2) = Some canon
  /\ files (fst w2) !! canon = None
  /\ get_active_file (fst w2) = Raise (KeyError canon).
Proof.
  intros canon w1 w2 Hdisk.
  assert (Hw1 : fst w1 = State (<[canon := under_root canon]> (files (fst w)))
                               (Some canon)
                /\ glob_xlsx (snd w1) = glob_xlsx (snd w)).
  { unfold w1, register_file, save_state. fold canon. simpl fst. simpl snd.
    pose proof (write_state_glob (snd w)
                  (State (<[canon := under_root canon]> (files (fst w)))
                         (Some canon))) as Hg.
    destruct (write_state (snd w) _) as [[|] d']; simpl in *; auto. }
  destruct Hw1 as [Hst Hglob].
  assert (Hw2 : fst w2 = reconciled (glob_xlsx (snd w)) (fst w1)).
  { unfold w2, reconcile_filesystem, save_state. rewrite Hglob. simpl.
    now destruct (write_state (snd w1) _) as [[|] d']. }
  assert (Hnone : files (fst w2) !! canon = None).
  { rewrite Hw2. now apply reconciled_lookup. }
  rewrite Hst. simpl. rewrite lookup_insert_eq.
  repeat split; try (rewrite Hw2, Hst; reflexivity); try exact Hnone.
  unfold get_active_file. rewrite Hw2 at 1. rewrite Hst at 1. simpl.
  destruct (String.eqb_spec canon "") as [E|_].
  - now destruct (canonical_name_component filename).
  - now rewrite Hnone.
Qed.

End Reconcile.

Section ReconcileExamples.
Import Json Exn PyPath Workspace Sim.

(** C3: the code at the failing input.  On an empty workspace,
    [register_file("Budget")] followed by a reconciliation leaves
    [active_file] set to ["Budget.xlsx"] with no such key in [files];
    [get_active_file] then looks the absent key up and raises [KeyError], and
    so does [resolve_file(None)]. *)
Theorem reconcile_leaves_active_file_dangling :
  let w1 := snd (register_file "Budget" (fresh_world [])) in
  let w2 := snd (reconcile_filesystem w1) in
  active_file (fst w2) = Some "Budget.xlsx"
  /\ files (fst w2) !! "Budget.xlsx" = None
  /\ get_active_file (fst w2) = Raise (KeyError "Budget.xlsx")
  /\ fst (resolve_file JNull w1) = Raise (KeyError "Budget.xlsx").
Proof.
  intros w1 w2.
  pose proof (reconcile_after_register "Budget" (fresh_world [])) as R.
  cbv zeta in R.
  destruct R as (_ & _ & Ha & Hf & Hg); [apply not_elem_of_nil|].
  split; [exact Ha|]. split; [exact Hf|]. split; [exact Hg|].
  vm_compute. reflexivity.
Qed.

End ReconcileExamples.

(** ** [resolve_file] after [register_file] *)

Section Resolve.
Import Json Exn PyPath Workspace RegistryTerms.
Context {disk : Type} `{Host disk}.

Lemma existing_files_unique (k b : string) :
  PyStr.lower b = k ->
  forall names (acc : PyDict.t string),
    (forall n, n ∈ names -> PyStr.lower n = k -> n = b) ->
    PyDict.get k acc = Some b \/ b ∈ names ->
    PyDict.get k (foldl (fun d n => PyDict.set (PyStr.lower n) n d) acc names)
    = Some b.
Proof.
  intros Hb. induction names as [|n l IH]; intros acc Huniq Hsrc.
  - destruct Hsrc as [Hacc|Hin]; [exact Hacc | inversion Hin].
  - simpl. apply IH.
    + intros m Hm. apply Huniq. now right.
    + destruct (String.eqb_spec (PyStr.lower n) k) as [Hk|Hk].
      * left. rewrite (Huniq n ltac:(now left) Hk) in *.
        rewrite <- Hb. apply dict_get_set_eq.
      * rewrite dict_get_set_ne by assumption.
        destruct Hsrc as [Hacc|Hin]; [now left|].
        apply elem_of_cons in Hin as [->|Hin]; [contradiction | now right].
Qed.

Lemma writes_succeed_now (d : disk) (st : state) :
  writes_succeed d ->
  fst (write_state d st) = true /\ writes_succeed (snd (write_state d st)).
Proof.
  intros Hw. split; [exact (Hw [] st)|].
  intros hist st'. exact (Hw (st :: hist) st').
Qed.

Lemma save_state_succeeds (st : state) (d : disk) :
  writes_succeed d ->
  save_state (st, d) = (Return tt, (st, snd (write_state d st)))
  /\ writes_succeed (snd (write_state d st))
  /\ glob_xlsx (snd (write_state d st)) = glob_xlsx d.
Proof.
  intros Hw. destruct (writes_succeed_now d st Hw) as [Hok Hnext].
  unfold save_state. simpl.
  destruct (write_state d st) as [ok d'] eqn:E. simpl in *. subst ok.
  split; [reflexivity|]. split; [exact Hnext|].
  pose proof (write_state_glob d st) as Hg. now rewrite E in Hg.
Qed.

Lemma register_budget (w : world disk) :
  only_budget (glob_xlsx (snd w)) -> writes_succeed (snd w) ->
  exists w1,
    register_file "Budget" w = (Return "/excel_files/Budget.xlsx", w1)
    /\ serving_budget w1.
Proof.
  intros Hdisk Hw. unfold register_file.
  change (canonical_name "Budget") with "Budget.xlsx".
  change (under_root "Budget.xlsx") with "/excel_files/Budget.xlsx".
  destruct (save_state_succeeds
              (State (<["Budget.xlsx" := "/excel_files/Budget.xlsx"]>
                        (files (fst w))) (Some "Budget.xlsx"))
              (snd w) Hw) as (-> & Hnext & Hglob).
  eexists. split; [reflexivity|].
  split; [reflexivity|]. split; [apply lookup_insert_eq|].
  split; [simpl; now rewrite Hglob | exact Hnext].
Qed.

Lemma reconcile_serving (w : world disk) :
  serving_budget w ->
  exists w1,
    reconcile_filesystem w = (Return tt, w1) /\ serving_budget w1.
Proof.
  intros (Hact & Hfile & Hdisk & Hw). unfold reconcile_filesystem.
  destruct (save_state_succeeds (reconciled (glob_xlsx (snd w)) (fst w))
              (snd w) Hw) as (-> & Hnext & Hglob).
  eexists. split; [reflexivity|].
  split; [exact Hact|]. split.
  - simpl. apply reconciled_lookup; [apply Hdisk | exact Hfile].
  - split; [simpl; now rewrite Hglob | exact Hnext].
Qed.

(** C7, as amended.  On a disk where ["Budget.xlsx"] is present and is the
    only entry lower-casing to ["budget.xlsx"], and whose state file can be
    written: [register_file("Budget")] returns the path
    [/excel_files/Budget.xlsx] and leaves the registry serving it; and in
    every registry state serving it, both [resolve_file(None)] and
    [resolve_file("budget.xlsx")] return that same path and leave the
    registry serving it, so the two agree until another file is registered
    or resolved. *)
Theorem resolve_file_agrees_with_active :
  (forall w : world disk,
      only_budget (glob_xlsx (snd w)) -> writes_succeed (snd w) ->
      exists w1,
        register_file "Budget" w = (Return "/excel_files/Budget.xlsx", w1)
        /\ serving_budget w1)
  /\ (forall w : world disk,
         serving_budget w ->
         (exists w', resolve_file JNull w
                     = (Return "/excel_files/Budget.xlsx", w')
                     /\ serving_budget w')
         /\ (exists w', resolve_file (JStr "budget.xlsx") w
                        = (Return "/excel_files/Budget.xlsx", w')
                        /\ serving_budget w')).
Proof.
  split; [exact register_budget|]. intros w Hserv.
  destruct (reconcile_serving w Hserv) as (w1 & Hrec & Hserv1).
  pose proof Hserv1 as (Hact & Hfile & Hdisk & Hw).
  split.
  - exists w1. split; [|exact Hserv1].
    unfold resolve_file. simpl truthy. cbv iota. rewrite Hrec.
    unfold get_active_file. rewrite Hact. simpl. now rewrite Hfile.
  - unfold resolve_file. simpl truthy. cbv iota.
    change (name "budget.xlsx") with "budget.xlsx". rewrite Hrec.
    change (canonical_name "budget.xlsx") with "budget.xlsx".
    change (PyStr.lower "budget.xlsx") with "budget.xlsx".
    unfold existing_files.
    rewrite (existing_files_unique "budget.xlsx" "Budget.xlsx" eq_refl
               (glob_xlsx (snd w1)) [] (proj2 Hdisk) (or_intror (proj1 Hdisk))).
    change (entry_path "Budget.xlsx") with "/excel_files/Budget.xlsx".
    destruct (save_state_succeeds
                (State (<["Budget.xlsx" := "/excel_files/Budget.xlsx"]>
                          (files (fst w1))) (Some "Budget.xlsx"))
                (snd w1) Hw) as (-> & Hnext & Hglob).
    eexists. split; [reflexivity|].
    split; [reflexivity|]. split; [apply lookup_insert_eq|].
    split; [simpl; now rewrite Hglob | exact Hnext].
Qed.

End Resolve.

Section ResolveExamples.
Import Json Exn PyPath Workspace RegistryTerms Sim.

Lemma sim_after_writes_writable (d : sim_disk) (hist : list state) :
  writable (after_writes d hist) = writable d
  /\ entries (after_writes d hist) = entries d.
Proof.
  revert d. induction hist as [|st l IH]; intros d; [now split|].
  change (after_writes d (st :: l))
    with (after_writes (snd (sim_write d st)) l).
  destruct (IH (snd (sim_write d st))) as [-> ->].
  unfold sim_write. destruct (writable d) eqn:E; simpl; auto.
Qed.

Lemma sim_writes_succeed (names : list string) :
  writes_succeed (fresh_disk names).
Proof.
  intros hist st. simpl. unfold sim_write.
  destruct (sim_after_writes_writable (fresh_disk names) hist) as [-> _].
  reflexivity.
Qed.

Lemma sim_only_budget : only_budget (glob_xlsx (fresh_disk ["Budget.xlsx"])).
Proof.
  split; [apply list_elem_of_here|].
  intros n Hn _. now apply list_elem_of_singleton in Hn.
Qed.

(** On a workspace holding just ["Budget.xlsx"]: register, then resolve
    without a name, then resolve ["budget.xlsx"]. *)
Lemma resolve_file_agrees_witness :
  exists w1 w2 w3 : world sim_disk,
    register_file "Budget" (fresh_world ["Budget.xlsx"])
    = (Return "/excel_files/Budget.xlsx", w1)
    /\ resolve_file JNull w1 = (Return "/excel_files/Budget.xlsx", w2)
    /\ resolve_file (JStr "budget.xlsx") w2
       = (Return "/excel_files/Budget.xlsx", w3).
Proof.
  destruct (proj1 resolve_file_agrees_with_active
              (fresh_world ["Budget.xlsx"]) sim_only_budget
              (sim_writes_succeed ["Budget.xlsx"]))
    as (w1 & Hreg & Hs1).
  destruct (proj1 (proj2 resolve_file_agrees_with_active w1 Hs1))
    as (w2 & Hnone & Hs2).
  destruct (proj2 (proj2 resolve_file_agrees_with_active w2 Hs2))
    as (w3 & Hname & _).
  exists w1, w2, w3. split; [exact Hreg|]. split; [exact Hnone | exact Hname].
Defined.

(** C7 as stated fails: with both ["Budget.xlsx"] and ["budget.xlsx"] in the
    workspace root, the latter listed later, [resolve_file("budget.xlsx")]
    after [register_file("Budget")] returns the other file's path, not the
    one [resolve_file(None)] returns. *)
Lemma resolve_file_differs_from_active :
  let w0 := fresh_world ["Budget.xlsx"; "budget.xlsx"] in
  let w1 := snd (register_file "Budget" w0) in
  fst (register_file "Budget" w0) = Return "/excel_files/Budget.xlsx"
  /\ fst (resolve_file JNull w1) = Return "/excel_files/Budget.xlsx"
  /\ fst (resolve_file (JStr "budget.xlsx") w1)
     = Return "/excel_files/budget.xlsx"
  /\ fst (resolve_file (JStr "budget.xlsx") w1) <> fst (resolve_file JNull w1).
Proof.
  split; [vm_compute; reflexivity|]. split; [vm_compute; reflexivity|].
  split; [vm_compute; reflexivity|]. vm_compute. discriminate.
Qed.

End ResolveExamples.

(** ** The orchestrator *)

Section Orchestration.
Import Json Exn Runtime PyPath Workspace Agent.
Context {disk M L : Type} `{Host disk} `{Python} `{Mcp M} `{Llm L}.

Lemma release_lock_free (s : @agent disk M L) : lock (release_lock s) = false.
Proof.
  unfold release_lock. destruct (lock s) eqn:E; [reflexivity | exact E].
Qed.

(** C8.  A call that finds the lock free always terminates, whatever the
    model, the tool process and the disk do, and in the state it leaves the
    lock is free: after a success or a fatal workspace error ([Finish]),
    after the attempts are used up ([Continue]), and after an exception that
    escapes the loop body ([Raise]).  The result is the returned pair, the
    "Max retries exceeded" failure, or the escaping exception. *)
Theorem execute_with_retry_releases_lock
    (user_input : string) (s : @agent disk M L) :
  lock s = false ->
  exists (r : result (bool * json)) (s' : @agent disk M L),
    execute_with_retry user_input s = Some (r, s')
    /\ lock s' = false
    /\ s' = release_lock
              (snd (retry_loop MAX_RETRIES user_input JNull (take_lock s)))
    /\ match fst (retry_loop MAX_RETRIES user_input JNull (take_lock s)) with
       | Return (Finish v) => r = Return v
       | Return (Continue error) =>
           r = Return (false,
                       JStr ("Max retries exceeded. Last error: "
                             +:+ py_str error))
       | Raise e => r = Raise e
       end.
Proof.
  intros Hfree. unfold execute_with_retry. rewrite Hfree.
  destruct (retry_loop MAX_RETRIES user_input JNull (take_lock s))
    as [r s'] eqn:E.
  eexists _, _. split; [reflexivity|]. split; [apply release_lock_free|].
  split; [reflexivity|]. simpl. destruct r as [[error|v]|e]; reflexivity.
Qed.

(** C9.  When the tool is [create_workbook] and the arguments hold the name
    [filename] under ["filepath"], the dispatch registers the file and, once
    the registry is written, calls the tool process exactly once, with the
    single argument ["filepath"] bound to the registered path; whatever else
    the arguments hold is not passed on.  (If writing the registry fails,
    the exception propagates and no call is made.) *)
Theorem dispatch_create_workbook_forwards_path_only
    (arguments : PyDict.t json) (filename : string) (s : @agent disk M L) :
  PyDict.get "filepath" arguments = Some (JStr filename) ->
  let registered := register_file filename (registry s) in
  let full_path := under_root (canonical_name filename) in
  let out := dispatch "create_workbook" arguments s in
  match fst registered with
  | Return p =>
      p = full_path
      /\ calls (snd out)
         = (calls s ++ [("create_workbook", [("filepath", JStr full_path)])])%list
      /\ fst out
         = fst (mcp_call_tool "create_workbook" [("filepath", JStr full_path)]
                  (mcp s))
      /\ registry (snd out) = snd registered
  | Raise e =>
      fst out = Raise e /\ calls (snd out) = calls s
  end.
Proof.
  intros Hfp registered full_path out.
  assert (Hreg : forall p, fst registered = Return p -> p = full_path).
  { unfold registered, register_file. fold full_path.
    destruct (save_state _) as [[u|e] w']; simpl; congruence. }
  subst out registered.
  unfold dispatch, bind, item, on_registry, tool_call, set_active_workbook, ret.
  rewrite !String.eqb_refl, Hfp. cbv beta iota.
  destruct (register_file filename (registry s)) as [[p|e] w1] eqn:Er;
    cbn [fst snd] in *; cbv beta iota.
  - rewrite (Hreg p eq_refl). split; [reflexivity|]. cbn [registry mcp calls].
    destruct (mcp_call_tool "create_workbook" [("filepath", JStr full_path)]
                (mcp s)) as [[[[|] result]|e] m]; cbn; auto.
  - auto.
Qed.

End Orchestration.

Section OrchestrationExamples.
Import Json Exn Runtime PyPath Workspace Agent Sim RegistryTerms Runs.

(** The four ways out of the loop, each leaving the lock free. *)
Lemma exit_paths_release_lock :
  (exists s, run_success = Some (Return (true, JStr "Created"), s)
             /\ lock s = false)
  /\ (exists s,
         run_fatal
         = Some (Return (false,
                         JStr ("Fatal workspace error: Physical file missing: "
                               +:+ "/excel_files/Budget.xlsx")), s)
         /\ lock s = false)
  /\ (exists s,
         run_exhausted
         = Some (Return (false,
                         JStr ("Max retries exceeded. Last error: "
                               +:+ "LLM failed to produce valid JSON")), s)
         /\ lock s = false)
  /\ (exists s, run_exception = Some (Raise (KeyError "Budget.xlsx"), s)
                /\ lock s = false).
Proof.
  split; [|split; [|split]].
  - destruct run_success as [[r s]|] eqn:E; vm_compute in E; [|discriminate].
    injection E as <- <-. eexists. split; reflexivity.
  - destruct run_fatal as [[r s]|] eqn:E; vm_compute in E; [|discriminate].
    injection E as <- <-. eexists. split; reflexivity.
  - destruct run_exhausted as [[r s]|] eqn:E; vm_compute in E; [|discriminate].
    injection E as <- <-. eexists. split; reflexivity.
  - destruct run_exception as [[r s]|] eqn:E; vm_compute in E; [|discriminate].
    injection E as <- <-. eexists. split; reflexivity.
Qed.

(** A request on an idle agent. *)
Lemma execute_with_retry_witness :
  exists r s',
    execute_with_retry "create workbook Sales"
      (idle (fresh_world []) [Return (true, JStr "Created")]
            [(true, propose_create)])
    = Some (r, s')
    /\ lock s' = false.
Proof.
  destruct (execute_with_retry_releases_lock "create workbook Sales"
              (idle (fresh_world []) [Return (true, JStr "Created")]
                    [(true, propose_create)]) eq_refl)
    as (r & s' & Hrun & Hlock & _).
  exists r, s'. split; [exact Hrun | exact Hlock].
Defined.

(** A proposal with a sheet name and data besides the file name: only the
    registered path reaches the tool process. *)
Lemma dispatch_create_workbook_witness :
  calls (snd (dispatch "create_workbook"
                [("filepath", JStr "Sales"); ("sheet_name", JStr "Q1");
                 ("data", JList [JInt 1; JInt 2])]
                (idle (fresh_world []) [Return (true, JStr "Created")] [])))
  = [("create_workbook", [("filepath", JStr "/excel_files/Sales.xlsx")])].
Proof.
  pose proof (dispatch_create_workbook_forwards_path_only
                [("filepath", JStr "Sales"); ("sheet_name", JStr "Q1");
                 ("data", JList [JInt 1; JInt 2])]
                "Sales"
                (idle (fresh_world []) [Return (true, JStr "Created")] [])
                eq_refl) as Hd.
  cbv zeta in Hd.
  change (fst (register_file "Sales"
                 (registry (idle (fresh_world [])
                                 [Return (true, JStr "Created")] []))))
    with (@Return string "/excel_files/Sales.xlsx") in Hd.
  cbv iota in Hd. destruct Hd as (_ & Hcalls & _). exact Hcalls.
Defined.

End OrchestrationExamples.

(** ** Further properties of the registry *)

Section ReconcileMore.
Import Json Exn PyPath Workspace.
Context {disk : Type} `{Host disk}.

Lemma add_unregistered_new (k : string) (existing : list string) :
  k ∈ existing ->
  forall fm : gmap string string,
    fm !! k = None ->
    add_unregistered existing fm !! k = Some (entry_path k).
Proof.
  induction existing as [|n l IH]; intros Hk fm Hnone; [inversion Hk|].
  change (add_unregistered (n :: l) fm)
    with (add_unregistered l (match fm !! n with
                              | None => <[n := entry_path n]> fm
                              | Some _ => fm
                              end)).
  destruct (decide (n = k)) as [->|Hne].
  - rewrite Hnone. apply add_unregistered_kept, lookup_insert_eq.
  - apply elem_of_cons in Hk as [->|Hk]; [congruence|].
    apply IH; [exact Hk|].
    destruct (fm !! n); [exact Hnone|]. now rewrite lookup_insert_ne.
Qed.

Lemma reconcile_state (w : world disk) :
  fst (snd (reconcile_filesystem w)) = reconciled (glob_xlsx (snd w)) (fst w).
Proof.
  unfold reconcile_filesystem, save_state. simpl.
  now destruct (write_state (snd w) _).
Qed.

Lemma reconciled_idempotent (existing : list string) (st : state) :
  reconciled existing (reconciled existing st) = reconciled existing st.
Proof.
  assert (Hfiles : files (reconciled existing (reconciled existing st))
                   = files (reconciled existing st)).
  { apply map_eq. intros k. destruct (decide (k ∈ existing)) as [Hk|Hk].
    - destruct (proj1 (proj2 (reconciled_lookup k existing st)) Hk) as [p Hp].
      rewrite Hp. now apply reconciled_lookup.
    - rewrite (proj1 (reconciled_lookup k existing st) Hk).
      now apply reconciled_lookup. }
  destruct (reconciled existing (reconciled existing st)) as [f a] eqn:E2.
  destruct (reconciled existing st) as [f1 a1] eqn:E1.
  simpl in Hfiles. subst f.
  assert (Ha : a = a1); [|now subst].
  change a with (active_file (State f1 a)). rewrite <- E2. reflexivity.
Qed.

Lemma reconciled_keys (existing : list string) (st : state) (k : string) :
  is_Some (files (reconciled existing st) !! k) <-> k ∈ existing.
Proof.
  split.
  - intros Hsome. destruct (decide (k ∈ existing)) as [Hk|Hk]; [exact Hk|].
    rewrite (proj1 (reconciled_lookup k existing st) Hk) in Hsome.
    now destruct Hsome.
  - apply reconciled_lookup.
Qed.

(** X1.  After [_reconcile_filesystem], whether or not the state file could
    be written, the keys of [files] are exactly the names the directory scan
    found: an entry whose file is gone is removed, an entry whose file is
    there keeps its path, a file not yet registered is bound to its path
    under the workspace root; the active pointer is left as it was; and the
    registry is a fixed point of a second reconciliation against the same
    listing. *)
Theorem reconcile_filesystem_matches_disk (w : world disk) :
  let names := glob_xlsx (snd w) in
  let st' := fst (snd (reconcile_filesystem w)) in
  (forall k, is_Some (files st' !! k) <-> k ∈ names)
  /\ (forall k p, k ∈ names -> files (fst w) !! k = Some p ->
                  files st' !! k = Some p)
  /\ (forall k, k ∈ names -> files (fst w) !! k = None ->
                files st' !! k = Some (entry_path k))
  /\ active_file st' = active_file (fst w)
  /\ reconciled names st' = st'.
Proof.
  intros names st'. unfold st'. rewrite reconcile_state. fold names.
  split; [|split; [|split; [|split]]].
  - intros k. apply reconciled_keys.
  - intros k p Hk Hp. now apply reconciled_lookup.
  - intros k Hk Hnone. unfold reconciled. simpl.
    apply add_unregistered_new; [exact Hk|].
    rewrite remove_missing_lookup. now destruct (decide (k ∈ names)).
  - reflexivity.
  - apply reconciled_idempotent.
Qed.

End ReconcileMore.

Section ResolveMore.
Import Json Exn PyPath Workspace.
Context {disk : Type} `{Host disk}.

Lemma existing_files_found (k : string) (names : list string) :
  forall (acc : PyDict.t string) (real : string),
    PyDict.get k (foldl (fun d n => PyDict.set (PyStr.lower n) n d) acc names)
    = Some real ->
    (real ∈ names /\ PyStr.lower real = k) \/ PyDict.get k acc = Some real.
Proof.
  induction names as [|n l IH]; intros acc real Hget; [now right|].
  simpl in Hget. destruct (IH _ _ Hget) as [[Hin Hlow]|Hacc].
  - left. split; [now right | exact Hlow].
  - destruct (String.eqb_spec (PyStr.lower n) k) as [Hk|Hk].
    + subst k. rewrite dict_get_set_eq in Hacc. injection Hacc as <-.
      left. split; [now left | reflexivity].
    + rewrite dict_get_set_ne in Hacc by assumption. now right.
Qed.

Lemma existing_files_covers (k : string) (names : list string) :
  forall acc : PyDict.t string,
    is_Some (PyDict.get k acc) \/ (exists n, n ∈ names /\ PyStr.lower n = k) ->
    is_Some (PyDict.get k
               (foldl (fun d n => PyDict.set (PyStr.lower n) n d) acc names)).
Proof.
  induction names as [|n l IH]; intros acc Hsrc.
  - destruct Hsrc as [Hacc|(m & Hm & _)]; [exact Hacc | inversion Hm].
  - simpl. apply IH.
    destruct (String.eqb_spec (PyStr.lower n) k) as [Hk|Hk].
    + left. subst k. rewrite dict_get_set_eq. eauto.
    + rewrite dict_get_set_ne by assumption.
      destruct Hsrc as [Hacc|(m & Hm & Hlow)]; [now left|].
      apply elem_of_cons in Hm as [->|Hm]; [contradiction|]. right. eauto.
Qed.

Lemma save_state_cases (st : state) (d : disk) :
  fst (snd (save_state (st, d))) = st
  /\ glob_xlsx (snd (snd (save_state (st, d)))) = glob_xlsx d
  /\ (fst (save_state (st, d)) = Return tt
      \/ fst (save_state (st, d)) = Raise OSError).
Proof.
  unfold save_state. simpl. pose proof (write_state_glob d st) as Hg.
  destruct (write_state d st) as [[|] d']; simpl in *; auto.
Qed.

(** X2.  [resolve_file] on a name whose last path component is not empty.
    When it returns, the path is that of a file the directory scan listed,
    whose name equals the canonical name up to letter case; that file's name
    is the active one and is bound to the returned path, and the keys of
    [files] are exactly the listed names.  When it raises the recoverable
    error, no listed name matches, the registry is the reconciled one with
    the active pointer as before, and the message starts with
    [File '<name>' not found].  Any other exception is the failed write of
    the state file. *)
Theorem resolve_file_by_name (s : string) (w : world disk) :
  name s <> "" ->
  let canon := canonical_name (name s) in
  let names := glob_xlsx (snd w) in
  let st' := fst (snd (resolve_file (JStr s) w)) in
  match fst (resolve_file (JStr s) w) with
  | Return p =>
      exists real,
        real ∈ names
        /\ PyStr.lower real = PyStr.lower canon
        /\ p = entry_path real
        /\ active_file st' = Some real
        /\ files st' !! real = Some p
        /\ (forall k, is_Some (files st' !! k) <-> k ∈ names)
  | Raise (RecoverableWorkspaceError msg) =>
      (forall n, n ∈ names -> PyStr.lower n <> PyStr.lower canon)
      /\ st' = reconciled names (fst w)
      /\ exists hint, msg = "File '" +:+ name s +:+ "' not found" +:+ hint
  | Raise e => e = OSError
  end.
Proof.
  intros Hname canon names st'. subst st'. unfold resolve_file.
  destruct s as [|c0 s0]; [now contradict Hname|].
  change (truthy (JStr (String c0 s0))) with true. cbv iota.
  pose proof (reconcile_state w) as Hst.
  assert (Hglob : glob_xlsx (snd (snd (reconcile_filesystem w))) = names).
  { unfold reconcile_filesystem. apply save_state_cases. }
  assert (Hres : fst (reconcile_filesystem w) = Return tt
                 \/ fst (reconcile_filesystem w) = Raise OSError).
  { unfold reconcile_filesystem. apply save_state_cases. }
  assert (Hrec : forall k,
             is_Some (files (fst (snd (reconcile_filesystem w))) !! k)
             <-> k ∈ names)
    by (intros k; rewrite reconcile_state; apply reconciled_keys).
  destruct (reconcile_filesystem w) as [r1 w1]. simpl in Hst, Hglob, Hres, Hrec.
  destruct Hres as [-> | ->]; [|reflexivity].
  destruct (name (String c0 s0)) as [|c r] eqn:En; [now contradict Hname|].
  fold canon. rewrite Hglob.
  destruct (PyDict.get (PyStr.lower canon) (existing_files names))
    as [real|] eqn:Eget.
  - destruct (existing_files_found _ _ _ _ Eget) as [[Hin Hlow]|Habs];
      [|discriminate Habs].
    destruct (save_state_cases
                (State (<[real := entry_path real]> (files (fst w1)))
                       (Some real)) (snd w1)) as (Hs & _ & Hr).
    destruct (save_state _) as [r2 w2]. simpl in Hs, Hr.
    destruct Hr as [-> | ->]; [|reflexivity]. simpl. rewrite Hs. simpl.
    exists real. split; [exact Hin|]. split; [exact Hlow|].
    split; [reflexivity|]. split; [reflexivity|].
    split; [apply lookup_insert_eq|].
    intros k. destruct (decide (real = k)) as [<-|Hne].
    + rewrite lookup_insert_eq. split; [intros _; exact Hin | eauto].
    + rewrite lookup_insert_ne by assumption. apply Hrec.
  - assert (Hmiss : forall n, n ∈ names -> PyStr.lower n <> PyStr.lower canon).
    { intros n Hn Hlow.
      destruct (existing_files_covers (PyStr.lower canon) names []
                  (or_intror (ex_intro _ n (conj Hn Hlow)))) as [x Hx].
      unfold existing_files in Eget. congruence. }
    destruct (suggest_filename canon (fst w1)) as [sug|]; simpl.
    + split; [exact Hmiss|]. split; [exact Hst|].
      exists (". Did you mean '" +:+ sug +:+ "'?").
      now rewrite !str_app_assoc.
    + split; [exact Hmiss|]. split; [exact Hst|].
      exists "". reflexivity.
Qed.

End ResolveMore.

Section ResolveMoreExamples.
Import Json Exn PyPath Workspace Sim.

(** Resolving ["sales"] in a workspace that holds ["Sales.xlsx"]. *)
Lemma resolve_file_by_name_witness :
  fst (resolve_file (JStr "sales") (fresh_world ["Sales.xlsx"]))
  = Return "/excel_files/Sales.xlsx"
  /\ active_file (fst (snd (resolve_file (JStr "sales")
                              (fresh_world ["Sales.xlsx"]))))
     = Some "Sales.xlsx".
Proof.
  pose proof (resolve_file_by_name "sales" (fresh_world ["Sales.xlsx"])
                ltac:(discriminate)) as T.
  cbv zeta in T.
  change (fst (resolve_file (JStr "sales") (fresh_world ["Sales.xlsx"])))
    with (@Return string "/excel_files/Sales.xlsx") in T.
  cbv iota in T. destruct T as (real & Hin & _ & _ & Hact & _).
  split; [reflexivity|].
  apply list_elem_of_singleton in Hin. now rewrite Hin in Hact.
Defined.

End ResolveMoreExamples.

(** ** Paths that [rename_file] and [register_file] produce *)

Section Targets.
Import Json Exn PyStr PyPath Terms Workspace RegistryTerms.
Context {disk : Type} `{Host disk}.

Lemma split_on_app_sep sep a r :
  lacks sep a -> split_on sep (a +:+ String sep r) = a :: split_on sep r.
Proof.
  induction a as [|x a IH]; intros Hl.
  - change (split_on sep (String sep r) = "" :: split_on sep r).
    simpl. now rewrite Ascii.eqb_refl.
  - destruct Hl as [Hx Ha].
    change (split_on sep (String x (a +:+ String sep r))
            = String x a :: split_on sep r).
    simpl. destruct (Ascii.eqb_spec x sep); [contradiction|].
    now rewrite (IH Ha).
Qed.

Lemma norm_entry_path c :
  lacks "/" c -> c <> "" -> c <> "." -> norm (entry_path c) = entry_path c.
Proof.
  intros Hl H0 H1. unfold norm, parts.
  change (entry_path c) with ("" +:+ String "/" ("excel_files" +:+ String "/" c)).
  rewrite (split_on_app_sep "/" "" _ I).
  rewrite (split_on_app_sep "/" "excel_files" c)
    by (simpl; repeat split; discriminate).
  rewrite (split_on_whole _ _ Hl). simpl List.filter.
  unfold is_component at 1.
  destruct (String.eqb_spec c ""); [contradiction|].
  destruct (String.eqb_spec c "."); [contradiction|]. reflexivity.
Qed.

(** X3.  Whatever the two names are (directories, [..], an absolute path),
    a [rename_file] that returns has moved the file to a path directly under
    the workspace root: the returned path is [/excel_files/] followed by a
    name without any slash that ends in [.xlsx] up to letter case.  That
    name is then the active one, it is bound to the returned path, and
    [get_active_file] gives the returned path back. *)
Theorem rename_file_stays_in_root
    (old_name new_name : string) (w w' : world disk) (p : string) :
  rename_file old_name new_name w = (Return p, w') ->
  exists c,
    p = "/excel_files/" +:+ c
    /\ c = canonical_name (name new_name)
    /\ lacks "/" c
    /\ endswith ".xlsx" (lower c) = true
    /\ active_file (fst w') = Some c
    /\ files (fst w') !! c = Some p
    /\ get_active_file (fst w') = Return (Some p).
Proof.
  intros Hrun.
  set (c := canonical_name (name new_name)).
  assert (Hl : lacks "/" c).
  { apply lacks_canonical_name; [apply name_lacks_slash|].
    simpl. repeat split; discriminate. }
  destruct (canonical_name_component (name new_name)) as [H0 H1].
  fold c in H0, H1.
  assert (Hst : p = entry_path c
                /\ fst w' = swapped (canonical_name (name old_name)) c (fst w)).
  { destruct (rename_file_cases old_name new_name w) as [Hnone Hsome].
    destruct (files (fst w) !! canonical_name (name old_name))
      as [registered|] eqn:Ereg.
    - destruct (Hsome registered eq_refl) as (Hfatal & Hos & Hok).
      destruct (path_exists (snd w) (norm registered)) eqn:Eex;
        [|rewrite (Hfatal eq_refl) in Hrun; discriminate].
      destruct (os_rename (snd w) (norm registered) (entry_path c))
        as [d'|] eqn:Eren;
        [|rewrite (Hos eq_refl Eren) in Hrun; discriminate].
      specialize (Hok d' eq_refl Eren). cbv zeta in Hok. fold c in Hok.
      rewrite Hok in Hrun.
      destruct (fst (write_state d' _)); [|discriminate].
      injection Hrun as <- <-. now split.
    - rewrite (Hnone eq_refl) in Hrun. discriminate. }
  destruct Hst as [-> Hst].
  destruct (swapped_lookup (canonical_name (name old_name)) c (fst w))
    as (Hnew & Hact & _).
  exists c. split; [reflexivity|]. split; [reflexivity|].
  split; [exact Hl|]. split; [apply canonical_name_extension|].
  rewrite Hst. split; [exact Hact|]. split; [exact Hnew|].
  unfold get_active_file. rewrite Hact.
  destruct (String.eqb_spec c ""); [contradiction|].
  rewrite Hnew. now rewrite norm_entry_path.
Qed.

End Targets.

Section TargetsExamples.
Import Json Exn PyPath Workspace Sim RegistryTerms.

(** A new name that tries to leave the workspace. *)
Lemma rename_file_stays_in_root_witness :
  exists w',
    rename_file "Budget.xlsx" "../../tmp/Plan" (tracked_budget true)
    = (Return "/excel_files/Plan.xlsx", w')
    /\ get_active_file (fst w') = Return (Some "/excel_files/Plan.xlsx").
Proof.
  destruct (rename_file "Budget.xlsx" "../../tmp/Plan" (tracked_budget true))
    as [r w'] eqn:E.
  assert (Hr : r = Return "/excel_files/Plan.xlsx").
  { change r with (fst (r, w')). rewrite <- E. vm_compute. reflexivity. }
  subst r. exists w'. split; [reflexivity|].
  destruct (rename_file_stays_in_root _ _ _ _ _ E) as (c & _ & _ & _ & _ & _ & _ & Hg).
  exact Hg.
Defined.

End TargetsExamples.

(** ** Further properties of the normalizer *)

Section AliasingMore.
Import Json Exn Runtime Normalizer.

Lemma dict_get_in_values {V} k (v : V) (d : PyDict.t V) :
  PyDict.get k d = Some v -> In v (map snd d).
Proof.
  induction d as [|[k0 v0] d IH]; simpl; [discriminate|].
  destruct (String.eqb k0 k); [intros [= ->]; now left | auto].
Qed.

Lemma alias_idempotent k : alias (alias k) = alias k.
Proof.
  destruct (PyDict.get k ALIAS_MAP) as [c|] eqn:E.
  - assert (Hk : alias k = c) by (unfold alias; now rewrite E).
    rewrite Hk. clear Hk.
    apply dict_get_in_values in E. unfold ALIAS_MAP in E. simpl in E.
    repeat (destruct E as [<-|E]; [reflexivity|]). destruct E.
  - assert (Hk : alias k = k) by (unfold alias; now rewrite E).
    now rewrite !Hk.
Qed.

Lemma dict_set_fresh {V} k (v : V) (d : PyDict.t V) :
  PyDict.get k d = None -> PyDict.set k v d = (d ++ [(k, v)])%list.
Proof.
  induction d as [|[k0 v0] d IH]; simpl; [reflexivity|].
  destruct (String.eqb k0 k); [discriminate|]. intros E. now rewrite IH.
Qed.

Lemma dict_get_app_fresh {V} k k' (v : V) (d : PyDict.t V) :
  k' <> k -> PyDict.get k' d = None ->
  PyDict.get k' (d ++ [(k, v)])%list = None.
Proof.
  intros Hne. induction d as [|[k0 v0] d IH]; simpl.
  - destruct (String.eqb_spec k k'); [congruence | reflexivity].
  - destruct (String.eqb k0 k'); [discriminate | exact IH].
Qed.

Lemma put_canonical (d : PyDict.t json) :
  forall acc : PyDict.t json,
    (forall kv, In kv d -> alias (fst kv) = fst kv) ->
    (forall kv, In kv d -> PyDict.get (fst kv) acc = None) ->
    List.NoDup (PyDict.keys d) ->
    foldl put acc d = (acc ++ d)%list.
Proof.
  induction d as [|[k v] d IH]; intros acc Hfix Hfresh Hnd.
  - simpl. now rewrite app_nil_r.
  - change (foldl put acc ((k, v) :: d)) with (foldl put (put acc (k, v)) d).
    assert (Hput : put acc (k, v) = (acc ++ [(k, v)])%list).
    { pose proof (Hfix (k, v) (or_introl eq_refl)) as Hk. simpl in Hk.
      unfold put. simpl. rewrite Hk.
      apply dict_set_fresh, (Hfresh (k, v)). now left. }
    rewrite Hput. inversion Hnd as [|? ? Hk Hnd']; subst.
    rewrite IH.
    + now rewrite <- app_assoc.
    + intros kv Hin. apply Hfix. now right.
    + intros [k' v'] Hin. simpl. apply dict_get_app_fresh.
      * intros ->. apply Hk. apply (in_map fst) in Hin. exact Hin.
      * apply (Hfresh (k', v')). now right.
    + exact Hnd'.
Qed.

Lemma put_keys_canonical (l : PyDict.t json) :
  forall acc : PyDict.t json,
    (forall kv, In kv acc -> alias (fst kv) = fst kv) ->
    forall kv, In kv (foldl put acc l) -> alias (fst kv) = fst kv.
Proof.
  induction l as [|[k v] l IH]; intros acc Hacc; [exact Hacc|].
  simpl. apply IH. unfold put. simpl. clear IH.
  induction acc as [|[k0 v0] acc IHa]; simpl.
  - intros kv [<-|[]]. apply alias_idempotent.
  - destruct (String.eqb_spec k0 (alias k)) as [->|Hne]; simpl.
    + intros kv [<-|Hin]; [apply alias_idempotent|].
      apply Hacc. now right.
    + intros kv [<-|Hin]; [apply (Hacc (k0, v0)); now left|].
      apply IHa; [|exact Hin]. intros kv' Hin'. apply Hacc. now right.
Qed.

(** X4.  The aliasing of keys: the canonical key of a canonical key is
    itself, so no alias chain exists; a raw mapping whose keys are distinct
    and already canonical goes through the loop unchanged, order included;
    and running the loop on its own result changes nothing. *)
Theorem canonicalize_keys_idempotent :
  (forall k, alias (alias k) = alias k)
  /\ (forall args : PyDict.t json,
         List.NoDup (PyDict.keys args) ->
         (forall kv, In kv args -> alias (fst kv) = fst kv) ->
         canonicalize_keys args = args)
  /\ (forall args : PyDict.t json,
         canonicalize_keys (canonicalize_keys args) = canonicalize_keys args).
Proof.
  assert (Hid : forall args : PyDict.t json,
             List.NoDup (PyDict.keys args) ->
             (forall kv, In kv args -> alias (fst kv) = fst kv) ->
             canonicalize_keys args = args).
  { intros args Hnd Hfix. unfold canonicalize_keys.
    now rewrite put_canonical. }
  split; [exact alias_idempotent|]. split; [exact Hid|].
  intros args. apply Hid.
  - apply (put_NoDup args []). constructor.
  - apply (put_keys_canonical args []). intros kv [].
Qed.

End AliasingMore.

Section SheetNames.
Import Json Exn Runtime Normalizer SheetTerms.
Context `{Python}.

Lemma head_in_lstrip chars s : head_in chars (lstrip_chars chars s) = false.
Proof.
  induction s as [|c s IH]; simpl; [reflexivity|].
  destruct (in_chars chars c) eqn:E; [exact IH | simpl; exact E].
Qed.

Lemma last_in_cons chars c s :
  s <> EmptyString -> last_in chars (String c s) = last_in chars s.
Proof. destruct s; [congruence | reflexivity]. Qed.

Lemma last_in_rstrip chars s : last_in chars (rstrip_chars chars s) = false.
Proof.
  induction s as [|c s IH]; simpl; [reflexivity|].
  destruct (rstrip_chars chars s) as [|c' r'] eqn:E.
  - destruct (in_chars chars c) eqn:Ec; simpl; [reflexivity | exact Ec].
  - rewrite last_in_cons by discriminate. exact IH.
Qed.

Lemma head_in_rstrip chars s :
  head_in chars s = false -> head_in chars (rstrip_chars chars s) = false.
Proof.
  destruct s as [|c s]; simpl; [reflexivity|]. intros E.
  destruct (rstrip_chars chars s); [rewrite E|]; simpl; exact E.
Qed.

Lemma clean_names_clean (items : list json) :
  Forall clean (clean_names items).
Proof.
  unfold clean_names. apply Forall_forall. intros n Hn.
  apply list_elem_of_In in Hn. apply filter_In in Hn as [Hin Hne].
  apply in_map_iff in Hin as (x & <- & _).
  split; [|split].
  - intros E. unfold nonempty in Hne. now rewrite E in Hne.
  - apply head_in_rstrip, head_in_lstrip.
  - apply last_in_rstrip.
Qed.

(** X5.  The block that normalizes ["sheet_names"].  Without the key the
    mapping is returned as it is.  With it, a value that is a string, a list
    or a dictionary is replaced by a list of strings, each of them a name
    that is not empty and has no bracket, quote or space at either end, and
    every other key keeps its value; any other value (a number, a boolean,
    [None]) makes the block raise [TypeError]. *)
Theorem normalize_sheet_names_cleans (normalized : PyDict.t json) :
  match PyDict.get "sheet_names" normalized with
  | None => normalize_sheet_names normalized = Return normalized
  | Some v =>
      match normalize_sheet_names normalized with
      | Return d =>
          exists names,
            PyDict.get "sheet_names" d = Some (JList (map JStr names))
            /\ Forall clean names
            /\ (forall k, k <> "sheet_names" ->
                          PyDict.get k d = PyDict.get k normalized)
            /\ ((exists s, v = JStr s) \/ (exists l, v = JList l)
                \/ (exists m, v = JDict m))
      | Raise e =>
          e = TypeError
          /\ (forall s, v <> JStr s) /\ (forall l, v <> JList l)
          /\ (forall m, v <> JDict m)
      end
  end.
Proof.
  unfold normalize_sheet_names.
  destruct (PyDict.get "sheet_names" normalized) as [v|]; [|reflexivity].
  destruct v as [| b | z | f | s | l | m]; simpl;
    try (split; [reflexivity|]; repeat split; discriminate).
  - exists (clean_names (map JStr (split_names s))).
    split; [apply dict_get_set_eq|]. split; [apply clean_names_clean|].
    split; [|eauto]. intros k Hk. now apply dict_get_set_ne.
  - exists (clean_names l).
    split; [apply dict_get_set_eq|]. split; [apply clean_names_clean|].
    split; [|eauto]. intros k Hk. now apply dict_get_set_ne.
  - exists (clean_names (map JStr (PyDict.keys m))).
    split; [apply dict_get_set_eq|]. split; [apply clean_names_clean|].
    split; [|eauto]. intros k Hk. now apply dict_get_set_ne.
Qed.

End SheetNames.

Section SkipResolution.
Import Json Exn Runtime PyPath Workspace Normalizer.
Context {disk : Type} `{Host disk} `{Python}.

Lemma normalize_sheet_names_other (normalized d : PyDict.t json) :
  normalize_sheet_names normalized = Return d ->
  forall k, k <> "sheet_names" -> PyDict.get k d = PyDict.get k normalized.
Proof.
  unfold normalize_sheet_names.
  destruct (PyDict.get "sheet_names" normalized) as [v|]; [|now intros [= <-]].
  destruct (sheet_items v); [|discriminate].
  intros [= <-] k Hk. now apply dict_get_set_ne.
Qed.

Lemma canonicalize_new_cases (normalized d : PyDict.t json) :
  canonicalize_new normalized = Return d ->
  (forall k, k <> "new_filepath" -> PyDict.get k d = PyDict.get k normalized)
  /\ (forall s, PyDict.get "new_filepath" normalized = Some (JStr s) ->
                PyDict.get "new_filepath" d
                = Some (JStr (canonical_name (name s)))).
Proof.
  unfold canonicalize_new.
  destruct (PyDict.get "new_filepath" normalized) as [[| | | | s | |]|];
    try discriminate; intros [= <-]; split; try discriminate; auto.
  - intros k Hk. now apply dict_get_set_ne.
  - intros s' [= <-]. apply dict_get_set_eq.
Qed.

(** X6.  For the tool [create_workbook] and a mapping that gives no old file
    to rename, [normalize_arguments] does not consult or change the
    registry or the disk; when it returns, the ["filepath"] value is the one
    the model gave, not a resolved path, and a ["new_filepath"] string has
    been reduced to its last path component and canonicalized, without a
    look-up. *)
Theorem normalize_create_workbook_skips_resolution
    (args : PyDict.t json) (w : world disk) :
  PyDict.get "old_filepath" (canonicalize_keys args) = None
  \/ PyDict.get "old_filepath" (canonicalize_keys args) = Some JNull ->
  let out := normalize_arguments (JDict args) (JStr "create_workbook") w in
  snd out = w
  /\ forall d,
       fst out = Return d ->
       PyDict.get "filepath" d
       = PyDict.get "filepath" (canonicalize_keys args)
       /\ forall s,
            PyDict.get "new_filepath" (canonicalize_keys args)
            = Some (JStr s) ->
            PyDict.get "new_filepath" d
            = Some (JStr (canonical_name (name s))).
Proof.
  intros Hold out. subst out. unfold normalize_arguments.
  destruct (normalize_sheet_names (canonicalize_keys args))
    as [n|e] eqn:En; [|split; [reflexivity | discriminate]].
  pose proof (normalize_sheet_names_other _ _ En) as Hsame.
  change (negb (eq_str (JStr "create_workbook") "create_workbook"))
    with false. cbv iota.
  assert (Hres : resolve_key "old_filepath" n w = (Return n, w)).
  { unfold resolve_key. rewrite (Hsame "old_filepath") by discriminate.
    now destruct Hold as [-> | ->]. }
  rewrite Hres. simpl. split; [reflexivity|].
  intros d Hd. destruct (canonicalize_new_cases _ _ Hd) as [Hk Hnew].
  split.
  - rewrite Hk by discriminate. now apply Hsame.
  - intros s Hs. apply Hnew. rewrite Hsame by discriminate. exact Hs.
Qed.

End SkipResolution.

Section SkipResolutionExamples.
Import Json Exn Runtime PyPath Workspace Normalizer Sim.

(** A creation request naming a file that is not on disk. *)
Lemma normalize_create_workbook_witness :
  normalize_arguments
    (JDict [("file", JStr "New Report"); ("new_file", JStr "/tmp/Later")])
    (JStr "create_workbook") (fresh_world ["Old.xlsx"])
  = (Return [("filepath", JStr "New Report");
             ("new_filepath", JStr "Later.xlsx")],
     fresh_world ["Old.xlsx"]).
Proof.
  destruct (normalize_create_workbook_skips_resolution
              [("file", JStr "New Report"); ("new_file", JStr "/tmp/Later")]
              (fresh_world ["Old.xlsx"]) (or_introl eq_refl)) as [Hw _].
  destruct (normalize_arguments _ _ _) as [r w'] eqn:E.
  simpl in Hw. subst w'. f_equal.
  change r with (fst (r, fresh_world ["Old.xlsx"])). rewrite <- E.
  vm_compute. reflexivity.
Defined.

End SkipResolutionExamples.

(** ** Further properties of the tool-process client *)

Section Replies.
Import Json Exn Runtime McpClient.
Context `{Python}.

Lemma has_error_dict d :
  has_error (JDict d)
  = Some (match PyDict.get "error" d with Some _ => true | None => false end).
Proof. reflexivity. Qed.

(** X7.  How [call_tool] reads a reply line.  A line that does not decode
    gives the failure carrying the decoder's message; a decoded object with
    an ["error"] member gives the failure carrying that member's text; the
    call is reported as successful only when the line decodes to an object
    without ["error"] whose ["result"] (an empty object when absent) is an
    object that does not flag ["isError"]; and a reply without ["result"] is
    the success ["Success"]. *)
Theorem reply_success_needs_clean_result (line : string) :
  (json_loads line = None -> reply line = (false, JStr (exc_text line)))
  /\ (forall d e,
         json_loads line = Some (JDict d) ->
         PyDict.get "error" d = Some e ->
         reply line = (false, JStr (py_str e)))
  /\ (fst (reply line) = true ->
      exists d result,
        json_loads line = Some (JDict d)
        /\ PyDict.get "error" d = None
        /\ default (JDict []) (PyDict.get "result" d) = JDict result
        /\ truthy (default (JBool false) (PyDict.get "isError" result))
           = false)
  /\ (forall d,
         json_loads line = Some (JDict d) ->
         PyDict.get "error" d = None ->
         PyDict.get "result" d = None ->
         reply line = (true, JStr "Success")).
Proof.
  unfold reply, decode_reply. split; [now intros ->|]. split.
  - intros d e -> He. rewrite has_error_dict, He. reflexivity.
  - split.
    + destruct (json_loads line) as [resp|]; [|discriminate].
      destruct resp as [| b | z | f | s | l | d]; simpl;
        try discriminate.
      * destruct (String.index 0 "error" s); discriminate.
      * destruct (existsb _ l); discriminate.
      * unfold PyDict.mem.
        destruct (PyDict.get "error" d) as [e|] eqn:He; [discriminate|].
        destruct (default (JDict []) (PyDict.get "result" d))
          as [| | | | | | result] eqn:Er; try discriminate.
        destruct (default (JList [JDict []]) (PyDict.get "content" result))
          as [| | | | | [|[| | | | | | item] rest] |]; try discriminate.
        destruct (truthy (default (JBool false)
                            (PyDict.get "isError" result))) eqn:Et;
          [discriminate|].
        intros _. exists d, result. auto.
    + intros d -> He Hr. rewrite has_error_dict, He, Hr. reflexivity.
Qed.

(** X8.  [initialize] launches a process first, and marks the client ready
    exactly when it returns [True], which takes a launched process, a
    handshake written, and a non-empty reply line that decodes to a value
    without ["error"]; on [False] the ready flag is left as it was.
    [_restart] terminates the old process if there is one, before anything
    else, and leaves the client ready only if the new handshake went
    through: the readiness of the old process is never carried over. *)
Theorem initialize_ready_only_after_handshake :
  (forall c b c',
      initialize c = Some (b, c') ->
      (exists more, actions c' = (actions c ++ Popen :: more)%list)
      /\ (b = false -> initialized c' = initialized c)
      /\ (b = true ->
          initialized c' = true /\ process c' = true
          /\ exists line resp,
               script c = Spawned :: Written :: Line line :: script c'
               /\ line <> ""
               /\ json_loads line = Some resp
               /\ has_error resp = Some false))
  /\ (forall c c',
         restart c = Some c' ->
         (process c = true ->
          exists more,
            actions c' = (actions c ++ Terminate :: Popen :: more)%list)
         /\ (initialized c' = true ->
             exists line resp,
               script c = Spawned :: Written :: Line line :: script c'
               /\ line <> ""
               /\ json_loads line = Some resp
               /\ has_error resp = Some false)).
Proof.
  assert (Hinit : forall c b c',
             initialize c = Some (b, c') ->
             (exists more, actions c' = (actions c ++ Popen :: more)%list)
             /\ (b = false -> initialized c' = initialized c)
             /\ (b = true ->
                 initialized c' = true /\ process c' = true
                 /\ exists line resp,
                      script c = Spawned :: Written :: Line line :: script c'
                      /\ line <> ""
                      /\ json_loads line = Some resp
                      /\ has_error resp = Some false)).
  { intros [p i sc acts] b c'. unfold initialize, next, did, set_process,
      set_initialized. simpl.
    destruct sc as [|[| | | | |l0] sc]; try discriminate.
    - destruct sc as [|[| | | | |l1] sc]; try discriminate; simpl.
      + destruct sc as [|[| | | | |line] sc]; try discriminate; simpl.
        destruct (String.eqb_spec line "") as [->|Hline].
        * intros [= <- <-]. simpl. split; [|split; [auto|discriminate]].
          eexists. rewrite <- !app_assoc. reflexivity.
        * destruct (json_loads line) as [resp|] eqn:Eresp.
          -- destruct (has_error resp) as [[|]|] eqn:Eerr;
               intros [= <- <-]; simpl;
               (split; [eexists; rewrite <- !app_assoc; reflexivity|]);
               (split; [auto; discriminate|]); try discriminate.
             intros _. split; [reflexivity|]. split; [reflexivity|].
             exists line, resp. auto.
          -- intros [= <- <-]. simpl. split; [|split; [auto|discriminate]].
             eexists. rewrite <- !app_assoc. reflexivity.
      + intros [= <- <-]. simpl. split; [|split; [auto|discriminate]].
        eexists. rewrite <- !app_assoc. reflexivity.
      + intros [= <- <-]. simpl. split; [|split; [auto|discriminate]].
        eexists. rewrite <- !app_assoc. reflexivity.
    - intros [= <- <-]. simpl. split; [|split; [auto|discriminate]].
      eexists. reflexivity. }
  split; [exact Hinit|].
  intros c c'. unfold restart.
  destruct (initialize (set_initialized false (close c)))
    as [[b c'']|] eqn:Einit; [|discriminate].
  intros [= <-]. destruct (Hinit _ _ _ Einit) as ([more Hacts] & Hf & Ht).
  split.
  - intros Hp. exists more. rewrite Hacts. unfold close. rewrite Hp.
    simpl. now rewrite <- app_assoc.
  - intros Hready. destruct b.
    + destruct (Ht eq_refl) as (_ & _ & line & resp & Hs & Hrest).
      exists line, resp. split; [|exact Hrest].
      rewrite <- Hs. unfold close. now destruct (process c).
    + rewrite (Hf eq_refl) in Hready. discriminate Hready.
Qed.

End Replies.

(** ** Further properties of the orchestrator *)

Section Batch.
Import Json Exn Runtime PyPath Workspace Agent AgentTerms.
Context {disk M L : Type} `{Host disk} `{Python} `{Mcp M} `{Llm L}.

Lemma tool_call_cases (tool_name : string) (arguments : PyDict.t json)
    (s : @agent disk M L) :
  tool_call tool_name arguments s
  = (fst (mcp_call_tool tool_name arguments (mcp s)),
     called (tool_name, arguments)
            (snd (mcp_call_tool tool_name arguments (mcp s))) s).
Proof.
  unfold tool_call, called.
  now destruct (mcp_call_tool tool_name arguments (mcp s)).
Qed.

Lemma batch_loop_cons (filepath name : json) (rest : list json)
    (s : @agent disk M L) :
  batch_loop filepath (name :: rest) s
  = match mcp_call_tool "create_worksheet"
                        [("filepath", filepath); ("sheet_name", name)]
                        (mcp s) with
    | (Return (true, _), m) =>
        batch_loop filepath rest (called (worksheet_call filepath name) m s)
    | (Return (false, result), m) =>
        (Return (Some (false, result)),
         called (worksheet_call filepath name) m s)
    | (Raise e, m) => (Raise e, called (worksheet_call filepath name) m s)
    end.
Proof.
  simpl. unfold bind. rewrite tool_call_cases.
  now destruct (mcp_call_tool "create_worksheet" _ (mcp s))
    as [[[[|] result]|e] m].
Qed.

Lemma batch_loop_calls (filepath : json) (names : list json) :
  forall s : @agent disk M L,
    exists n,
      n <= length names
      /\ calls (snd (batch_loop filepath names s))
         = (calls s ++ map (worksheet_call filepath) (take n names))%list
      /\ registry (snd (batch_loop filepath names s)) = registry s
      /\ held (snd (batch_loop filepath names s)) = held s
      /\ Forall succeeded (take (n - 1) (answers filepath names (mcp s)))
      /\ match fst (batch_loop filepath names s) with
         | Return None =>
             n = length names
             /\ Forall succeeded (answers filepath names (mcp s))
         | Return (Some r) =>
             1 <= n
             /\ exists text,
                  r = (false, text)
                  /\ answers filepath names (mcp s) !! (n - 1)
                     = Some (Return (false, text))
         | Raise e =>
             1 <= n
             /\ answers filepath names (mcp s) !! (n - 1) = Some (Raise e)
         end.
Proof.
  induction names as [|name rest IH]; intros s.
  - exists 0. simpl. rewrite app_nil_r. split; [lia|].
    do 3 (split; [reflexivity|]). split; [constructor|].
    split; [reflexivity | constructor].
  - rewrite batch_loop_cons. cbn [answers].
    destruct (mcp_call_tool "create_worksheet" _ (mcp s))
      as [[[[|] result]|e] m] eqn:Ecall; cbn [fst snd].
    + destruct (IH (called (worksheet_call filepath name) m s))
        as (n & Hn & Hcalls & Hreg & Hheld & Hbefore & Hres).
      change (mcp (called (worksheet_call filepath name) m s)) with m
        in Hbefore, Hres.
      exists (S n). split; [simpl; lia|]. rewrite Hcalls, Hreg, Hheld.
      simpl. rewrite <- app_assoc. split; [reflexivity|].
      split; [reflexivity|]. split; [reflexivity|].
      assert (Hhead : succeeded (Return (true, result))) by now exists result.
      split.
      * rewrite Nat.sub_0_r. destruct n as [|n]; [constructor|].
        simpl in Hbefore. rewrite Nat.sub_0_r in Hbefore.
        simpl. now constructor.
      * destruct (fst (batch_loop filepath rest _)) as [[r|]|e].
        -- destruct Hres as (Hpos & text & -> & Hat). split; [lia|].
           exists text. split; [reflexivity|].
           rewrite Nat.sub_0_r. destruct n as [|n]; [lia|].
           simpl in Hat. rewrite Nat.sub_0_r in Hat. exact Hat.
        -- destruct Hres as [-> Hall]. split; [reflexivity|].
           now constructor.
        -- destruct Hres as [Hpos Hat]. split; [lia|].
           rewrite Nat.sub_0_r. destruct n as [|n]; [lia|].
           simpl in Hat. rewrite Nat.sub_0_r in Hat. exact Hat.
    + exists 1. simpl. split; [lia|]. do 3 (split; [reflexivity|]).
      split; [constructor|]. split; [lia|]. now exists result.
    + exists 1. simpl. split; [lia|]. do 3 (split; [reflexivity|]).
      split; [constructor|]. split; [lia | reflexivity].
Qed.

(** X9.  [execute_batch_worksheets] on a list of sheet names: the tool
    process is asked to create the sheets one by one, in the order given,
    each call holding the file path and one sheet name, and nothing else is
    called.  Every call before the last one made was answered with success;
    the loop stops with the first answer that is a failure or an exception:
    that failure's message is returned, or that exception propagates, and
    the sheets after it are not asked for.  The success
    ["Created worksheets: ..."] listing all names is returned only after one
    call per name, every one of them answered with success.  The registry,
    the lock and the model client are not touched. *)
Theorem execute_batch_worksheets_stops_at_first_failure
    (arguments : PyDict.t json) (filepath : json) (names : list string)
    (s : @agent disk M L) :
  PyDict.get "filepath" arguments = Some filepath ->
  PyDict.get "sheet_names" arguments = Some (JList (map JStr names)) ->
  let out := execute_batch_worksheets arguments s in
  let replies := answers filepath (map JStr names) (mcp s) in
  exists n,
    n <= length names
    /\ calls (snd out)
       = (calls s
          ++ map (worksheet_call filepath) (take n (map JStr names)))%list
    /\ registry (snd out) = registry s
    /\ held (snd out) = held s
    /\ Forall succeeded (take (n - 1) replies)
    /\ match fst out with
       | Return (true, result) =>
           n = length names
           /\ Forall succeeded replies
           /\ result
              = JStr ("Created worksheets: " +:+ ToolRegistry.join ", " names)
       | Return (false, text) =>
           1 <= n /\ replies !! (n - 1) = Some (Return (false, text))
       | Raise e =>
           1 <= n /\ replies !! (n - 1) = Some (Raise e)
       end.
Proof.
  intros Hfp Hnames out replies.
  assert (Hall : all_str (map JStr names) = Some names).
  { clear. induction names as [|x l IH]; [reflexivity|].
    simpl. now rewrite IH. }
  assert (Hout :
    out = match batch_loop filepath (map JStr names) s with
          | (Return (Some r), s1) => (Return r, s1)
          | (Return None, s1) =>
              (Return (true,
                       JStr ("Created worksheets: "
                             +:+ ToolRegistry.join ", " names)), s1)
          | (Raise e, s1) => (Raise e, s1)
          end).
  { subst out. unfold execute_batch_worksheets, bind, item.
    rewrite Hfp, Hnames. unfold ret. cbv beta iota.
    change (py_iter (JList (map JStr names))) with (Some (map JStr names)).
    cbv beta iota. rewrite Hall.
    now destruct (batch_loop filepath (map JStr names) s) as [[[r|]|e] s1]. }
  rewrite Hout. clear Hout out.
  destruct (batch_loop_calls filepath (map JStr names) s)
    as (n & Hn & Hcalls & Hreg & Hheld & Hbefore & Hres).
  fold replies in Hbefore, Hres.
  rewrite length_map in Hn, Hres.
  exists n. split; [exact Hn|].
  destruct (batch_loop filepath (map JStr names) s) as [[[r|]|e] s1];
    cbn [fst snd] in *.
  - destruct Hres as (Hpos & text & -> & Hat). auto 10.
  - destruct Hres as [-> Hall']. auto 10.
  - auto 10.
Qed.

End Batch.

Section BatchExamples.
Import Json Exn Runtime PyPath Workspace Agent AgentTerms Sim Runs.

(** Three sheets asked for, the second refused: the third is not asked
    for. *)
Lemma execute_batch_worksheets_witness :
  let s := idle (fresh_world [])
                [Return (true, JStr "ok"); Return (false, JStr "exists");
                 Return (true, JStr "ok")] [] in
  let out :=
    execute_batch_worksheets
      [("filepath", JStr "/excel_files/a.xlsx");
       ("sheet_names", JList [JStr "A"; JStr "B"; JStr "C"])] s in
  fst out = Return (false, JStr "exists")
  /\ calls (snd out)
     = [worksheet_call (JStr "/excel_files/a.xlsx") (JStr "A");
        worksheet_call (JStr "/excel_files/a.xlsx") (JStr "B")]
  /\ exists n,
       n <= 3
       /\ calls (snd out)
          = map (worksheet_call (JStr "/excel_files/a.xlsx"))
                (take n [JStr "A"; JStr "B"; JStr "C"])
       /\ answers (JStr "/excel_files/a.xlsx")
                  [JStr "A"; JStr "B"; JStr "C"] (mcp s) !! (n - 1)
          = Some (Return (false, JStr "exists")).
Proof.
  intros s out. split; [reflexivity|]. split; [reflexivity|].
  destruct (execute_batch_worksheets_stops_at_first_failure
              [("filepath", JStr "/excel_files/a.xlsx");
               ("sheet_names", JList [JStr "A"; JStr "B"; JStr "C"])]
              (JStr "/excel_files/a.xlsx") ["A"; "B"; "C"] s eq_refl eq_refl)
    as (n & Hn & Hcalls & _ & _ & _ & Hres).
  exists n. split; [exact Hn|]. split; [exact Hcalls|].
  change (fst (execute_batch_worksheets
                 [("filepath", JStr "/excel_files/a.xlsx");
                  ("sheet_names", JList [JStr "A"; JStr "B"; JStr "C"])] s))
    with (@Return (bool * json) (false, JStr "exists")) in Hres.
  exact (proj2 Hres).
Defined.

End BatchExamples.

Section GivingUp.
Import Json Exn Runtime PyPath Workspace Agent AgentTerms.
Context {disk M L : Type} `{Host disk} `{Python} `{Mcp M} `{Llm L}.

Lemma get_llm_decision_fails (p : prompt) (s : @agent disk M L) :
  fst (fst (call_llm p (llm s))) = false
  \/ Utils.extract_json_from_text json_loads (snd (fst (call_llm p (llm s))))
     = None ->
  get_llm_decision p s = (Return (false, JNull, JNull), asked p s).
Proof.
  unfold get_llm_decision, asked.
  destruct (call_llm p (llm s)) as [[success response] l]. simpl.
  intros [-> | Hnone]; [reflexivity|].
  rewrite Hnone. now destruct success.
Qed.

Lemma body_without_json (user_input : string) (error : json)
    (s : @agent disk M L) :
  fst (fst (call_llm (Prompt user_input error) (llm s))) = false
  \/ Utils.extract_json_from_text json_loads
       (snd (fst (call_llm (Prompt user_input error) (llm s)))) = None ->
  body user_input error s
  = (Return (Continue (JStr NO_JSON)), asked (Prompt user_input error) s).
Proof.
  intros Hp. unfold body, bind.
  now rewrite (get_llm_decision_fails _ _ Hp).
Qed.

(** X11.  When every answer of the model is a failure or a text in which no
    JSON object is found, [execute_with_retry], called with the lock free,
    consults the model [MAX_RETRIES] = 3 times, first without and then twice
    with the error ["LLM failed to produce valid JSON"], and returns the
    failure ["Max retries exceeded. Last error: LLM failed to produce valid
    JSON"]; the registry, the disk, the tool process, the active workbook and
    the lock are as before: no tool is called. *)
Theorem execute_with_retry_gives_up_without_json
    (user_input : string) (s : @agent disk M L) :
  lock s = false ->
  (forall p l,
      fst (fst (call_llm p l)) = false
      \/ Utils.extract_json_from_text json_loads (snd (fst (call_llm p l)))
         = None) ->
  let again := Prompt user_input (JStr NO_JSON) in
  execute_with_retry user_input s
  = Some (Return (false, JStr ("Max retries exceeded. Last error: "
                               +:+ NO_JSON)),
          asked again (asked again (asked (Prompt user_input JNull) s))).
Proof.
  intros Hlock Hllm again. unfold execute_with_retry. rewrite Hlock.
  unfold MAX_RETRIES. simpl retry_loop.
  rewrite (body_without_json _ _ _ (Hllm _ _)).
  rewrite (body_without_json _ _ _ (Hllm _ _)).
  rewrite (body_without_json _ _ _ (Hllm _ _)).
  unfold ret. cbv beta iota. f_equal. f_equal.
  destruct s as [reg lk m l aw cs]. simpl in Hlock. subst lk.
  reflexivity.
Qed.

End GivingUp.

Section GivingUpExamples.
Import Json Exn Runtime PyPath Workspace Agent AgentTerms Sim Runs.

(** A model that answers in prose only. *)
Lemma execute_with_retry_gives_up_witness :
  let s := AgentOf (fresh_world ["Budget.xlsx"]) false
                   ([] : list (result (bool * json))) tt JNull [] in
  @execute_with_retry _ _ _ sim_host sim_python sim_mcp mute_llm
    "add a sheet" s
  = Some (Return (false, JStr ("Max retries exceeded. Last error: "
                               +:+ NO_JSON)), s).
Proof.
  intros s.
  exact (@execute_with_retry_gives_up_without_json
           _ _ _ sim_host sim_python sim_mcp mute_llm "add a sheet" s
           eq_refl (fun _ _ => or_intror eq_refl)).
Defined.

End GivingUpExamples.

Section DefaultSheet.
Import Json Exn Runtime PyPath Workspace Agent AgentTerms Terms.
Context {disk M L : Type} `{Host disk} `{Python} `{Mcp M} `{Llm L}.

Lemma resolve_default_sheet_cases (arguments : PyDict.t json)
    (s : @agent disk M L) :
  let filepath := default JNull (PyDict.get "filepath" arguments) in
  resolve_default_sheet arguments s = (Return arguments, s)
  \/ PyDict.mem "sheet_name" arguments = false
     /\ truthy filepath = true
     /\ exists r m,
          resolve_default_sheet arguments s
          = (r, called (metadata_call filepath) m s)
          /\ (r = Return arguments
              \/ (exists x, r = Return (PyDict.set "sheet_name" x arguments))
              \/ exists e, r = Raise e).
Proof.
  intros filepath. unfold resolve_default_sheet.
  destruct (PyDict.mem "sheet_name" arguments); [now left|].
  fold filepath. destruct (truthy filepath); [|now left].
  right. split; [reflexivity|]. split; [reflexivity|].
  cbv beta iota zeta. unfold negb at 1. cbv iota.
  unfold bind. rewrite tool_call_cases.
  destruct (mcp_call_tool "get_workbook_metadata" _ (mcp s))
    as [[[[|] metadata]|e] m]; cbn [fst snd negb].
  - destruct (truthy (default (JList [])
                        (PyDict.get "sheets" (safe_parse_metadata metadata)))).
    + destruct (first_of _) as [x|e].
      * exists (Return (PyDict.set "sheet_name" x arguments)), m.
        split; [reflexivity|]. right. left. now exists x.
      * exists (Raise e), m. split; [reflexivity|]. right. right.
        now exists e.
    + exists (Return arguments), m. split; [reflexivity|]. now left.
  - exists (Return arguments), m. split; [reflexivity|]. now left.
  - exists (Raise e), m. split; [reflexivity|]. right. right. now exists e.
Qed.



End DefaultSheet.

Section Guard.
Import Json Exn Runtime PyPath Workspace Agent AgentTerms Terms.
Import ToolRegistry SheetGuard.

Lemma requires_sheet_known (t : string) :
  tool_requires_sheet t = true ->
  exists required,
    PyDict.get t TOOL_SCHEMAS = Some required /\ In "sheet_name" required.
Proof.
  unfold tool_requires_sheet. intros Hex.
  apply existsb_exists in Hex. destruct Hex as (x & Hin & Heq).
  apply String.eqb_eq in Heq. subst x.
  unfold REQUIRES_SHEET in Hin. simpl in Hin.
  repeat (destruct Hin as [<- | Hin];
          [eexists; split; [reflexivity | simpl; auto]|]).
  contradiction.
Qed.

Lemma filter_missing_In (arguments : PyDict.t json) (field : string)
    (required : list string) :
  In field required ->
  is_missing arguments field = true ->
  In field (List.filter (is_missing arguments) required).
Proof. intros Hin Hm. apply filter_In. auto. Qed.

(** X13.  The sheet guard and the schemas agree: every tool for which
    [tool_requires_sheet] holds is a tool of [TOOL_SCHEMAS] whose required
    fields include ["sheet_name"].  So whenever the guard of the retry loop
    fires (such a tool, no ["sheet_name"] key), [validate_tool_call] has
    rejected the same call as well, with a message that names
    ['sheet_name']: the guard only replaces the error text, it never stops
    a call that validation accepts. *)
Theorem sheet_guard_implies_validation_failure
    (tool_name : string) (arguments : PyDict.t json) :
  tool_requires_sheet tool_name = true ->
  PyDict.mem "sheet_name" arguments = false ->
  exists missing,
    In "sheet_name" missing
    /\ validate_tool_call tool_name arguments
       = (false, "Missing required fields: " +:+ repr_ident_list missing).
Proof.
  intros Hreq Hmem.
  destruct (requires_sheet_known _ Hreq) as (required & Hget & Hin).
  unfold validate_tool_call. rewrite Hget.
  assert (Hmiss : is_missing arguments "sheet_name" = true).
  { unfold is_missing. unfold PyDict.mem in Hmem.
    now destruct (PyDict.get "sheet_name" arguments). }
  pose proof (filter_missing_In _ _ _ Hin Hmiss) as Hf.
  destruct (List.filter (is_missing arguments) required) as [|x l] eqn:E;
    [contradiction|].
  exists (x :: l). split; [exact Hf | reflexivity].
Qed.

End Guard.

Section GuardExamples.
Import Json Exn Runtime PyPath Workspace Agent AgentTerms Terms.
Import ToolRegistry SheetGuard.

(** A chart asked for without a sheet. *)
Lemma sheet_guard_witness :
  exists missing,
    In "sheet_name" missing
    /\ validate_tool_call "create_chart"
         [("filepath", JStr "/excel_files/a.xlsx");
          ("data_range", JStr "A1:B2");
          ("chart_type", JStr "bar"); ("target_cell", JStr "D1")]
       = (false, "Missing required fields: " +:+ repr_ident_list missing).
Proof.
  exact (sheet_guard_implies_validation_failure "create_chart"
           [("filepath", JStr "/excel_files/a.xlsx");
            ("data_range", JStr "A1:B2");
            ("chart_type", JStr "bar"); ("target_cell", JStr "D1")]
           eq_refl eq_refl).
Defined.

End GuardExamples.

Section UnknownTool.
Import Json Exn Runtime PyPath Workspace Agent AgentTerms Terms.
Import ToolRegistry SheetGuard.
Context {disk M L : Type} `{Host disk} `{Python} `{Mcp M} `{Llm L}.

Lemma on_registry_frame {A}
    (f : world disk -> result A * world disk) (s : @agent disk M L) :
  calls (snd (on_registry f s)) = calls s
  /\ held (snd (on_registry f s)) = held s.
Proof. unfold on_registry. now destruct (f (registry s)). Qed.

(** X14.  A tool name that [TOOL_SCHEMAS] does not have never reaches the
    tool process: one pass of the retry loop on such a name calls nothing,
    or only [get_workbook_metadata] (the default-sheet look-up, which comes
    before validation), and ends with the error ["Unknown tool: <name>"] for
    the next prompt, unless normalizing the arguments or that look-up raised
    first; it never ends the loop with a result. *)
Theorem attempt_unknown_tool_not_dispatched
    (user_input tool_name : string) (arguments : json)
    (s : @agent disk M L) :
  PyDict.get tool_name TOOL_SCHEMAS = None ->
  let out := attempt user_input (JStr tool_name) arguments s in
  (calls (snd out) = calls s
   \/ exists filepath,
        calls (snd out) = (calls s ++ [metadata_call filepath])%list)
  /\ held (snd out) = held s
  /\ match fst out with
     | Return (Continue error) =>
         error = JStr ("Unknown tool: " +:+ tool_name)
     | Return (Finish _) => False
     | Raise _ => True
     end.
Proof.
  intros Hunknown out. subst out. unfold attempt, bind.
  pose proof (on_registry_frame
                (Normalizer.normalize_arguments arguments (JStr tool_name)) s)
    as [Hc0 Hh0].
  destruct (on_registry _ s) as [[a1|e] s1]; simpl in Hc0, Hh0;
    [|simpl; auto].
  destruct (resolve_default_sheet_cases a1 s1)
    as [Hsame | (_ & _ & r & m & Hout & Hr)].
  - rewrite Hsame. unfold validate, ret. cbv beta iota.
    unfold validate_tool_call. rewrite Hunknown. cbv beta iota.
    unfold requires_sheet.
    destruct (tool_requires_sheet tool_name) eqn:Ereq.
    { destruct (requires_sheet_known _ Ereq) as (? & Hget & _). congruence. }
    simpl. auto.
  - rewrite Hout.
    assert (Hcalls : calls (called (metadata_call
                               (default JNull (PyDict.get "filepath" a1))) m s1)
                     = (calls s ++ [metadata_call
                          (default JNull (PyDict.get "filepath" a1))])%list)
      by (simpl; now rewrite Hc0).
    assert (Hheld : held (called (metadata_call
                             (default JNull (PyDict.get "filepath" a1))) m s1)
                    = held s) by (rewrite <- Hh0; reflexivity).
    destruct r as [a2|e]; [|simpl; eauto].
    unfold validate, ret. cbv beta iota.
    unfold validate_tool_call. rewrite Hunknown. cbv beta iota.
    unfold requires_sheet.
    destruct (tool_requires_sheet tool_name) eqn:Ereq.
    { destruct (requires_sheet_known _ Ereq) as (? & Hget & _). congruence. }
    cbn [andb negb fst snd]. eauto.
Qed.

End UnknownTool.

Section UnknownToolExamples.
Import Json Exn Runtime PyPath Workspace Agent AgentTerms Terms Sim Runs.
Import ToolRegistry SheetGuard.

(** The model invents the tool [delete_workbook]. *)
Lemma attempt_unknown_tool_witness :
  let s := idle (fresh_world ["Budget.xlsx"])
                [Return (true, JStr "{}")] [] in
  let out :=
    attempt "delete Budget" (JStr "delete_workbook")
            (JDict [("file", JStr "Budget")]) s in
  fst out = Return (Continue (JStr "Unknown tool: delete_workbook"))
  /\ calls (snd out)
     = [metadata_call (JStr "/excel_files/Budget.xlsx")]
  /\ lock (snd out) = false.
Proof.
  intros s out.
  destruct (attempt_unknown_tool_not_dispatched
              "delete Budget" "delete_workbook"
              (JDict [("file", JStr "Budget")]) s eq_refl)
    as (_ & Hheld & _).
  split; [vm_compute; reflexivity|]. split; [vm_compute; reflexivity|].
  exact (f_equal fst Hheld).
Defined.

End UnknownToolExamples.

(** ** Further properties of the JSON extraction *)

Section ExtractionMore.
Import Json Utils Terms.

Lemma depth_positive_nonempty (b : string) (stack : Z) :
  (0 < stack)%Z -> (stack + depth b = 0)%Z -> b <> "".
Proof. intros Hs Hd ->. simpl in Hd. lia. Qed.

Lemma scan_balanced (b post : string) :
  forall (stack : Z) (i : nat),
    (0 < stack)%Z ->
    (stack + depth b = 0)%Z ->
    (forall n, 1 <= n < String.length b ->
               (stack + depth (take_str n b))%Z <> 0%Z) ->
    scan stack i (b +:+ post) = Some (i + String.length b - 1).
Proof.
  induction b as [|a r IH]; intros stack i Hs Hd Hpre.
  - simpl in Hd. lia.
  - change (String a r +:+ post) with (String a (r +:+ post)).
    simpl scan. simpl in Hd.
    destruct (Ascii.eqb a "{") eqn:Eo.
    + rewrite IH; [f_equal; simpl; lia | lia | lia |].
      intros n Hn. specialize (Hpre (S n) ltac:(simpl; lia)).
      simpl in Hpre. rewrite Eo in Hpre. lia.
    + destruct (Ascii.eqb a "}") eqn:Ec.
      * destruct (Z.eqb_spec (stack - 1) 0) as [E0|E0].
        -- destruct r as [|a' r'].
           ++ f_equal. simpl. lia.
           ++ exfalso. apply (Hpre 1); [simpl; lia|].
              simpl. rewrite Eo, Ec. lia.
        -- rewrite IH; [f_equal; simpl; lia | lia | lia |].
           intros n Hn. specialize (Hpre (S n) ltac:(simpl; lia)).
           simpl in Hpre. rewrite Eo, Ec in Hpre. lia.
      * rewrite IH; [f_equal; simpl; lia | lia | lia |].
        intros n Hn. specialize (Hpre (S n) ltac:(simpl; lia)).
        simpl in Hpre. rewrite Eo, Ec in Hpre. lia.
Qed.

Lemma substring_prefix (b post : string) :
  String.substring 0 (String.length b) (b +:+ post) = b.
Proof.
  induction b as [|a r IH]; [now destruct post|].
  change (String a r +:+ post) with (String a (r +:+ post)).
  simpl. now rewrite IH.
Qed.

Lemma substring_middle (pre b post : string) :
  String.substring (String.length pre) (String.length b) (pre +:+ b +:+ post)
  = b.
Proof.
  induction pre as [|a p IH]; [exact (substring_prefix b post)|].
  change (String a p +:+ b +:+ post) with (String a (p +:+ b +:+ post)).
  simpl. exact IH.
Qed.

(** X10.  For every decoder [json_loads]: when the text holds, after a part
    without opening brace, a span that starts with an opening brace and
    whose braces first balance at its end, [extract_json_from_text] gives
    exactly what the decoder makes of that span, whatever follows it (more
    braces included) and whatever the span holds: braces are counted inside
    string literals too. *)
Theorem extract_json_from_text_decodes_first_balanced_span
    (json_loads : string -> option json) (pre r post : string) :
  lacks "{" pre ->
  depth (String "{" r) = 0%Z ->
  (forall n, 1 <= n < String.length (String "{" r) ->
             depth (take_str n (String "{" r)) <> 0%Z) ->
  extract_json_from_text json_loads (pre +:+ String "{" r +:+ post)
  = json_loads (String "{" r).
Proof.
  intros Hpre Hd Hn. unfold extract_json_from_text.
  change (String "{" r +:+ post) with (String "{" (r +:+ post)).
  rewrite app_not_empty, (find_char_app _ _ _ Hpre), drop_str_app.
  change (scan 0 (String.length pre) (String "{" (r +:+ post)))
    with (scan 1 (S (String.length pre)) (r +:+ post)).
  assert (Hr : (1 + depth r = 0)%Z) by (simpl in Hd; lia).
  rewrite (scan_balanced r post 1 (S (String.length pre)));
    [| lia | exact Hr |].
  - assert (Hne : r <> "") by (apply (depth_positive_nonempty r 1); lia).
    assert (Hlen : S (String.length pre) + String.length r - 1 + 1
                   - String.length pre = String.length (String "{" r)).
    { destruct r; [contradiction|]. simpl. lia. }
    rewrite Hlen.
    change (String "{" (r +:+ post)) with (String "{" r +:+ post).
    now rewrite substring_middle.
  - intros n Hlt. specialize (Hn (S n) ltac:(simpl; lia)).
    simpl in Hn. lia.
Qed.

End ExtractionMore.

Section ExtractionMoreExamples.
Import Json Utils Terms.

(** The sample object between a stray closing brace and further braces. *)
Lemma extract_json_from_text_span_witness :
  extract_json_from_text MiniJson.loads
    ("} first " +:+ sample_object +:+ "} and {more}")
  = Some (JDict [("a", JDict [("b", JInt 1)])]).
Proof.
  set (r := PyStr.quoted "a" +:+ ": {" +:+ PyStr.quoted "b" +:+ ": 1}}").
  assert (Hpre : lacks "{" "} first ")
    by (simpl; repeat split; discriminate).
  assert (Hd : depth (String "{" r) = 0%Z) by reflexivity.
  assert (Hn : forall n, 1 <= n < String.length (String "{" r) ->
                         depth (take_str n (String "{" r)) <> 0%Z).
  { intros n Hn.
    change (String.length (String "{" r)) with 15 in Hn.
    destruct n as [|n]; [lia|].
    do 14 (destruct n as [|n]; [vm_compute; discriminate|]). lia. }
  exact (eq_trans
           (extract_json_from_text_decodes_first_balanced_span
              MiniJson.loads "} first " r "} and {more}" Hpre Hd Hn)
           eq_refl).
Defined.

End ExtractionMoreExamples.

(** ** The model client *)

Section ModelClient.
Import LlmClient.

(** the trace, the two bounds and the disconnected case, for a connected
    client; what is left is the success and the failure case *)
Local Ltac counted :=
  simpl; rewrite <- ?app_assoc; simpl;
  split; [reflexivity|]; split; [unfold requests; simpl; lia|];
  split; [unfold slept; simpl; lia|]; split; [discriminate|]; split.

(** X15.  [call_llm] on a client that is not connected answers
    ["LLM not initialized"] without a request.  Otherwise it makes at most
    three requests with the same prompt, sleeping one second after the first
    failure and two after the second (never longer than three seconds in
    all), returns the first completion it gets, and fails only after three
    failures in a row, with the text of the third: the earlier two errors
    are dropped, and the final ["Max retries exceeded"] is never returned.
    Three outcomes are always enough for it to return. *)
Theorem call_llm_tries_three_times (prompt : string) (c : client) :
  (3 <= length (script c) -> call_llm prompt c <> None)
  /\ forall r c',
       call_llm prompt c = Some (r, c') ->
       connected c' = connected c
       /\ exists new,
            trace c' = (trace c ++ new)%list
            /\ requests new <= 3
            /\ slept new <= 3
            /\ (connected c = false ->
                r = (false, "LLM not initialized") /\ new = [])
            /\ (fst r = true ->
                exists failed,
                  S (length failed) = requests new
                  /\ script c
                     = (map Failure failed
                        ++ Completion (snd r) :: script c')%list)
            /\ (connected c = true -> fst r = false ->
                exists e1 e2,
                  script c
                  = Failure e1 :: Failure e2 :: Failure (snd r) :: script c'
                  /\ new = [Request prompt; Sleep 1; Request prompt; Sleep 2;
                            Request prompt]).
Proof.
  destruct c as [[|] sc tr]; unfold call_llm; simpl.
  - split.
    + intros Hlen.
      destruct sc as [|[r1|e1] [|[r2|e2] [|[r3|e3] sc]]];
        simpl in Hlen; try lia; discriminate.
    + intros r c'.
      destruct sc as [|[r1|e1] sc]; simpl; [discriminate | |].
      { intros [= <- <-]. simpl. split; [reflexivity|].
        exists [Request prompt]. counted.
        - intros _. now exists [].
        - discriminate. }
      destruct sc as [|[r2|e2] sc]; simpl; [discriminate | |].
      { intros [= <- <-]. simpl. split; [reflexivity|].
        exists [Request prompt; Sleep 1; Request prompt]. counted.
        - intros _. now exists [e1].
        - discriminate. }
      destruct sc as [|[r3|e3] sc]; simpl; [discriminate | |].
      { intros [= <- <-]. simpl. split; [reflexivity|].
        exists [Request prompt; Sleep 1; Request prompt; Sleep 2;
                Request prompt]. counted.
        - intros _. now exists [e1; e2].
        - discriminate. }
      intros [= <- <-]. simpl. split; [reflexivity|].
      exists [Request prompt; Sleep 1; Request prompt; Sleep 2;
              Request prompt]. counted.
      * discriminate.
      * intros _ _. now exists e1, e2.
  - split; [discriminate|]. intros r c' [= <- <-]. simpl.
    split; [reflexivity|]. exists []. rewrite app_nil_r.
    split; [reflexivity|]. split; [unfold requests; simpl; lia|].
    split; [unfold slept; simpl; lia|].
    split; [auto|]. split; discriminate.
Qed.

End ModelClient.

(** ** The tool listing *)

Section ToolListing.
Import Json Exn Runtime McpClient McpTools.
Context `{Python}.

Lemma listing_cases (line : string) :
  let out := listing line in
  (fst out = false -> snd out = JList [])
  /\ (fst out = true ->
      exists d result,
        json_loads line = Some (JDict d)
        /\ PyDict.get "error" d = None
        /\ default (JDict []) (PyDict.get "result" d) = JDict result
        /\ snd out = default (JList []) (PyDict.get "tools" result)).
Proof.
  unfold listing, decode_tools.
  destruct (json_loads line) as [resp|]; [|split; [auto|discriminate]].
  destruct resp as [| b | z | f | s | l | d]; simpl;
    try (split; [auto|discriminate]).
  - destruct (String.index 0 "error" s); split; auto; discriminate.
  - destruct (existsb _ l); split; auto; discriminate.
  - unfold PyDict.mem.
    destruct (PyDict.get "error" d) as [e|] eqn:He;
      [split; [auto|discriminate]|].
    destruct (default (JDict []) (PyDict.get "result" d))
      as [| | | | | | result] eqn:Er; simpl;
      try (split; [auto|discriminate]).
    split; [discriminate|]. intros _. exists d, result. auto.
Qed.

(** X16.  [list_tools] sends nothing when the client is not initialized.
    Whenever it returns a pair, a failure comes with the empty list, and a
    success comes from a reply line that decodes to an object without
    ["error"] whose ["result"] (an empty object when absent) is an object:
    the tools are its ["tools"] member, the empty list when absent.  A
    reply that is no object, or whose error test or look-ups raise, is a
    failure, not an exception. *)
Theorem list_tools_failure_has_no_tools (fuel : nat) :
  forall (c c' : client) (b : bool) (tools : json),
    list_tools fuel c = Some (Return (b, tools), c') ->
    (initialized c = false -> b = false /\ c' = c)
    /\ (b = false -> tools = JList [])
    /\ (b = true ->
        exists line d result,
          json_loads line = Some (JDict d)
          /\ PyDict.get "error" d = None
          /\ default (JDict []) (PyDict.get "result" d) = JDict result
          /\ tools = default (JList []) (PyDict.get "tools" result)).
Proof.
  induction fuel as [|fuel IH]; intros c c' b tools; simpl;
    destruct (initialized c) eqn:Einit; simpl;
    try (intros [= <- <- <-];
         split; [auto|]; split; [auto | discriminate]).
  - destruct (next _) as [[[| | | | |l0] c1]|]; try discriminate.
    destruct (next _) as [[[| | | | |line] c2]|]; try discriminate.
    intros [= Hl <-]. split; [discriminate|].
    pose proof (listing_cases line) as Hc. cbv zeta in Hc.
    rewrite Hl in Hc. simpl in Hc. destruct Hc as [Hf Ht].
    split; [exact Hf|]. intros Hb. destruct (Ht Hb) as (d & result & Hrest).
    exists line, d, result. exact Hrest.
  - destruct (next _) as [[[| | | | |l0] c1]|]; try discriminate.
    + destruct (next _) as [[[| | | | |line] c2]|]; try discriminate.
      intros [= Hl <-]. split; [discriminate|].
      pose proof (listing_cases line) as Hc. cbv zeta in Hc.
      rewrite Hl in Hc. simpl in Hc. destruct Hc as [Hf Ht].
      split; [exact Hf|]. intros Hb. destruct (Ht Hb) as (d & result & Hrest).
      exists line, d, result. exact Hrest.
    + destruct (restart c1) as [c2|]; [|discriminate].
      intros Hrec. split; [discriminate|].
      destruct (IH _ _ _ _ Hrec) as (_ & Hf & Ht). auto.
Qed.

End ToolListing.

Section ToolListingExamples.
Import Json Exn Runtime McpClient McpTools Sim Scripts.

(** A listing cut short by a broken pipe, then answered without tools. *)
Lemma list_tools_witness :
  exists c',
    list_tools 1 (ready (broken_pipes 1 handshake_ok
                           [Written; Line handshake_ok]) [])
    = Some (Return (true, JList []), c')
    /\ exists line d result,
         json_loads line = Some (JDict d)
         /\ PyDict.get "error" d = None
         /\ default (JDict []) (PyDict.get "result" d) = JDict result
         /\ JList [] = default (JList []) (PyDict.get "tools" result).
Proof.
  eexists. split; [vm_compute; reflexivity|].
  refine (proj2 (proj2 (list_tools_failure_has_no_tools
                          1 (ready (broken_pipes 1 handshake_ok
                                      [Written; Line handshake_ok]) [])
                          _ true (JList []) _)) eq_refl).
  vm_compute. reflexivity.
Defined.

End ToolListingExamples.

(** ** Registration and the local rename *)

Section Registration.
Import PyStr PyPath Exn Workspace Terms RegistryTerms.
Context {disk : Type} `{Host disk}.

(** X17.  [register_file] on a name without directory part: the canonical
    name is bound to the path directly under the workspace root and made
    the active file, every other entry is kept, and [get_active_file] then
    gives that path.  This holds in memory even when the state file cannot
    be written and the call raises; and the directory is not looked at or
    changed: whether the file exists plays no role. *)
Theorem register_file_makes_active (filename : string) (w : world disk) :
  lacks "/" filename ->
  let c := canonical_name filename in
  let out := register_file filename w in
  files (fst (snd out)) !! c = Some (entry_path c)
  /\ active_file (fst (snd out)) = Some c
  /\ (forall k, k <> c -> files (fst (snd out)) !! k = files (fst w) !! k)
  /\ glob_xlsx (snd (snd out)) = glob_xlsx (snd w)
  /\ get_active_file (fst (snd out)) = Return (Some (entry_path c))
  /\ (fst out = Return (entry_path c) \/ fst out = Raise OSError).
Proof.
  intros Hl c out.
  assert (Hc : lacks "/" c).
  { apply lacks_canonical_name; [exact Hl|]. simpl. repeat split; discriminate. }
  destruct (canonical_name_component filename) as [H0 H1]. fold c in H0, H1.
  assert (Hroot : under_root c = entry_path c) by now apply under_root_entry.
  subst out. unfold register_file. fold c. rewrite Hroot.
  set (st := State (<[c := entry_path c]> (files (fst w))) (Some c)).
  destruct (save_state_cases st (snd w)) as (Hst & Hglob & Hres).
  destruct (save_state (st, snd w)) as [[u|e] w'] eqn:Esave;
    simpl in Hst, Hglob, Hres |- *; subst st.
  - rewrite Hst. simpl. rewrite lookup_insert_eq.
    split; [reflexivity|]. split; [reflexivity|].
    split; [intros k Hk; now rewrite lookup_insert_ne|].
    split; [exact Hglob|]. split; [|now left].
    unfold get_active_file. simpl.
    destruct (String.eqb_spec c ""); [contradiction|].
    rewrite lookup_insert_eq. now rewrite norm_entry_path.
  - rewrite Hst. simpl. rewrite lookup_insert_eq.
    split; [reflexivity|]. split; [reflexivity|].
    split; [intros k Hk; now rewrite lookup_insert_ne|].
    split; [exact Hglob|]. split.
    + unfold get_active_file. simpl.
      destruct (String.eqb_spec c ""); [contradiction|].
      rewrite lookup_insert_eq. now rewrite norm_entry_path.
    + right. destruct Hres as [Hr | Hr]; [discriminate Hr|].
      now injection Hr as ->.
Qed.

Lemma name_entry_path c :
  lacks "/" c -> c <> "" -> c <> "." -> name (entry_path c) = c.
Proof.
  intros Hl H0 H1. unfold name, parts.
  change (entry_path c) with ("" +:+ String "/" ("excel_files" +:+ String "/" c)).
  rewrite (split_on_app_sep "/" "" _ I).
  rewrite (split_on_app_sep "/" "excel_files" c)
    by (simpl; repeat split; discriminate).
  rewrite (split_on_whole _ _ Hl). simpl List.filter.
  unfold is_component at 1.
  destruct (String.eqb_spec c ""); [contradiction|].
  destruct (String.eqb_spec c "."); [contradiction|]. reflexivity.
Qed.

Lemma rename_file_returns (old_name new_name : string) (w w' : world disk)
    (p : string) :
  rename_file old_name new_name w = (Return p, w') ->
  p = entry_path (canonical_name (name new_name)).
Proof.
  intros Hrun.
  destruct (rename_file_cases old_name new_name w) as [Hnone Hsome].
  destruct (files (fst w) !! canonical_name (name old_name))
    as [registered|] eqn:Ereg;
    [|rewrite (Hnone eq_refl) in Hrun; discriminate].
  destruct (Hsome registered eq_refl) as (Hfatal & Hos & Hok).
  destruct (path_exists (snd w) (norm registered)) eqn:Eex;
    [|rewrite (Hfatal eq_refl) in Hrun; discriminate].
  destruct (os_rename (snd w) (norm registered)
              (entry_path (canonical_name (name new_name))))
    as [d'|] eqn:Eren;
    [|rewrite (Hos eq_refl eq_refl) in Hrun; discriminate].
  specialize (Hok d' eq_refl eq_refl). cbv zeta in Hok.
  rewrite Hok in Hrun.
  destruct (fst (write_state d' _)); [|discriminate].
  now injection Hrun as <- <-.
Qed.

End Registration.

Section RegistrationExamples.
Import PyStr PyPath Exn Workspace Terms RegistryTerms Sim.

(** A workbook registered before it exists. *)
Lemma register_file_witness :
  let out := register_file "  Q1  Sales " (fresh_world []) in
  fst out = Return "/excel_files/Q1 Sales.xlsx"
  /\ get_active_file (fst (snd out))
     = Return (Some "/excel_files/Q1 Sales.xlsx")
  /\ glob_xlsx (snd (snd out)) = [].
Proof.
  intros out.
  destruct (register_file_makes_active "  Q1  Sales " (fresh_world []))
    as (_ & _ & _ & Hglob & Hactive & _).
  { simpl. repeat split; discriminate. }
  split; [reflexivity|]. split; [exact Hactive | exact Hglob].
Defined.

End RegistrationExamples.

Section LocalRename.
Import Json Exn Runtime PyPath Workspace Agent AgentTerms Terms.
Context {disk M L : Type} `{Host disk} `{Python} `{Mcp M} `{Llm L}.

(** X18.  The tool [rename_workbook] is served by the registry alone:
    [dispatch] makes no call on the tool process, whatever the arguments and
    the outcome.  With two names that are strings it calls [rename_file] on
    them, once, and the registry and the disk are left as that call leaves
    them: when [rename_file] raises, the exception propagates and the
    agent's active workbook is unchanged; when it returns the new path, the
    result is the success ["Renamed workbook to <path>"] and the agent's
    active workbook becomes the last component of that path.  It returns in
    no other case, and then the path is directly under the workspace root
    and the active workbook is the new canonical file name. *)
Theorem dispatch_rename_workbook_is_local
    (arguments : PyDict.t json) (s : @agent disk M L) :
  let out := dispatch "rename_workbook" arguments s in
  calls (snd out) = calls s
  /\ mcp (snd out) = mcp s
  /\ held (snd out) = held s
  /\ (forall r,
         fst out = Return r ->
         exists old_name new_name,
           PyDict.get "old_filepath" arguments = Some (JStr old_name)
           /\ PyDict.get "new_filepath" arguments = Some (JStr new_name)
           /\ rename_file old_name new_name (registry s)
              = (Return ("/excel_files/" +:+ canonical_name (name new_name)),
                 registry (snd out))
           /\ r = (true,
                   JStr ("Renamed workbook to /excel_files/"
                         +:+ canonical_name (name new_name)))
           /\ active_workbook (snd out)
              = JStr (canonical_name (name new_name)))
  /\ (forall old_name new_name,
         PyDict.get "old_filepath" arguments = Some (JStr old_name) ->
         PyDict.get "new_filepath" arguments = Some (JStr new_name) ->
         registry (snd out)
         = snd (rename_file old_name new_name (registry s))
         /\ match fst (rename_file old_name new_name (registry s)) with
            | Return p =>
                fst out = Return (true, JStr ("Renamed workbook to " +:+ p))
                /\ active_workbook (snd out) = JStr (name p)
            | Raise e =>
                fst out = Raise e
                /\ active_workbook (snd out) = active_workbook s
            end).
Proof.
  intros out. subst out.
  change (dispatch "rename_workbook" arguments s)
    with (execute_rename_workbook arguments s).
  unfold execute_rename_workbook, bind, item, ret, throw, on_registry,
    set_active_workbook.
  destruct (PyDict.get "old_filepath" arguments) as [old|];
    [|simpl; do 3 (split; [reflexivity|]); split; discriminate].
  destruct (PyDict.get "new_filepath" arguments) as [new|];
    [|simpl; do 3 (split; [reflexivity|]); split; discriminate].
  destruct old as [| | | | old_name | |], new as [| | | | new_name | |];
    try (simpl; do 3 (split; [reflexivity|]); split; discriminate).
  destruct (rename_file old_name new_name (registry s)) as [[p|e] w'] eqn:Eren.
  - pose proof (rename_file_returns _ _ _ _ _ Eren) as ->.
    simpl. do 3 (split; [reflexivity|]).
    assert (Hname : name (entry_path (canonical_name (name new_name)))
                    = canonical_name (name new_name)).
    { destruct (canonical_name_component (name new_name)) as [Hne Hnd].
      apply name_entry_path; [|exact Hne | exact Hnd].
      apply lacks_canonical_name; [apply name_lacks_slash|].
      simpl. repeat split; discriminate. }
    split.
    + intros r [= <-]. exists old_name, new_name.
      split; [reflexivity|]. split; [reflexivity|].
      split; [exact Eren|]. split; [reflexivity|]. now rewrite Hname.
    + intros o n' [= <-] [= <-]. rewrite Eren. simpl. auto.
  - simpl. do 3 (split; [reflexivity|]). split; [discriminate|].
    intros o n' [= <-] [= <-]. rewrite Eren. simpl. auto.
Qed.

End LocalRename.

(** ** Paths that reach the tools, and exceptions that leave the loop *)

Section ResolvedPaths.
Import Json Exn Runtime PyPath Workspace Normalizer.
Context {disk : Type} `{Host disk} `{Python}.

Lemma resolve_file_returns_listed (s : string) (w w' : world disk)
    (p : string) :
  name s <> "" ->
  resolve_file (JStr s) w = (Return p, w') ->
  exists real,
    real ∈ glob_xlsx (snd w)
    /\ PyStr.lower real = PyStr.lower (canonical_name (name s))
    /\ p = entry_path real.
Proof.
  intros Hname Hrun. unfold resolve_file in Hrun.
  destruct s as [|c0 s0]; [now contradict Hname|].
  change (truthy (JStr (String c0 s0))) with true in Hrun. cbv iota in Hrun.
  assert (Hglob : glob_xlsx (snd (snd (reconcile_filesystem w)))
                  = glob_xlsx (snd w)).
  { unfold reconcile_filesystem. apply save_state_cases. }
  assert (Hres : fst (reconcile_filesystem w) = Return tt
                 \/ fst (reconcile_filesystem w) = Raise OSError).
  { unfold reconcile_filesystem. apply save_state_cases. }
  destruct (reconcile_filesystem w) as [r1 w1]. simpl in Hglob, Hres.
  destruct Hres as [-> | ->]; [|discriminate Hrun].
  destruct (name (String c0 s0)) as [|c r] eqn:En; [now contradict Hname|].
  rewrite Hglob in Hrun.
  destruct (PyDict.get (PyStr.lower (canonical_name (String c r)))
              (existing_files (glob_xlsx (snd w))))
    as [real|] eqn:Eget.
  - destruct (existing_files_found _ _ _ _ Eget) as [[Hin Hlow]|Habs];
      [|discriminate Habs].
    destruct (save_state _) as [[u|e] w2]; [|discriminate Hrun].
    injection Hrun as <- <-. exists real. auto.
  - destruct (suggest_filename _ (fst w1)); discriminate Hrun.
Qed.

Lemma resolve_key_other (key : string) (normalized d : PyDict.t json)
    (w w' : world disk) :
  resolve_key key normalized w = (Return d, w') ->
  forall k, k <> key -> PyDict.get k d = PyDict.get k normalized.
Proof.
  unfold resolve_key.
  destruct (PyDict.get key normalized) as [v|]; [|now intros [= <- <-]].
  destruct (is_none v); [now intros [= <- <-]|].
  destruct (resolve_file v w) as [[p|e] w1]; [|discriminate].
  intros [= <- <-] k Hk. apply dict_get_set_ne. congruence.
Qed.

(** X19.  For every tool but [create_workbook], a ["filepath"] (under any
    of its aliases) that names something reaches the tool only as the path
    of a workbook found directly in the workspace directory: when
    [normalize_arguments] returns, the value is [/excel_files/<real>] for a
    listed name [<real>] that equals the canonical name of the last path
    component up to letter case.  Directory parts the model gave are
    dropped, and a name that matches no listed file never gets through. *)
Theorem normalize_arguments_resolves_to_listed_file
    (args : PyDict.t json) (tool_name s : string) (w : world disk) :
  tool_name <> "create_workbook" ->
  PyDict.get "filepath" (canonicalize_keys args) = Some (JStr s) ->
  name s <> "" ->
  forall d,
    fst (normalize_arguments (JDict args) (JStr tool_name) w) = Return d ->
    exists real,
      real ∈ glob_xlsx (snd w)
      /\ PyStr.lower real = PyStr.lower (canonical_name (name s))
      /\ PyDict.get "filepath" d = Some (JStr (entry_path real)).
Proof.
  intros Htool Hfp Hname d Hrun. unfold normalize_arguments in Hrun.
  destruct (normalize_sheet_names (canonicalize_keys args))
    as [n|e] eqn:En; [|discriminate Hrun].
  pose proof (normalize_sheet_names_other _ _ En) as Hsame.
  assert (Hneq : eq_str (JStr tool_name) "create_workbook" = false)
    by (apply String.eqb_neq; exact Htool).
  rewrite Hneq in Hrun. cbv [negb] in Hrun.
  assert (Hn : PyDict.get "filepath" n = Some (JStr s))
    by (rewrite Hsame by discriminate; exact Hfp).
  unfold resolve_key at 1 in Hrun. rewrite Hn in Hrun.
  cbv [is_none] in Hrun.
  destruct (resolve_file (JStr s) w) as [[p|e] w1] eqn:Eres;
    [|discriminate Hrun].
  destruct (resolve_file_returns_listed _ _ _ _ Hname Eres)
    as (real & Hin & Hlow & ->).
  destruct (resolve_key "old_filepath" _ w1) as [[n2|e] w2] eqn:Eold;
    [|discriminate Hrun].
  simpl in Hrun.
  destruct (canonicalize_new_cases _ _ Hrun) as [Hk _].
  exists real. split; [exact Hin|]. split; [exact Hlow|].
  rewrite Hk by discriminate.
  rewrite (resolve_key_other _ _ _ _ _ Eold) by discriminate.
  apply dict_get_set_eq.
Qed.

End ResolvedPaths.

Section ResolvedPathsExamples.
Import Json Exn Runtime PyPath Workspace Normalizer Sim.

(** A read of ["../reports/budget"] in a workspace holding
    ["Budget.xlsx"]. *)
Lemma normalize_arguments_resolves_witness :
  exists real,
    real ∈ glob_xlsx (fresh_disk ["Budget.xlsx"])
    /\ PyStr.lower real
       = PyStr.lower (canonical_name (name "../reports/budget"))
    /\ PyDict.get "filepath"
         [("filepath", JStr "/excel_files/Budget.xlsx");
          ("sheet_name", JStr "S")]
       = Some (JStr (entry_path real)).
Proof.
  exact (normalize_arguments_resolves_to_listed_file
           [("file", JStr "../reports/budget"); ("sheet", JStr "S")]
           "read_data_from_excel" "../reports/budget"
           (fresh_world ["Budget.xlsx"])
           ltac:(discriminate) eq_refl ltac:(discriminate)
           [("filepath", JStr "/excel_files/Budget.xlsx");
            ("sheet_name", JStr "S")]
           ltac:(vm_compute; reflexivity)).
Defined.

End ResolvedPathsExamples.

Section Escapes.
Import Json Exn Runtime PyPath Workspace Agent AgentTerms.
Context {disk M L : Type} `{Host disk} `{Python} `{Mcp M} `{Llm L}.

Lemma get_llm_decision_raises (p : prompt) (s : @agent disk M L) (e : exn) :
  fst (get_llm_decision p s) = Raise e -> e = AttributeError.
Proof.
  unfold get_llm_decision.
  destruct (call_llm p (llm s)) as [[success response] l].
  destruct success; simpl; [|discriminate].
  destruct (Utils.extract_json_from_text json_loads response) as [data|];
    [|discriminate].
  destruct (truthy data); simpl; [|discriminate].
  destruct data; simpl; try discriminate; now intros [= <-].
Qed.

Lemma body_raises (user_input : string) (error : json)
    (s : @agent disk M L) (e : exn) :
  fst (body user_input error s) = Raise e -> workspace_error e = false.
Proof.
  unfold body, bind.
  pose proof (get_llm_decision_raises (Prompt user_input error) s) as Hllm.
  destruct (get_llm_decision (Prompt user_input error) s)
    as [[[[success tool_name] arguments]|e0] s1]; simpl in Hllm.
  - destruct (negb success || negb (truthy tool_name)); [discriminate|].
    destruct (attempt user_input tool_name arguments s1) as [[fl|e1] s2];
      [discriminate|].
    destruct e1; simpl; try discriminate; now intros [= <-].
  - simpl. intros [= <-]. now rewrite (Hllm e0 eq_refl).
Qed.

Lemma retry_loop_raises (n : nat) (user_input : string) :
  forall (error : json) (s : @agent disk M L) (e : exn),
    fst (retry_loop n user_input error s) = Raise e ->
    workspace_error e = false.
Proof.
  induction n as [|n IH]; intros error s e; simpl; [discriminate|].
  pose proof (body_raises user_input error s) as Hb.
  destruct (body user_input error s) as [[[error'|r]|e0] s1]; simpl in Hb.
  - apply IH.
  - discriminate.
  - simpl. intros [= <-]. now apply Hb.
Qed.

(** X20.  Neither workspace error leaves [execute_with_retry]: whatever the
    model, the tool process and the disk do, an exception that escapes the
    call is never a [RecoverableWorkspaceError] nor a
    [FatalWorkspaceError].  (The first is turned into the error of the next
    prompt, the second into the failure ["Fatal workspace error: ..."].) *)
Theorem execute_with_retry_contains_workspace_errors
    (user_input : string) (s s' : @agent disk M L) (e : exn) :
  execute_with_retry user_input s = Some (Raise e, s') ->
  workspace_error e = false.
Proof.
  unfold execute_with_retry. destruct (lock s); [discriminate|].
  pose proof (retry_loop_raises MAX_RETRIES user_input JNull (take_lock s))
    as Hloop.
  destruct (retry_loop MAX_RETRIES user_input JNull (take_lock s))
    as [[[error|r]|e0] s1]; simpl in Hloop; try discriminate.
  intros [= <- _]. now apply Hloop.
Qed.

End Escapes.

Section EscapesExamples.
Import Json Exn Runtime PyPath Workspace Agent AgentTerms Sim Runs.

(** The registered file was never created: the look-up of the active file
    fails with a [KeyError], which does escape. *)
Lemma execute_with_retry_escape_witness :
  exists s',
    execute_with_retry "read sheet S"
      (idle (snd (register_file "Budget" (fresh_world []))) []
            [(true, propose_read_active)])
    = Some (Raise (KeyError "Budget.xlsx"), s')
    /\ workspace_error (KeyError "Budget.xlsx") = false.
Proof.
  eexists. split; [vm_compute; reflexivity|].
  refine (execute_with_retry_contains_workspace_errors
            "read sheet S"
            (idle (snd (register_file "Budget" (fresh_world []))) []
                  [(true, propose_read_active)]) _ _ _).
  vm_compute. reflexivity.
Defined.

End EscapesExamples.
